(** * Insightify: the sheet enricher (transform.py) and the dashboard's
      data shaping (app.py), embedded and verified.

    The development follows the two source files:
    - [Float64]: the binary64 arithmetic pandas computes with, and the
      [f"{x:.1f}"] formatting of the yearly change;
    - [Frame]: the part of a pandas DataFrame the program relies on (an
      index of row labels and named, typed columns);
    - [Transform]: transform.py, the join of the Orders, People and Returns
      sheets;
    - [App]: app.py, the loading step, the year-over-year change, the year
      filter, the KPI row and the chart shaping functions. *)

From Stdlib Require Import ZArith String Ascii List Lia DecimalString.
From Stdlib Require Import Floats.SpecFloat.
From stdpp Require Import base option list sorting gmap strings.

Open Scope string_scope.
Open Scope Z_scope.

(** ** Exceptions and results

    A Python call either returns or raises; the exceptions this program can
    meet in its data shaping are the ones below. [DtypeError] is not a Python
    exception: it marks a column whose dtype this model does not cover for
    the operation asked (pandas may coerce or parse there). *)

Inductive exn :=
| KeyError (key : string)
| TypeError
| ValueError
| IndexError
| OverflowError
| DtypeError (column : string).

Inductive result (A : Type) :=
| Ok (a : A)
| Raise (e : exn).
Arguments Ok {A} a.
Arguments Raise {A} e.

#[export] Instance result_ret : MRet result := @Ok.
#[export] Instance result_bind : MBind result := λ A B f m,
  match m with Ok a => f a | Raise e => Raise e end.
#[export] Instance result_fmap : FMap result := λ A B f m,
  match m with Ok a => Ok (f a) | Raise e => Raise e end.

(** A loop that collects one result per element and stops at the first
    exception. *)
Definition for_each {A B} (f : A → result B) (l : list A) : result (list B) :=
  mapM f l.

(** [o !!! e]-like access: a missing entry raises. *)
Definition or_raise {A} (e : exn) (o : option A) : result A :=
  match o with Some a => Ok a | None => Raise e end.

(** ** Binary64 *)

Module Float64.

Definition float := spec_float.

Definition prec : Z := 53.
Definition emax : Z := 1024.

Definition add : float → float → float := SFadd prec emax.
Definition sub : float → float → float := SFsub prec emax.
Definition mul : float → float → float := SFmul prec emax.
Definition div : float → float → float := SFdiv prec emax.
Definition ltb : float → float → bool := SFltb.

(** Conversion of an int64 to float64, to nearest even. *)
Definition of_Z (z : Z) : float := binary_normalize prec emax z 0 false.

Definition zero : float := S754_zero false.
Definition nan : float := S754_nan.

#[export] Instance float_eq_dec : EqDecision float.
Proof. solve_decision. Defined.

Definition is_nan (x : float) : bool :=
  match x with S754_nan => true | _ => false end.

(** pandas' [notnull] on a float: everything except NaN (infinities are
    not null). *)
Definition notnull (x : float) : bool := negb (is_nan x).

(** *** [f"{x:.1f}"]

    Python prints the decimal that is nearest to the exact binary value,
    ties to even, with one digit after the point; the sign is kept on
    zeros and on values that round to zero. *)

Definition round_half_even (num den : Z) : Z :=
  let q := num / den in
  let r := num mod den in
  match 2 * r ?= den with
  | Lt => q
  | Gt => q + 1
  | Eq => if Z.even q then q else q + 1
  end.

(** The number of tenths nearest to [m * 2^e]. *)
Definition tenths (m : positive) (e : Z) : Z :=
  match e with
  | Zneg p => round_half_even (10 * Zpos m) (2 ^ Zpos p)
  | _ => 10 * Zpos m * 2 ^ e
  end.

Definition digits (n : Z) : string :=
  NilZero.string_of_uint (N.to_uint (Z.to_N n)).

Definition sign_str (s : bool) : string := if s then "-" else "".

Definition format_1f (x : float) : string :=
  match x with
  | S754_nan => "nan"
  | S754_infinity s => sign_str s ++ "inf"
  | S754_zero s => sign_str s ++ "0.0"
  | S754_finite s m e =>
      let t := tenths m e in
      sign_str s ++ digits (t / 10) ++ "." ++ digits (t mod 10)
  end.

End Float64.

Import Float64.

(** ** Data frames

    A frame is an index of row labels and a list of named columns. A column
    has one dtype, as in pandas: text ([object] holding [str]), [float64]
    (NaN is the missing value), [int64], [datetime64[ns]] (nanoseconds since
    the epoch) and [bool]. The cells of a text or date column are all
    filled in: blank cells in such columns are outside this model. *)

Module Frame.

Inductive Cell :=
| CStr (s : string)
| CFloat (x : float)
| CInt (z : Z)
| CTime (ns : Z)
| CBool (b : bool).

#[export] Instance Cell_eq_dec : EqDecision Cell.
Proof. solve_decision. Defined.

Inductive Column :=
| ObjectCol (v : list string)
| Float64Col (v : list float)
| Int64Col (v : list Z)
| DatetimeCol (v : list Z)
| BoolCol (v : list bool).

Definition cells (c : Column) : list Cell :=
  match c with
  | ObjectCol v => CStr <$> v
  | Float64Col v => CFloat <$> v
  | Int64Col v => CInt <$> v
  | DatetimeCol v => CTime <$> v
  | BoolCol v => CBool <$> v
  end.

Record DataFrame := mkDataFrame {
  index : list Z;
  columns : list (string * Column)
}.

Definition names (df : DataFrame) : list string := fst <$> columns df.

(** Every column is as long as the index. *)
Definition rectangular (df : DataFrame) : Prop :=
  Forall (λ nc, length (cells nc.2) = length (index df)) (columns df).

Fixpoint assoc {A} (k : string) (l : list (string * A)) : option A :=
  match l with
  | [] => None
  | (k', a) :: l' => if decide (k = k') then Some a else assoc k l'
  end.

(** [d[k] = a] on an insertion-ordered table: an existing entry is
    replaced where it stands, a new one goes last. *)
Fixpoint assoc_set {A} (k : string) (a : A) (l : list (string * A))
  : list (string * A) :=
  match l with
  | [] => [(k, a)]
  | (k', a') :: l' =>
      if decide (k = k') then (k, a) :: l' else (k', a') :: assoc_set k a l'
  end.

(** [df[name]] *)
Definition getitem (df : DataFrame) (name : string) : result Column :=
  or_raise (KeyError name) (assoc name (columns df)).

(** [df[name] = col], for a column computed from [df] itself. *)
Definition setitem (df : DataFrame) (name : string) (col : Column) : DataFrame :=
  {| index := index df; columns := assoc_set name col (columns df) |}.

Definition text_col (df : DataFrame) (name : string) : result (list string) :=
  c ← getitem df name;
  match c with ObjectCol v => Ok v | _ => Raise (DtypeError name) end.

Definition int_col (df : DataFrame) (name : string) : result (list Z) :=
  c ← getitem df name;
  match c with Int64Col v => Ok v | _ => Raise (DtypeError name) end.

(** [pd.to_datetime(df[name])] of a column that holds dates already. *)
Definition datetime_col (df : DataFrame) (name : string) : result (list Z) :=
  c ← getitem df name;
  match c with DatetimeCol v => Ok v | _ => Raise (DtypeError name) end.

(** Selection of the entries of [l] whose flag in [m] is set. *)
Fixpoint mask {A} (m : list bool) (l : list A) : list A :=
  match m, l with
  | b :: m', x :: l' => if b then x :: mask m' l' else mask m' l'
  | _, _ => []
  end.

Definition col_mask (m : list bool) (c : Column) : Column :=
  match c with
  | ObjectCol v => ObjectCol (mask m v)
  | Float64Col v => Float64Col (mask m v)
  | Int64Col v => Int64Col (mask m v)
  | DatetimeCol v => DatetimeCol (mask m v)
  | BoolCol v => BoolCol (mask m v)
  end.

(** [df[m]] for a boolean series [m] over the rows of [df]: the rows keep
    their labels. *)
Definition loc_mask (df : DataFrame) (m : list bool) : DataFrame :=
  {| index := mask m (index df);
     columns := prod_map id (col_mask m) <$> columns df |}.

(** *** The rows of a frame *)

Definition Row : Type := Z * list (string * Cell).

Definition heads (cols : list (string * list Cell)) : list (string * Cell) :=
  omap (λ nc, pair nc.1 <$> head nc.2) cols.

Definition tails (cols : list (string * list Cell)) : list (string * list Cell) :=
  prod_map id tail <$> cols.

Fixpoint rows_of (idx : list Z) (cols : list (string * list Cell)) : list Row :=
  match idx with
  | [] => []
  | i :: idx' => (i, heads cols) :: rows_of idx' (tails cols)
  end.

Definition rows (df : DataFrame) : list Row :=
  rows_of (index df) (prod_map id cells <$> columns df).

(** [row[name]] *)
Definition row_get (r : Row) (name : string) : option Cell := assoc name r.2.

(** *** Spreadsheets

    A sheet is a grid, kept by column: the header cell and the cells below
    it. [to_excel] is called without [index=False]: the row labels are
    written first, under an empty header cell. *)

Definition Sheet : Type := list (string * list Cell).

Definition to_excel (df : DataFrame) : Sheet :=
  ("", CInt <$> index df) :: (prod_map id cells <$> columns df).

(** int64 arithmetic wraps around. *)
Definition wrap64 (z : Z) : Z := (z + 2 ^ 63) mod 2 ^ 64 - 2 ^ 63.

Definition in_int64 (z : Z) : bool := ((- 2 ^ 63 <=? z) && (z <? 2 ^ 63))%Z.

(** [dict(pairs)]: a later pair replaces an earlier one with the same key. *)
Definition dict `{Countable K} {V} (pairs : list (K * V)) : gmap K V :=
  foldl (λ d kv, <[kv.1 := kv.2]> d) ∅ pairs.

(** [d[k]] *)
Definition dict_getitem {V} (d : gmap string V) (k : string) : result V :=
  or_raise (KeyError k) (d !! k).

End Frame.

Import Frame.

(** ** transform.py *)

Module Transform.

(** [mapping_manager = dict(data_reg_manager[["Region", "Regional Manager"]].values)] *)
Definition mapping_manager (data_reg_manager : DataFrame)
  : result (gmap string string) :=
  region ← text_col data_reg_manager "Region";
  manager ← text_col data_reg_manager "Regional Manager";
  Ok (dict (zip region manager)).

(** [list_retentions = data_retention["Order ID"].to_list()] *)
Definition list_retentions (data_retention : DataFrame) : result (list string) :=
  text_col data_retention "Order ID".

(** [lambda order_id: order_id in list_retentions] *)
Definition is_retention (list_retentions : list string) (order_id : string) : bool :=
  bool_decide (order_id ∈ list_retentions).

(** [lambda region: mapping_manager[region]] *)
Definition region_manager (mapping_manager : gmap string string) (region : string)
  : result string :=
  dict_getitem mapping_manager region.

(** The frame that the script hands to [to_excel]. [df] is the dictionary
    of the parsed sheets, by sheet name. *)
Definition enrich (df : gmap string DataFrame) : result DataFrame :=
  data ← or_raise (KeyError "Orders") (df !! "Orders");
  data_reg_manager ← or_raise (KeyError "People") (df !! "People");
  data_retention ← or_raise (KeyError "Returns") (df !! "Returns");
  mapping_manager ← mapping_manager data_reg_manager;
  list_retentions ← list_retentions data_retention;
  order_ids ← text_col data "Order ID";
  let data :=
    setitem data "is_retention"
      (BoolCol (is_retention list_retentions <$> order_ids)) in
  regions ← text_col data "Region";
  managers ← for_each (region_manager mapping_manager) regions;
  Ok (setitem data "region_manager" (ObjectCol managers)).

(** The script: the sheet written at dataset/superstore_enriched.xlsx, or
    the exception that ends the run before anything is written. *)
Definition main (df : gmap string DataFrame) : result Sheet :=
  to_excel <$> enrich df.

End Transform.

(** ** app.py *)

Module App.

(** *** Dates

    A [datetime64[ns]] value counts nanoseconds from 1970-01-01; its
    calendar fields are those of the proleptic Gregorian calendar. *)

Definition ns_per_day : Z := 86400 * 10 ^ 9.

(** Year and month of the day that lies [z] days after 1970-01-01. *)
Definition civil_from_days (z : Z) : Z * Z :=
  let z := z + 719468 in
  let era := z / 146097 in
  let doe := z - era * 146097 in
  let yoe := (doe - doe / 1460 + doe / 36524 - doe / 146096) / 365 in
  let doy := doe - (365 * yoe + yoe / 4 - yoe / 100) in
  let mp := (5 * doy + 2) / 153 in
  let m := if (mp <? 10)%Z then mp + 3 else mp - 9 in
  (yoe + era * 400 + (if (m <=? 2)%Z then 1 else 0), m).

(** [.dt.year] and [.dt.month] *)
Definition dt_year (ns : Z) : Z := (civil_from_days (ns / ns_per_day)).1.
Definition dt_month (ns : Z) : Z := (civil_from_days (ns / ns_per_day)).2.

(** [MONTHS = list(calendar.month_abbr)[1:]] *)
Definition MONTHS : list string :=
  ["Jan"; "Feb"; "Mar"; "Apr"; "May"; "Jun";
   "Jul"; "Aug"; "Sep"; "Oct"; "Nov"; "Dec"].

(** [.dt.strftime('%b')] *)
Definition strftime_b (ns : Z) : string :=
  default "" (MONTHS !! Z.to_nat (dt_month ns - 1)).

(** [abs(ship - order).dt.days]: the difference of two timestamps is a
    [timedelta64[ns]], an int64 again, and pandas raises where it does
    not fit. *)
Definition days_between (ship order : Z) : result Z :=
  let delta := ship - order in
  if in_int64 delta && in_int64 (- delta)
  then Ok (Z.abs delta / ns_per_day)
  else Raise OverflowError.

(** [str(n)] for an integer. *)
Definition str_Z (n : Z) : string :=
  if (n <? 0)%Z then "-" ++ digits (- n) else digits n.

(** *** Aggregation *)

(** The aggregation verbs the program passes to [agg]. *)
Inductive Verb := Sum | Count.

(** An aggregate is an int64, a float64 or, for a text column that was
    summed, the concatenated text. *)
Inductive Scalar := SInt (z : Z) | SFloat (x : float) | SStr (s : string).

(** The operand of a float64 division: an int64 is converted, a text
    cannot be divided. *)
Definition to_float (n : Scalar) : result float :=
  match n with
  | SInt z => Ok (of_Z z)
  | SFloat x => Ok x
  | SStr _ => Raise TypeError
  end.

(** The selected year: the select box offers ["All"] and the years of the
    data. *)
Inductive Selected := All | Year (y : Z).

(** A yearly series of texts, by ascending year. *)
Definition Series : Type := list (Z * string).

(** [series.get(key, default)] *)
Fixpoint series_get (s : Series) (key : Z) (dflt : string) : string :=
  match s with
  | [] => dflt
  | (k, v) :: s' => if decide (k = key) then v else series_get s' key dflt
  end.

(** [series.iloc[-1]] *)
Definition iloc_last (s : Series) : result string :=
  or_raise IndexError (snd <$> last s).

(** A KPI card: label, headline value, delta. *)
Inductive Headline := Text (s : string) | Number (n : Z).

Record Metric := mkMetric {
  label : string;
  value : Headline;
  delta : string
}.

(** The keys of a group-by: the distinct values, in the order [R]. *)
Definition group_keys `{EqDecision K} (R : relation K)
    `{∀ x y, Decision (R x y)} (keys : list K) : list K :=
  merge_sort R (remove_dups keys).

(** [keys == k], row by row. *)
Definition is_key `{EqDecision K} (k : K) (keys : list K) : list bool :=
  (λ k', bool_decide (k' = k)) <$> keys.

(** *** The frame as a shared object

    A chart function receives the frame object [df]; an assignment
    [df[name] = ...] inside it changes the caller's frame. [chart A] is a
    computation that reads and may update that frame, and returns or
    raises. *)

Definition chart (A : Type) : Type := DataFrame → result (A * DataFrame).

#[export] Instance chart_ret : MRet chart := λ A a df, Ok (a, df).
#[export] Instance chart_bind : MBind chart := λ A B f m df,
  match m df with Ok (a, df') => f a df' | Raise e => Raise e end.

(** A read of the frame. *)
Definition read {A} (f : DataFrame → result A) : chart A :=
  λ df, match f df with Ok a => Ok (a, df) | Raise e => Raise e end.

(** A value or an exception that does not depend on the frame. *)
Definition lift {A} (r : result A) : chart A := read (λ _, r).

(** [df[name] = col] *)
Definition assign (name : string) (col : Column) : chart unit :=
  λ df, Ok ((), setitem df name col).

(** *** Colours *)

Definition CUSTOM_COLORS : gmap string string :=
  dict [("Furniture", "#005C53");
        ("Office Supplies", "#9FC131");
        ("Technology", "#042940")].

(** [color_palette] of [create_order_distribution_chart] *)
Definition region_palette : gmap string string :=
  dict [("West", "#005C53");
        ("East", "#9FC131");
        ("Central", "#DBF227");
        ("South", "#D6FF79")].

(** [color_palette] of [create_monthly_sales_trend] *)
Definition year_palette : gmap Z string :=
  dict [(2020, "#005C53");
        (2021, "#9FC131");
        (2022, "#DBF227");
        (2023, "#D6FF79")].

Definition hex_digit (c : ascii) : option Z :=
  let n := Z.of_N (N_of_ascii c) in
  if ((48 <=? n) && (n <=? 57))%Z then Some (n - 48)
  else if ((65 <=? n) && (n <=? 70))%Z then Some (n - 55)
  else if ((97 <=? n) && (n <=? 102))%Z then Some (n - 87)
  else None.

(** [int(s, 16)] of a run of hexadecimal digits. *)
Definition int16 (s : string) : result Z :=
  match s with
  | "" => Raise ValueError
  | _ =>
      or_raise ValueError
        (foldl (λ acc c, a ← acc; d ← hex_digit c; Some (16 * a + d))
               (Some 0) (list_ascii_of_string s))
  end.

(** [s.lstrip('#')] *)
Fixpoint lstrip_hash (s : string) : string :=
  match s with
  | String "#" s' => lstrip_hash s'
  | _ => s
  end.

(** [f"rgba{tuple(int(h[i:i+2], 16) for i in (0, 2, 4)) + (0.7,)}"] for
    [h = region_color.lstrip('#')] *)
Definition rgba (region_color : string) : result string :=
  let h := lstrip_hash region_color in
  r ← int16 (substring 0 2 h);
  g ← int16 (substring 2 2 h);
  b ← int16 (substring 4 2 h);
  Ok ("rgba(" ++ str_Z r ++ ", " ++ str_Z g ++ ", " ++ str_Z b ++ ", 0.7)").

(** *** What the chart functions hand to the renderer *)

(** One marker of the category scatter plot. *)
Record CategoryTrace := mkCategoryTrace {
  ct_x : Scalar;
  ct_y : Scalar;
  ct_name : string;
  ct_size : float;
  ct_color : string
}.

(** The parallel arrays of the sunburst. *)
Record Sunburst := mkSunburst {
  labels : list string;
  parents : list string;
  values : list Z;
  colors : list string
}.

(** One line of the monthly trend. *)
Record YearTrace := mkYearTrace {
  yt_x : list string;
  yt_y : list Scalar;
  yt_name : string;
  yt_color : string
}.

(** The bar chart of the top products and its table. *)
Record BarChart := mkBarChart {
  bc_title : string;
  bc_x : string;
  bc_y : string;
  bc_data : list (string * Scalar)
}.

Record Gauge := mkGauge {
  g_value : Z;
  g_axis : Z * Z
}.

(** The stacked bars are drawn from the frame itself. *)
Record StackedBars := mkStackedBars {
  sb_title : string;
  sb_data : DataFrame
}.

(** Text order, by code unit. *)
Definition str_le (a b : string) : Prop := String.leb a b = true.
#[export] Instance str_le_dec a b : Decision (str_le a b) :=
  decide (String.leb a b = true).

Definition pair_le (a b : string * string) : Prop :=
  String.ltb a.1 b.1 = true ∨ (a.1 = b.1 ∧ str_le a.2 b.2).
#[export] Instance pair_le_dec a b : Decision (pair_le a b) :=
  decide (String.ltb a.1 b.1 = true ∨ (a.1 = b.1 ∧ str_le a.2 b.2)).

(** The order of [sort_values(['year', 'Month_num'])] on the keys
    (year, Month, Month_num). *)
Definition month_le (a b : Z * string * Z) : Prop :=
  (a.1.1 < b.1.1 ∨ (a.1.1 = b.1.1 ∧ a.2 ≤ b.2))%Z.
#[export] Instance month_le_dec a b : Decision (month_le a b) :=
  decide ((a.1.1 < b.1.1 ∨ (a.1.1 = b.1.1 ∧ a.2 ≤ b.2))%Z).

Definition scalar_notnull (v : Scalar) : bool :=
  match v with SFloat x => notnull x | _ => true end.

(** [a < b] on the aggregates of one column. *)
Definition scalar_ltb (a b : Scalar) : bool :=
  match a, b with
  | SInt x, SInt y => (x <? y)%Z
  | SFloat x, SFloat y => ltb x y
  | _, _ => false
  end.

(** Insertion into a list in descending order, behind the entries that are
    not smaller. *)
Fixpoint insert_desc {K} (kv : K * Scalar) (l : list (K * Scalar))
  : list (K * Scalar) :=
  match l with
  | [] => [kv]
  | h :: t =>
      if scalar_ltb h.2 kv.2 then kv :: h :: t else h :: insert_desc kv t
  end.

Definition is_text (v : Scalar) : bool :=
  match v with SStr _ => true | _ => false end.

(** [series.nlargest(n)]: the [n] largest values, largest first; of equal
    values the one that comes first in the series goes first. The entries
    that are null come behind the numbers, in the order of the series, as
    far as [n] reaches; a text series is refused. *)
Definition nlargest {K} (n : nat) (l : list (K * Scalar))
  : result (list (K * Scalar)) :=
  if existsb (λ kv, is_text kv.2) l then Raise TypeError
  else
    let dropped := filter (λ kv, scalar_notnull kv.2 = true) l in
    let nan_index := filter (λ kv, scalar_notnull kv.2 = false) l in
    Ok (take n (foldl (λ acc kv, insert_desc kv acc) [] dropped
                ++ nan_index)%list).

(** [int(np.round(x))]: to the nearest integer, ties to even. *)
Definition int_round (x : float) : result Z :=
  match x with
  | S754_nan => Raise ValueError
  | S754_infinity _ => Raise OverflowError
  | S754_zero _ => Ok 0
  | S754_finite s m e =>
      let n := match e with
               | Zneg p => round_half_even (Zpos m) (2 ^ Zpos p)
               | _ => Zpos m * 2 ^ e
               end in
      Ok (if s then - n else n)
  end.

Section Shaping.

(** The floating-point sum of the non-null values of a group, in row
    order, as pandas' group-by computes it; and the sum of a whole
    column, as [Series.sum] computes it. The order of the additions and
    their compensation are the library's: everything below holds
    whatever they are. *)
Variable group_sum : list float → float.
Variable series_sum : list float → float.

(** [millify(x, precision=2)] *)
Variable millify : Scalar → result string.

Definition int_sum (v : list Z) : Z := wrap64 (foldr Z.add 0 v).

(** [count]: the number of cells that are not null. *)
Definition count_notnull (c : Column) : Z :=
  match c with
  | Float64Col v => Z.of_nat (length (filter (λ x, notnull x = true) v))
  | _ => Z.of_nat (length (cells c))
  end.

(** [sum] of a column of truth values: the number of true ones. *)
Definition count_true (v : list bool) : Z :=
  Z.of_nat (length (filter (λ b, b = true) v)).

(** One aggregate of one group of a column. Summing text concatenates
    it; dates cannot be summed. *)
Definition agg (metric : Verb) (c : Column) : result Scalar :=
  match metric, c with
  | Count, _ => Ok (SInt (count_notnull c))
  | Sum, Float64Col v =>
      Ok (SFloat (group_sum (filter (λ x, notnull x = true) v)))
  | Sum, Int64Col v => Ok (SInt (int_sum v))
  | Sum, BoolCol v => Ok (SInt (count_true v))
  | Sum, ObjectCol v => Ok (SStr (foldr String.append "" v))
  | Sum, DatetimeCol _ => Raise TypeError
  end.

(** [df.groupby('year')[col].agg([metric])[metric]] *)
Definition groupby_year_agg (col : string) (df : DataFrame) (metric : Verb)
  : result (list (Z * Scalar)) :=
  year ← int_col df "year";
  c ← getitem df col;
  for_each (λ y, pair y <$> agg metric (col_mask (is_key y year) c))
       (group_keys Z.le year).

(** [series.pct_change()]: [series / series.shift(1) - 1]. The series is
    one of aggregates: a count is never null, and a sum is null only if
    infinities of both signs meet in it; the filling of null entries that
    older pandas does first has nothing to fill otherwise, and is left
    out. *)
Definition pct_change (v : list float) : list float :=
  match v with
  | [] => []
  | _ :: v' =>
      nan :: zip_with (λ prev cur, sub (div cur prev) (of_Z 1)) v v'
  end.

(** [series.fillna(0)] *)
Definition fillna0 (x : float) : float := if is_nan x then of_Z 0 else x.

(** [lambda x: f"{x:.1f}%" if pd.notnull(x) else 'NaN'] *)
Definition show_change (x : float) : string :=
  if notnull x then format_1f x ++ "%" else "NaN".

Definition get_per_year_change (col : string) (df : DataFrame) (metric : Verb)
  : result Series :=
  grp_years ← groupby_year_agg col df metric;
  values ← for_each (to_float ∘ snd) grp_years;
  let changed := (λ x, mul x (of_Z 100)) <$> pct_change values in
  let filled := fillna0 <$> changed in
  Ok (zip (fst <$> grp_years) (show_change <$> filled)).

(** [load_data], from the frame read from the enriched sheet. *)
Definition load_data (raw : DataFrame)
  : result (DataFrame * Series * Series * Series) :=
  order_date ← datetime_col raw "Order Date";
  let df := setitem raw "year" (Int64Col (dt_year <$> order_date)) in
  ship_date ← datetime_col df "Ship Date";
  order_date ← datetime_col df "Order Date";
  days ← for_each (λ so, days_between so.1 so.2) (zip ship_date order_date);
  let df := setitem df "days to ship" (Int64Col days) in
  sales ← get_per_year_change "Sales" df Sum;
  profit ← get_per_year_change "Profit" df Sum;
  orders ← get_per_year_change "Order ID" df Count;
  Ok (df, sales, profit, orders).

(** [filter_data] *)
Definition filter_data (df : DataFrame) (selected_year : Selected)
  : result DataFrame :=
  match selected_year with
  | Year y => year ← int_col df "year"; Ok (loc_mask df (is_key y year))
  | All => Ok df
  end.

(** [series.sum()] of a column. *)
Definition column_sum (c : Column) : result Scalar :=
  match c with
  | Float64Col v =>
      Ok (SFloat (series_sum (filter (λ x, notnull x = true) v)))
  | Int64Col v => Ok (SInt (int_sum v))
  | BoolCol v => Ok (SInt (count_true v))
  | ObjectCol v => Ok (SStr (foldr String.append "" v))
  | DatetimeCol _ => Raise TypeError
  end.

(** [series.nunique()] of a text column. *)
Definition nunique (v : list string) : Z := Z.of_nat (length (remove_dups v)).

(** [create_kpi_metrics]: the three cards it renders. *)
Definition create_kpi_metrics (df : DataFrame)
    (grp_years_sales grp_year_profit grp_year_orders : Series)
    (selected_year : Selected) : result (list Metric) :=
  total_sales ← getitem df "Sales" ≫= column_sum;
  total_profit ← getitem df "Profit" ≫= column_sum;
  total_orders ← nunique <$> text_col df "Order ID";
  '(sales_change, profit_change, orders_change) ←
    match selected_year with
    | All =>
        s ← iloc_last grp_years_sales;
        p ← iloc_last grp_year_profit;
        o ← iloc_last grp_year_orders;
        Ok (s, p, o)
    | Year y =>
        Ok (series_get grp_years_sales y "0%",
            series_get grp_year_profit y "0%",
            series_get grp_year_orders y "0%")
    end;
  sales_text ← millify total_sales;
  profit_text ← millify total_profit;
  Ok [ mkMetric "Sales" (Text ("$" ++ sales_text)) sales_change;
       mkMetric "Profit" (Text ("$" ++ profit_text)) profit_change;
       mkMetric "Orders" (Number total_orders) orders_change ].

(** *** The chart functions *)

(** [df.groupby(key)[...].agg(metric)] for the rows selected by [m]. *)
Definition agg_of (metric : Verb) (c : Column) (m : list bool) : result Scalar :=
  agg metric (col_mask m c).

Definition create_category_performance_chart : chart (list CategoryTrace) :=
  category ← read (λ df, text_col df "Category");
  sales ← read (λ df, getitem df "Sales");
  profit ← read (λ df, getitem df "Profit");
  order_id ← read (λ df, getitem df "Order ID");
  category_perf ← lift (for_each (λ k,
      let m := is_key k category in
      s ← agg_of Sum sales m;
      p ← agg_of Sum profit m;
      n ← agg_of Count order_id m;
      Ok (k, s, p, n)) (group_keys str_le category));
  lift (for_each (λ '(k, s, p, n),
      size ← (λ x, div x (of_Z 50)) <$> to_float n;
      color ← dict_getitem CUSTOM_COLORS k;
      Ok (mkCategoryTrace s p k size color)) category_perf).

Definition create_order_distribution_chart : chart Sunburst :=
  region ← read (λ df, text_col df "Region");
  segment ← read (λ df, text_col df "Segment");
  let keys := zip region segment in
  let order_dist :=
    (λ k, (k, Z.of_nat (length (filter (λ k', k' = k) keys))))
      <$> group_keys pair_le keys in
  top ← lift (for_each (λ r,
      let region_total :=
        int_sum (snd <$> filter (λ kc : string * string * Z, kc.1.1 = r)
                                order_dist) in
      color ← dict_getitem region_palette r;
      Ok (r, "", region_total, color))
    (remove_dups (fst ∘ fst <$> order_dist)));
  leaves ← lift (for_each (λ '((r, s), count),
      region_color ← dict_getitem region_palette r;
      color ← rgba region_color;
      Ok (r ++ " - " ++ s, r, count, color)) order_dist);
  let all := (top ++ leaves)%list in
  mret (mkSunburst ((λ x, x.1.1.1) <$> all) ((λ x, x.1.1.2) <$> all)
                   ((λ x, x.1.2) <$> all) (snd <$> all)).

Definition create_monthly_sales_trend : chart (list YearTrace) :=
  order_date ← read (λ df, datetime_col df "Order Date");
  assign "Month" (ObjectCol (strftime_b <$> order_date));;
  order_date ← read (λ df, datetime_col df "Order Date");
  assign "Month_num" (Int64Col (dt_month <$> order_date));;
  year ← read (λ df, int_col df "year");
  month ← read (λ df, text_col df "Month");
  month_num ← read (λ df, int_col df "Month_num");
  sales ← read (λ df, getitem df "Sales");
  let keys := zip (zip year month) month_num in
  monthly_sales ← lift (for_each
      (λ k, pair k <$> agg_of Sum sales (is_key k keys))
      (group_keys month_le keys));
  mret ((λ y,
           let year_data := filter (λ r, r.1.1.1 = y) monthly_sales in
           mkYearTrace ((λ r, r.1.1.2) <$> year_data) (snd <$> year_data)
                       (str_Z y) (default "#000000" (year_palette !! y)))
        <$> remove_dups ((λ r, r.1.1.1) <$> monthly_sales)).

(** [create_top_products_chart]: the chart it renders. *)
Definition create_top_products_chart (metric title : string) : chart BarChart :=
  product ← read (λ df, text_col df "Product Name");
  c ← read (λ df, getitem df metric);
  sums ← lift (for_each (λ k, pair k <$> agg_of Sum c (is_key k product))
                    (group_keys str_le product));
  top_products ← lift (nlargest 10 sums);
  mret (mkBarChart title ("sum(" ++ metric ++ "):Q") "Product Name:N"
                   top_products).

(** [create_product_charts] *)
Definition create_product_charts : chart (BarChart * BarChart) :=
  c1 ← create_top_products_chart "Sales" "Top 10 Selling Products";
  c2 ← create_top_products_chart "Profit" "Top 10 Most Profitable Products";
  mret (c1, c2).

Definition create_shipping_gauge : chart Gauge :=
  days ← read (λ df, int_col df "days to ship");
  let mean :=
    match days with
    | [] => nan
    | _ => div (series_sum (of_Z <$> days)) (of_Z (Z.of_nat (length days)))
    end in
  value ← lift (int_round mean);
  mret (mkGauge value (foldr Z.min (default 0 (head days)) days,
                       foldr Z.max (default 0 (head days)) days)).

Definition create_sales_trend_chart : chart StackedBars :=
  read (λ df, Ok (mkStackedBars
                    "Sales trends for Product Categories over the years" df)).

(** The chart part of [main], on the filtered frame [df]. *)
Definition charts
  : chart (list CategoryTrace * Sunburst * list YearTrace
           * (BarChart * BarChart) * Gauge * StackedBars) :=
  c1 ← create_category_performance_chart;
  c2 ← create_order_distribution_chart;
  c3 ← create_monthly_sales_trend;
  c4 ← create_product_charts;
  c5 ← create_shipping_gauge;
  c6 ← create_sales_trend_chart;
  mret (c1, c2, c3, c4, c5, c6).

(** [create_sidebar]: the options of the select box, of which the user
    picks one. *)
Definition create_sidebar (df : DataFrame) : result (list Selected) :=
  year ← int_col df "year";
  Ok (All :: (Year <$> group_keys Z.le year)).

(** [main], for the option [selected_year] that the user has picked: the
    KPI row and the charts of the page. *)
Definition main (raw : DataFrame) (selected_year : Selected)
  : result (list Metric
            * (list CategoryTrace * Sunburst * list YearTrace
               * (BarChart * BarChart) * Gauge * StackedBars)) :=
  '(df_original, grp_years_sales, grp_year_profit, grp_year_orders) ←
    load_data raw;
  _ ← create_sidebar df_original;
  df ← filter_data df_original selected_year;
  kpi ← create_kpi_metrics df grp_years_sales grp_year_profit grp_year_orders
          selected_year;
  '(drawn, _) ← charts df;
  Ok (kpi, drawn).

End Shaping.

End App.

(** * Vocabulary of the statements, and sample inputs *)

(** ** transform.py *)

(** The run reads its three sheets and their key columns: [data] is the
    Orders frame, [mm] the mapping made from People, [rets] the order
    identifiers of Returns, [ids] and [regions] the Order ID and Region
    columns of Orders. *)
Definition enricher_reads (df : gmap string DataFrame) (data : DataFrame)
    (mm : gmap string string) (rets ids regions : list string) : Prop :=
  df !! "Orders" = Some data ∧
  (∃ people, df !! "People" = Some people ∧
             Transform.mapping_manager people = Ok mm) ∧
  (∃ returns, df !! "Returns" = Some returns ∧
              Transform.list_retentions returns = Ok rets) ∧
  text_col data "Order ID" = Ok ids ∧
  text_col data "Region" = Ok regions.

(** What the specification promises about the written sheet: the columns of
    Orders, as they were, the two derived columns, and no other column. *)
Definition only_original_and_derived (data : DataFrame) (sheet : Sheet) : Prop :=
  sheet.*1 ≡ₚ (names data ++ ["is_retention"; "region_manager"])%list ∧
  ∀ name c, assoc name (columns data) = Some c → assoc name sheet = Some (cells c).

Module Sample.

Definition orders : DataFrame :=
  {| index := [0; 1; 2];
     columns := [("Order ID", ObjectCol ["CA-1"; "US-2"; "CA-1"]);
                 ("Region", ObjectCol ["West"; "East"; "West"]);
                 ("Sales", Float64Col [of_Z 60; of_Z 40; of_Z 150])] |}.

Definition people : DataFrame :=
  {| index := [0; 1];
     columns := [("Regional Manager", ObjectCol ["Ann"; "Bob"]);
                 ("Region", ObjectCol ["West"; "East"])] |}.

Definition returns : DataFrame :=
  {| index := [0];
     columns := [("Returned", ObjectCol ["Yes"]);
                 ("Order ID", ObjectCol ["US-2"])] |}.

Definition workbook : gmap string DataFrame :=
  dict [("Orders", orders); ("People", people); ("Returns", returns)].

Definition managers : gmap string string :=
  dict [("West", "Ann"); ("East", "Bob")].

(** The same workbook with a staff sheet that has lost the East. *)
Definition people_west : DataFrame :=
  {| index := [0];
     columns := [("Regional Manager", ObjectCol ["Ann"]);
                 ("Region", ObjectCol ["West"])] |}.

Definition workbook_west : gmap string DataFrame :=
  dict [("Orders", orders); ("People", people_west); ("Returns", returns)].

Definition managers_west : gmap string string := dict [("West", "Ann")].

Definition enriched : DataFrame :=
  {| index := [0; 1; 2];
     columns := [("Order ID", ObjectCol ["CA-1"; "US-2"; "CA-1"]);
                 ("Region", ObjectCol ["West"; "East"; "West"]);
                 ("Sales", Float64Col [of_Z 60; of_Z 40; of_Z 150]);
                 ("is_retention", BoolCol [false; true; false]);
                 ("region_manager", ObjectCol ["Ann"; "Bob"; "Ann"])] |}.

End Sample.

Import Transform App.

(** ** app.py *)

(** The number of rows of a frame whose year is [y], for the column [years]
    of the years of its rows. *)
Definition rows_in_year (years : list Z) (y : Z) : Z :=
  Z.of_nat (length (filter (λ y', y' = y) years)).

(** A column that [sum] adds up to a number. *)
Definition summable (c : Column) : Prop :=
  match c with
  | Float64Col _ | Int64Col _ | BoolCol _ => True
  | ObjectCol _ | DatetimeCol _ => False
  end.

(** A timestamp far from the ends of int64, as every date between the years
    1824 and 2116 is. *)
Definition in_range (ns : Z) : Prop := Z.abs ns ≤ 2 ^ 62 - 1.

(** The text [get_per_year_change] shows for a year whose aggregate is [cur]
    when the aggregate of the year before it is [prev]: the float64 value
    of [(cur / prev - 1) * 100], with 0 in the place of a NaN, to one
    decimal and with a percent sign. *)
Definition change_text (cur prev : float) : string :=
  let x := mul (sub (div cur prev) (of_Z 1)) (of_Z 100) in
  if is_nan x then "0.0%" else format_1f x ++ "%".

(** The float64 value of [(cur / prev - 1) * 100]. *)
Definition percent_change (cur prev : float) : float :=
  mul (sub (div cur prev) (of_Z 1)) (of_Z 100).

(** A float that is a number: neither a NaN nor an infinity. *)
Definition is_finite (x : float) : Prop :=
  match x with
  | S754_zero _ | S754_finite _ _ _ => True
  | S754_nan | S754_infinity _ => False
  end.

(** The same text as the specification words it:
    [(cur - prev) / prev * 100], to one decimal and with a percent sign. *)
Definition spec_change (cur prev : float) : string :=
  format_1f (mul (div (sub cur prev) prev) (of_Z 100)) ++ "%".

(** The specified property of the yearly change: every year with a
    predecessor in the grouped series shows [spec_change]. *)
Definition change_as_specified (group_sum : list float → float)
    (col : string) (df : DataFrame) (metric : Verb) : Prop :=
  ∀ grp out i yp mp y m fp fm,
    groupby_year_agg group_sum col df metric = Ok grp →
    get_per_year_change group_sum col df metric = Ok out →
    grp !! i = Some (yp, mp) → grp !! S i = Some (y, m) →
    to_float mp = Ok fp → to_float m = Ok fm →
    out !! S i = Some (y, spec_change fm fp).

(** A change that is not a number: a NaN (0/0) or an infinity (a division
    of something else by zero). *)
Definition non_numeric (x : float) : bool :=
  match x with
  | S754_nan | S754_infinity _ => true
  | _ => false
  end.

(** The specified treatment of a change that is not a number. *)
Definition NaN_as_specified (group_sum : list float → float)
    (col : string) (df : DataFrame) (metric : Verb) : Prop :=
  ∀ grp out i yp mp y m fp fm,
    groupby_year_agg group_sum col df metric = Ok grp →
    get_per_year_change group_sum col df metric = Ok out →
    grp !! i = Some (yp, mp) → grp !! S i = Some (y, m) →
    to_float mp = Ok fp → to_float m = Ok fm →
    non_numeric (mul (sub (div fm fp) (of_Z 1)) (of_Z 100)) = true →
    out !! S i = Some (y, "NaN").

(** A chart function that leaves the frame it is given as it was. *)
Definition keeps_frame {A} (c : chart A) : Prop :=
  ∀ df a df', c df = Ok (a, df') → df' = df.

(** What [create_monthly_sales_trend] does after its two assignments: it
    only reads. *)
Definition monthly_sales_traces (group_sum : list float → float)
  : chart (list YearTrace) :=
  year ← read (λ df, int_col df "year");
  month ← read (λ df, text_col df "Month");
  month_num ← read (λ df, int_col df "Month_num");
  sales ← read (λ df, getitem df "Sales");
  let keys := zip (zip year month) month_num in
  monthly_sales ← lift (for_each
      (λ k, pair k <$> agg_of group_sum Sum sales (is_key k keys))
      (group_keys month_le keys));
  mret ((λ y,
           let year_data := filter (λ r, r.1.1.1 = y) monthly_sales in
           mkYearTrace ((λ r, r.1.1.2) <$> year_data) (snd <$> year_data)
                       (str_Z y) (default "#000000" (year_palette !! y)))
        <$> remove_dups ((λ r, r.1.1.1) <$> monthly_sales)).

Module SampleApp.

(** Summation in row order, one addition per row. *)
Definition row_order_sum (v : list float) : float := foldl add zero v.

Definition day (d : Z) : Z := d * ns_per_day.

(** Two sales amounts, about 4096.00 and 4098.05. *)
Definition sales_2020 : float := S754_finite false 4503599627371999 (-40).
Definition sales_2021 : float := S754_finite false 4505851427185685 (-40).

(** One order on New Year's Day of 2020, of 2021 and of 2022; the second
    one is shipped two days before it is ordered. *)
Definition raw : DataFrame :=
  {| index := [0; 1; 2];
     columns :=
       [("Order ID", ObjectCol ["CA-1"; "US-2"; "CA-3"]);
        ("Order Date", DatetimeCol [day 18262; day 18628; day 18993]);
        ("Ship Date", DatetimeCol [day 18265; day 18626; day 18993]);
        ("Sales", Float64Col [sales_2020; sales_2021; sales_2021]);
        ("Profit", Float64Col [of_Z 0; of_Z 0; of_Z 5])] |}.

Definition loaded : DataFrame :=
  {| index := [0; 1; 2];
     columns :=
       [("Order ID", ObjectCol ["CA-1"; "US-2"; "CA-3"]);
        ("Order Date", DatetimeCol [day 18262; day 18628; day 18993]);
        ("Ship Date", DatetimeCol [day 18265; day 18626; day 18993]);
        ("Sales", Float64Col [sales_2020; sales_2021; sales_2021]);
        ("Profit", Float64Col [of_Z 0; of_Z 0; of_Z 5]);
        ("year", Int64Col [2020; 2021; 2022]);
        ("days to ship", Int64Col [3; 2; 0])] |}.

(** A stand-in for [millify]: the figure, unabridged. *)
Definition unabridged (v : Scalar) : result string :=
  match v with
  | SInt z => Ok (str_Z z)
  | SFloat x => Ok (format_1f x)
  | SStr _ => Raise TypeError
  end.

(** Three line items of two orders: two of one order in 2020, one of
    another in 2021. *)
Definition raw_lines : DataFrame :=
  {| index := [0; 1; 2];
     columns :=
       [("Order ID", ObjectCol ["CA-1"; "CA-1"; "US-2"]);
        ("Order Date", DatetimeCol [day 18262; day 18262; day 18628]);
        ("Ship Date", DatetimeCol [day 18265; day 18265; day 18629]);
        ("Category", ObjectCol ["Furniture"; "Technology"; "Furniture"]);
        ("Region", ObjectCol ["West"; "West"; "East"]);
        ("Segment", ObjectCol ["Consumer"; "Consumer"; "Corporate"]);
        ("Product Name", ObjectCol ["Desk"; "Phone"; "Desk"]);
        ("Sales", Float64Col [of_Z 60; of_Z 40; of_Z 150]);
        ("Profit", Float64Col [of_Z 6; of_Z 4; of_Z 15])] |}.

Definition loaded_lines : DataFrame :=
  {| index := [0; 1; 2];
     columns :=
       [("Order ID", ObjectCol ["CA-1"; "CA-1"; "US-2"]);
        ("Order Date", DatetimeCol [day 18262; day 18262; day 18628]);
        ("Ship Date", DatetimeCol [day 18265; day 18265; day 18629]);
        ("Category", ObjectCol ["Furniture"; "Technology"; "Furniture"]);
        ("Region", ObjectCol ["West"; "West"; "East"]);
        ("Segment", ObjectCol ["Consumer"; "Consumer"; "Corporate"]);
        ("Product Name", ObjectCol ["Desk"; "Phone"; "Desk"]);
        ("Sales", Float64Col [of_Z 60; of_Z 40; of_Z 150]);
        ("Profit", Float64Col [of_Z 6; of_Z 4; of_Z 15]);
        ("year", Int64Col [2020; 2020; 2021]);
        ("days to ship", Int64Col [3; 3; 1])] |}.

(** The same frame after [create_monthly_sales_trend] has run on it. *)
Definition lines_with_months : DataFrame :=
  {| index := [0; 1; 2];
     columns :=
       [("Order ID", ObjectCol ["CA-1"; "CA-1"; "US-2"]);
        ("Order Date", DatetimeCol [day 18262; day 18262; day 18628]);
        ("Ship Date", DatetimeCol [day 18265; day 18265; day 18629]);
        ("Category", ObjectCol ["Furniture"; "Technology"; "Furniture"]);
        ("Region", ObjectCol ["West"; "West"; "East"]);
        ("Segment", ObjectCol ["Consumer"; "Consumer"; "Corporate"]);
        ("Product Name", ObjectCol ["Desk"; "Phone"; "Desk"]);
        ("Sales", Float64Col [of_Z 60; of_Z 40; of_Z 150]);
        ("Profit", Float64Col [of_Z 6; of_Z 4; of_Z 15]);
        ("year", Int64Col [2020; 2020; 2021]);
        ("days to ship", Int64Col [3; 3; 1]);
        ("Month", ObjectCol ["Jan"; "Jan"; "Jan"]);
        ("Month_num", Int64Col [1; 1; 1])] |}.

Definition monthly_traces : list YearTrace :=
  [mkYearTrace ["Jan"] [SFloat (of_Z 100)] "2020" "#005C53";
   mkYearTrace ["Jan"] [SFloat (of_Z 150)] "2021" "#9FC131"].

Definition lines_2020 : DataFrame :=
  {| index := [0; 1];
     columns :=
       [("Order ID", ObjectCol ["CA-1"; "CA-1"]);
        ("Order Date", DatetimeCol [day 18262; day 18262]);
        ("Ship Date", DatetimeCol [day 18265; day 18265]);
        ("Category", ObjectCol ["Furniture"; "Technology"]);
        ("Region", ObjectCol ["West"; "West"]);
        ("Segment", ObjectCol ["Consumer"; "Consumer"]);
        ("Product Name", ObjectCol ["Desk"; "Phone"]);
        ("Sales", Float64Col [of_Z 60; of_Z 40]);
        ("Profit", Float64Col [of_Z 6; of_Z 4]);
        ("year", Int64Col [2020; 2020]);
        ("days to ship", Int64Col [3; 3])] |}.

(** The example of the specification: 100 in 2020, 150 in 2021, in two
    rows and one. *)
Definition hundred : DataFrame :=
  {| index := [0; 1; 2];
     columns :=
       [("Order ID", ObjectCol ["CA-1"; "CA-1"; "US-2"]);
        ("Sales", Float64Col [of_Z 60; of_Z 40; of_Z 150]);
        ("year", Int64Col [2020; 2020; 2021])] |}.

End SampleApp.

(** ** Further vocabulary *)

(** The sum of a list of integers. *)
Definition sumZ (l : list Z) : Z := foldr Z.add 0 l.

(** The number of rows of the table a step returned; none if it raised. *)
Definition n_rows (r : result DataFrame) : Z :=
  match r with
  | Ok df => Z.of_nat (length (index df))
  | Raise _ => 0
  end.

(** The deltas of the cards of the KPI row, from left to right. *)
Definition deltas (cards : list Metric) : list string := delta <$> cards.

(** The abbreviated name of the month with the number [m], from 1 to 12. *)
Definition month_name (m : Z) : string :=
  default "" (MONTHS !! Z.to_nat (m - 1)).

(** The number of entries of a list that satisfy [P]. *)
Definition count_of {A} (P : A → Prop) `{∀ x, Decision (P x)} (l : list A) : Z :=
  Z.of_nat (length (filter P l)).

(** Bars in descending order: no bar is smaller than one that comes after
    it. *)
Definition descending {K} (bars : list (K * Scalar)) : Prop :=
  StronglySorted (λ a b, scalar_ltb a.2 b.2 = false) bars.

(** The aggregates of one column are of one kind: integers, or floats; the
    floats that [nlargest] puts in order are not null. *)
Definition int_valued (v : Scalar) : Prop :=
  match v with SInt _ => True | _ => False end.

Definition float_valued (v : Scalar) : Prop :=
  match v with SFloat x => notnull x = true | _ => False end.

(** A workbook whose staff sheet lists the West twice, first under Ann and
    then under Cy. *)
Module SampleStaff.

Definition people_twice : DataFrame :=
  {| index := [0; 1; 2];
     columns := [("Regional Manager", ObjectCol ["Ann"; "Bob"; "Cy"]);
                 ("Region", ObjectCol ["West"; "East"; "West"])] |}.

Definition workbook_twice : gmap string DataFrame :=
  dict [("Orders", Sample.orders); ("People", people_twice);
        ("Returns", Sample.returns)].

Definition managers_twice : gmap string string :=
  dict [("West", "Ann"); ("East", "Bob"); ("West", "Cy")].

Definition enriched_twice : DataFrame :=
  {| index := [0; 1; 2];
     columns := [("Order ID", ObjectCol ["CA-1"; "US-2"; "CA-1"]);
                 ("Region", ObjectCol ["West"; "East"; "West"]);
                 ("Sales", Float64Col [of_Z 60; of_Z 40; of_Z 150]);
                 ("is_retention", BoolCol [false; true; false]);
                 ("region_manager", ObjectCol ["Cy"; "Bob"; "Cy"])] |}.

End SampleStaff.

(** Three line items whose sales of the product b are an infinity of each
    sign, so that the sum of b is null. *)
Module SampleNulls.

Definition lines : DataFrame :=
  {| index := [0; 1; 2];
     columns :=
       [("Product Name", ObjectCol ["b"; "a"; "b"]);
        ("Sales", Float64Col [S754_infinity false; of_Z 1;
                              S754_infinity true])] |}.

End SampleNulls.

(** * Verification *)

(** ** Results *)

Section ResultFacts.
Context {A B : Type}.

Lemma bind_Ok (m : result A) (f : A → result B) b :
  m ≫= f = Ok b ↔ ∃ a, m = Ok a ∧ f a = Ok b.
Proof.
  destruct m as [a|e]; cbn; split.
  - eauto.
  - by intros (a' & [= ->] & ?).
  - done.
  - by intros (? & ? & ?).
Qed.

Lemma bind_Raise (m : result A) (f : A → result B) e :
  m ≫= f = Raise e ↔ m = Raise e ∨ ∃ a, m = Ok a ∧ f a = Raise e.
Proof.
  destruct m as [a|e']; cbn; split.
  - eauto.
  - by intros [?|(a' & [= ->] & ?)].
  - intros [= ->]. by left.
  - by intros [[= ->]|(? & ? & ?)].
Qed.

Lemma fmap_Ok (m : result A) (f : A → B) b :
  f <$> m = Ok b ↔ ∃ a, m = Ok a ∧ b = f a.
Proof.
  destruct m as [a|e]; cbn; split.
  - intros [= <-]; eauto.
  - by intros (a' & [= ->] & ->).
  - done.
  - by intros (? & ? & ?).
Qed.

Lemma or_raise_Ok (o : option A) e a : or_raise e o = Ok a ↔ o = Some a.
Proof. destruct o; cbn; split; congruence. Qed.

End ResultFacts.

Section LoopFacts.
Context {A B : Type}.

Lemma for_each_cons (f : A → result B) x l :
  for_each f (x :: l) = y ← f x; k ← for_each f l; Ok (y :: k).
Proof. done. Qed.

(** A loop returns the list of what its body returned, element by
    element. *)
Lemma for_each_Ok (f : A → result B) l k :
  for_each f l = Ok k ↔ Forall2 (λ x y, f x = Ok y) l k.
Proof.
  revert k. induction l as [|x l IH]; intros k.
  - cbn. split; [intros [= <-]; constructor|by inversion 1].
  - rewrite for_each_cons, bind_Ok. split.
    + intros (y & Hy & Hk). apply bind_Ok in Hk as (k' & Hk' & [= <-]).
      constructor; [done|by apply IH].
    + inversion 1 as [|? y ? k' Hy Hk']; subst.
      exists y. split; [done|]. apply bind_Ok. exists k'.
      split; [by apply IH|done].
Qed.

(** A loop whose body raises on some element raises, with the exception
    of the first such element. *)
Lemma for_each_Raise (f : A → result B) l :
  Exists (λ x, ∃ e, f x = Raise e) l →
  ∃ x e, x ∈ l ∧ f x = Raise e ∧ for_each f l = Raise e.
Proof.
  induction l as [|x l IH]; [by inversion 1|].
  intros Hex. rewrite for_each_cons.
  destruct (f x) as [y|e] eqn:Hx.
  - apply Exists_cons in Hex as [(e & He)|Hex]; [congruence|].
    destruct (IH Hex) as (x' & e & Hin & Hf & Hrun).
    exists x', e. split; [by right|]. split; [done|].
    cbn. by rewrite Hrun.
  - exists x, e. split; [by left|]. by split.
Qed.

Lemma for_each_length (f : A → result B) l k :
  for_each f l = Ok k → length k = length l.
Proof. rewrite for_each_Ok. intros H. symmetry. by eapply Forall2_length. Qed.

(** A loop whose body returns on every element returns. *)
Lemma for_each_total_on (f : A → result B) (g : A → B) l :
  Forall (λ x, f x = Ok (g x)) l → for_each f l = Ok (g <$> l).
Proof.
  intros Hf. apply for_each_Ok. by apply Forall2_fmap_r, Forall_Forall2_diag.
Qed.

Lemma for_each_total (f : A → result B) (g : A → B) l :
  (∀ x, f x = Ok (g x)) → for_each f l = Ok (g <$> l).
Proof.
  intros Hf. apply for_each_total_on, Forall_forall. intros x _. apply Hf.
Qed.

End LoopFacts.

(** Inversion of a run that returned: every step before returned too. *)
Ltac run_inv H :=
  repeat match type of H with
  | _ ≫= _ = Ok _ =>
      let a := fresh "a" in let Ha := fresh "Hrun" in
      apply bind_Ok in H as (a & Ha & H)
  | _ <$> _ = Ok _ =>
      let a := fresh "a" in let Ha := fresh "Hrun" in
      apply fmap_Ok in H as (a & Ha & H)
  | Ok _ = Ok _ => injection H as H
  end.

(** ** Frames *)

Section FrameFacts.

Lemma assoc_set_eq {A} k (a : A) l : assoc k (assoc_set k a l) = Some a.
Proof.
  induction l as [|[k' a'] l IH]; cbn.
  - by rewrite decide_True.
  - destruct (decide (k = k')) as [->|Hne]; cbn.
    + by rewrite decide_True.
    + by rewrite decide_False.
Qed.

Lemma assoc_set_ne {A} k k' (a : A) l :
  k ≠ k' → assoc k' (assoc_set k a l) = assoc k' l.
Proof.
  intros Hne. induction l as [|[k'' a''] l IH]; cbn.
  - by rewrite decide_False.
  - destruct (decide (k = k'')) as [->|Hne']; cbn.
    + by rewrite !decide_False.
    + by rewrite IH.
Qed.

(** A new name goes last; the entries before it are untouched. *)
Lemma assoc_set_fresh {A} k (a : A) l :
  k ∉ l.*1 → assoc_set k a l = (l ++ [(k, a)])%list.
Proof.
  induction l as [|[k' a'] l IH]; cbn; [done|].
  rewrite not_elem_of_cons. intros [Hne Hnin].
  by rewrite decide_False, IH.
Qed.

Lemma assoc_elem_of {A} k (a : A) l : assoc k l = Some a → (k, a) ∈ l.
Proof.
  induction l as [|[k' a'] l IH]; cbn; [done|].
  destruct (decide (k = k')) as [->|Hne].
  - intros [= ->]. by left.
  - intros H. right. by apply IH.
Qed.

Lemma getitem_setitem_eq df name col :
  getitem (setitem df name col) name = Ok col.
Proof. unfold getitem, setitem; cbn. by rewrite assoc_set_eq. Qed.

Lemma getitem_setitem_ne df name name' col :
  name ≠ name' → getitem (setitem df name col) name' = getitem df name'.
Proof. intros. unfold getitem, setitem; cbn. by rewrite assoc_set_ne. Qed.

Lemma text_col_setitem_ne df name name' col :
  name ≠ name' → text_col (setitem df name col) name' = text_col df name'.
Proof. intros. unfold text_col. by rewrite getitem_setitem_ne. Qed.

Lemma int_col_setitem_ne df name name' col :
  name ≠ name' → int_col (setitem df name col) name' = int_col df name'.
Proof. intros. unfold int_col. by rewrite getitem_setitem_ne. Qed.

Lemma datetime_col_setitem_ne df name name' col :
  name ≠ name' →
  datetime_col (setitem df name col) name' = datetime_col df name'.
Proof. intros. unfold datetime_col. by rewrite getitem_setitem_ne. Qed.

Lemma text_col_Ok df name v :
  text_col df name = Ok v ↔ getitem df name = Ok (ObjectCol v).
Proof.
  unfold text_col. destruct (getitem df name) as [[]|]; cbn;
    split; congruence.
Qed.

Lemma int_col_Ok df name v :
  int_col df name = Ok v ↔ getitem df name = Ok (Int64Col v).
Proof.
  unfold int_col. destruct (getitem df name) as [[]|]; cbn;
    split; congruence.
Qed.

Lemma datetime_col_Ok df name v :
  datetime_col df name = Ok v ↔ getitem df name = Ok (DatetimeCol v).
Proof.
  unfold datetime_col. destruct (getitem df name) as [[]|]; cbn;
    split; congruence.
Qed.

End FrameFacts.

(** ** transform.py: the enricher *)

Section Enricher.

Variable df : gmap string DataFrame.
Variable data : DataFrame.
Variable mm : gmap string string.
Variables rets ids regions : list string.
Hypothesis Hreads : enricher_reads df data mm rets ids regions.

(** Once the sheets are read, the run is the loop over the regions. *)
Lemma enrich_unfold :
  enrich df =
    managers ← for_each (region_manager mm) regions;
    Ok (setitem (setitem data "is_retention"
                   (BoolCol (is_retention rets <$> ids)))
                "region_manager" (ObjectCol managers)).
Proof.
  destruct Hreads as (HO & (people & HP & Hmm) & (returns & HR & Hrets) & Hids & Hreg).
  unfold enrich. rewrite HO, HP, HR. cbn.
  rewrite Hmm, Hrets. cbn. rewrite Hids. cbn.
  rewrite text_col_setitem_ne by done. rewrite Hreg. done.
Qed.

Lemma enrich_Ok out :
  enrich df = Ok out ↔
  ∃ managers,
    Forall2 (λ r m, mm !! r = Some m) regions managers ∧
    out = setitem (setitem data "is_retention"
                     (BoolCol (is_retention rets <$> ids)))
                  "region_manager" (ObjectCol managers).
Proof.
  rewrite enrich_unfold, bind_Ok. split.
  - intros (managers & Hloop & [= <-]). exists managers. split; [|done].
    apply for_each_Ok in Hloop.
    eapply Forall2_impl; [exact Hloop|]. cbn. intros r m.
    unfold region_manager, dict_getitem. by rewrite or_raise_Ok.
  - intros (managers & Hall & ->). exists managers. split; [|done].
    apply for_each_Ok. eapply Forall2_impl; [exact Hall|]. cbn. intros r m.
    unfold region_manager, dict_getitem. by rewrite or_raise_Ok.
Qed.

Lemma is_retention_lookup i id :
  ids !! i = Some id →
  (is_retention rets <$> ids) !! i = Some (bool_decide (id ∈ rets)).
Proof. intros Hi. by rewrite list_lookup_fmap, Hi. Qed.

End Enricher.

(** C2. For every order row, the derived [is_retention] cell is true exactly
    when the row's Order ID occurs among the order identifiers of the
    Returns sheet, and false for every other row. *)
Theorem C2_is_retention_iff_returned df data mm rets ids regions out :
  enricher_reads df data mm rets ids regions →
  enrich df = Ok out →
  ∃ flags,
    getitem out "is_retention" = Ok (BoolCol flags) ∧
    length flags = length ids ∧
    ∀ i id, ids !! i = Some id →
      ∃ b, flags !! i = Some b ∧ (b = true ↔ id ∈ rets) ∧ (b = false ↔ id ∉ rets).
Proof.
  intros Hreads Hout.
  apply (enrich_Ok _ _ _ _ _ _ Hreads) in Hout as (managers & _ & ->).
  exists (is_retention rets <$> ids). split; [|split].
  - rewrite getitem_setitem_ne by done. apply getitem_setitem_eq.
  - by rewrite length_fmap.
  - intros i id Hi. exists (bool_decide (id ∈ rets)).
    split; [by apply is_retention_lookup|]. split.
    + by rewrite bool_decide_eq_true.
    + by rewrite bool_decide_eq_false.
Qed.

(** C6. If the Region of some order row has no entry in the staff mapping,
    the run ends with a [KeyError] for such a region and writes nothing;
    and a run that does write gives every row the manager that the mapping
    holds for its region, never a default. *)
Theorem C6_region_without_manager_raises df data mm rets ids regions :
  enricher_reads df data mm rets ids regions →
  ((∃ r, r ∈ regions ∧ mm !! r = None) →
     ∃ r, r ∈ regions ∧ mm !! r = None ∧
          enrich df = Raise (KeyError r) ∧ Transform.main df = Raise (KeyError r)) ∧
  (∀ out, enrich df = Ok out →
     ∃ managers,
       getitem out "region_manager" = Ok (ObjectCol managers) ∧
       Forall2 (λ r m, mm !! r = Some m) regions managers).
Proof.
  intros Hreads. split.
  - intros (r & Hr & Hnone).
    destruct (for_each_Raise (region_manager mm) regions) as (r' & e & Hin & Hf & Hrun).
    { apply Exists_exists. exists r. split; [done|].
      exists (KeyError r). unfold region_manager, dict_getitem. by rewrite Hnone. }
    unfold region_manager, dict_getitem in Hf.
    destruct (mm !! r') as [m|] eqn:Hm; [done|]. cbn in Hf. injection Hf as <-.
    exists r'. split; [done|]. split; [done|].
    assert (enrich df = Raise (KeyError r')) as Hraise.
    { rewrite (enrich_unfold _ _ _ _ _ _ Hreads), Hrun. done. }
    split; [done|]. unfold Transform.main. by rewrite Hraise.
  - intros out Hout.
    apply (enrich_Ok _ _ _ _ _ _ Hreads) in Hout as (managers & Hall & ->).
    exists managers. split; [apply getitem_setitem_eq|done].
Qed.

(** C8, as amended. The written sheet holds the row labels of Orders under
    an empty header, then the columns of Orders as they were, then
    [is_retention] and [region_manager], for an Orders sheet that does not
    have columns of these two names already. *)
Theorem C8_written_sheet_columns df data mm rets ids regions sheet :
  enricher_reads df data mm rets ids regions →
  "is_retention" ∉ names data →
  "region_manager" ∉ names data →
  Transform.main df = Ok sheet →
  ∃ managers,
    Forall2 (λ r m, mm !! r = Some m) regions managers ∧
    sheet = (("", CInt <$> index data)
             :: (prod_map id cells <$> columns data)
             ++ [("is_retention", CBool <$> (is_retention rets <$> ids));
                 ("region_manager", CStr <$> managers)])%list.
Proof.
  intros Hreads Hfresh1 Hfresh2 Hmain. unfold Transform.main in Hmain.
  apply fmap_Ok in Hmain as (out & Hout & ->).
  apply (enrich_Ok _ _ _ _ _ _ Hreads) in Hout as (managers & Hall & ->).
  exists managers. split; [done|].
  unfold to_excel, setitem; cbn. f_equal.
  rewrite (assoc_set_fresh "is_retention") by done.
  rewrite (assoc_set_fresh "region_manager").
  - by rewrite !fmap_app, <-app_assoc.
  - rewrite fmap_app. cbn. rewrite elem_of_app, list_elem_of_singleton.
    intros [?|?]; [by apply Hfresh2|done].
Qed.

(** ** The enricher on the sample workbook *)

Lemma sample_reads :
  enricher_reads Sample.workbook Sample.orders Sample.managers
    ["US-2"] ["CA-1"; "US-2"; "CA-1"] ["West"; "East"; "West"].
Proof.
  split; [reflexivity|]. split; [|split; [|split; reflexivity]].
  - exists Sample.people. split; reflexivity.
  - exists Sample.returns. split; reflexivity.
Defined.

Lemma sample_reads_west :
  enricher_reads Sample.workbook_west Sample.orders Sample.managers_west
    ["US-2"] ["CA-1"; "US-2"; "CA-1"] ["West"; "East"; "West"].
Proof.
  split; [reflexivity|]. split; [|split; [|split; reflexivity]].
  - exists Sample.people_west. split; reflexivity.
  - exists Sample.returns. split; reflexivity.
Defined.

Lemma C2_is_retention_iff_returned_witness :
  enricher_reads Sample.workbook Sample.orders Sample.managers
    ["US-2"] ["CA-1"; "US-2"; "CA-1"] ["West"; "East"; "West"] ∧
  enrich Sample.workbook = Ok Sample.enriched ∧
  ∃ flags,
    getitem Sample.enriched "is_retention" = Ok (BoolCol flags) ∧
    length flags = length ["CA-1"; "US-2"; "CA-1"] ∧
    ∀ i id, ["CA-1"; "US-2"; "CA-1"] !! i = Some id →
      ∃ b, flags !! i = Some b ∧
           (b = true ↔ id ∈ ["US-2"]) ∧ (b = false ↔ id ∉ ["US-2"]).
Proof.
  split; [exact sample_reads|]. split; [reflexivity|].
  apply (C2_is_retention_iff_returned Sample.workbook Sample.orders
           Sample.managers ["US-2"] ["CA-1"; "US-2"; "CA-1"]
           ["West"; "East"; "West"] Sample.enriched);
    [exact sample_reads|reflexivity].
Defined.

Lemma C6_region_without_manager_raises_witness :
  enricher_reads Sample.workbook_west Sample.orders Sample.managers_west
    ["US-2"] ["CA-1"; "US-2"; "CA-1"] ["West"; "East"; "West"] ∧
  "East" ∈ ["West"; "East"; "West"] ∧
  Sample.managers_west !! "East" = None ∧
  enrich Sample.workbook_west = Raise (KeyError "East") ∧
  Transform.main Sample.workbook_west = Raise (KeyError "East") ∧
  ∃ r, r ∈ ["West"; "East"; "West"] ∧ Sample.managers_west !! r = None ∧
       enrich Sample.workbook_west = Raise (KeyError r) ∧
       Transform.main Sample.workbook_west = Raise (KeyError r).
Proof.
  assert ("East" ∈ ["West"; "East"; "West"]) as Hin by (right; left).
  split; [exact sample_reads_west|]. split; [exact Hin|].
  split; [reflexivity|]. split; [reflexivity|]. split; [reflexivity|].
  apply (C6_region_without_manager_raises Sample.workbook_west Sample.orders
           Sample.managers_west ["US-2"] ["CA-1"; "US-2"; "CA-1"]
           ["West"; "East"; "West"] sample_reads_west).
  exists "East". split; [exact Hin|reflexivity].
Defined.

Lemma C8_written_sheet_columns_witness :
  enricher_reads Sample.workbook Sample.orders Sample.managers
    ["US-2"] ["CA-1"; "US-2"; "CA-1"] ["West"; "East"; "West"] ∧
  ("is_retention" ∉ names Sample.orders) ∧
  ("region_manager" ∉ names Sample.orders) ∧
  Transform.main Sample.workbook = Ok (to_excel Sample.enriched) ∧
  ∃ managers,
    Forall2 (λ r m, Sample.managers !! r = Some m)
            ["West"; "East"; "West"] managers ∧
    to_excel Sample.enriched
    = (("", CInt <$> index Sample.orders)
       :: (prod_map id cells <$> columns Sample.orders)
       ++ [("is_retention",
            CBool <$> (is_retention ["US-2"] <$> ["CA-1"; "US-2"; "CA-1"]));
           ("region_manager", CStr <$> managers)])%list.
Proof.
  assert ("is_retention" ∉ names Sample.orders) as H1.
  { vm_compute. intros H. repeat (apply elem_of_cons in H as [H|H]; [done|]).
    by apply elem_of_nil in H. }
  assert ("region_manager" ∉ names Sample.orders) as H2.
  { vm_compute. intros H. repeat (apply elem_of_cons in H as [H|H]; [done|]).
    by apply elem_of_nil in H. }
  split; [exact sample_reads|]. split; [exact H1|]. split; [exact H2|].
  split; [reflexivity|].
  apply (C8_written_sheet_columns Sample.workbook Sample.orders
           Sample.managers ["US-2"] ["CA-1"; "US-2"; "CA-1"]
           ["West"; "East"; "West"] (to_excel Sample.enriched));
    [exact sample_reads|exact H1|exact H2|reflexivity].
Defined.

(** C8 fails as specified: the sheet written for the sample workbook has
    six columns, the first of them the row labels 0, 1, 2 under an empty
    header, where Orders has three columns and two are derived. *)
Lemma C8_counterexample :
  Transform.main Sample.workbook
  = Ok [("", [CInt 0; CInt 1; CInt 2]);
        ("Order ID", [CStr "CA-1"; CStr "US-2"; CStr "CA-1"]);
        ("Region", [CStr "West"; CStr "East"; CStr "West"]);
        ("Sales", [CFloat (of_Z 60); CFloat (of_Z 40); CFloat (of_Z 150)]);
        ("is_retention", [CBool false; CBool true; CBool false]);
        ("region_manager", [CStr "Ann"; CStr "Bob"; CStr "Ann"])] ∧
  ¬ only_original_and_derived Sample.orders (to_excel Sample.enriched).
Proof.
  split; [reflexivity|].
  intros [Hperm _]. apply Permutation_length in Hperm. discriminate Hperm.
Qed.

(** ** app.py: the yearly change *)

Section GroupKeys.

Lemma StronglySorted_le_lt (l : list Z) :
  StronglySorted Z.le l → NoDup l → StronglySorted Z.lt l.
Proof.
  induction 1 as [|x l Hs IH Hall]; intros Hnd; [constructor|].
  apply NoDup_cons in Hnd as [Hnin Hnd]. constructor; [by apply IH|].
  rewrite Forall_forall in *. intros y Hy.
  specialize (Hall y Hy). assert (x ≠ y) by (by intros ->). lia.
Qed.

Lemma group_keys_Permutation (keys : list Z) :
  group_keys Z.le keys ≡ₚ remove_dups keys.
Proof. apply merge_sort_Permutation. Qed.

Lemma elem_of_group_keys (keys : list Z) k :
  k ∈ group_keys Z.le keys ↔ k ∈ keys.
Proof. by rewrite group_keys_Permutation, elem_of_remove_dups. Qed.

(** The keys of a group-by come in strictly ascending order. *)
Lemma group_keys_ascending (keys : list Z) :
  StronglySorted Z.lt (group_keys Z.le keys).
Proof.
  apply StronglySorted_le_lt.
  - apply (StronglySorted_merge_sort Z.le).
  - rewrite group_keys_Permutation. apply NoDup_remove_dups.
Qed.

Lemma ascending_lookup_lt (l : list Z) i j x y :
  StronglySorted Z.lt l → l !! i = Some x → l !! j = Some y →
  (i < j)%nat → x < y.
Proof.
  intros Hs. revert i j. induction Hs as [|z l Hs IH Hall]; intros i j Hi Hj Hlt.
  - done.
  - destruct j as [|j]; [lia|]. destruct i as [|i]; cbn in *.
    + injection Hi as <-. rewrite Forall_forall in Hall.
      apply Hall. by eapply list_elem_of_lookup_2.
    + eapply IH; [done..|lia].
Qed.

Lemma ascending_NoDup (l : list Z) : StronglySorted Z.lt l → NoDup l.
Proof.
  induction 1 as [|x l Hs IH Hall]; constructor; [|done].
  intros Hin. rewrite Forall_forall in Hall. specialize (Hall x Hin). lia.
Qed.

End GroupKeys.

Section YearlyChange.

Variable group_sum : list float → float.

Lemma pct_change_length v : length (pct_change v) = length v.
Proof.
  destruct v as [|x v]; [done|]. unfold pct_change. cbn [length]. f_equal.
  rewrite length_zip_with. cbn [length]. lia.
Qed.

(** The change at a position with a predecessor is computed from the
    value there and the value before it. *)
Lemma pct_change_lookup v i prev cur :
  v !! i = Some prev → v !! S i = Some cur →
  pct_change v !! S i = Some (sub (div cur prev) (of_Z 1)).
Proof.
  intros Hp Hc. destruct v as [|x v]; [done|]. unfold pct_change.
  change ((nan :: ?l) !! S i) with (l !! i).
  change ((x :: v) !! S i) with (v !! i) in Hc.
  rewrite lookup_zip_with. by rewrite Hp, Hc.
Qed.

Lemma groupby_year_agg_keys col df metric grp :
  groupby_year_agg group_sum col df metric = Ok grp →
  ∃ years, int_col df "year" = Ok years ∧ grp.*1 = group_keys Z.le years.
Proof.
  unfold groupby_year_agg. intros H. run_inv H.
  exists a. split; [done|].
  apply for_each_Ok in H. clear -H.
  induction H as [|y p keys grp Hp _ IH]; [done|].
  cbn. apply fmap_Ok in Hp as (? & _ & ->). cbn. by f_equal.
Qed.

(** The run of [get_per_year_change], step by step. *)
Lemma get_per_year_change_Ok col df metric out :
  get_per_year_change group_sum col df metric = Ok out ↔
  ∃ grp values,
    groupby_year_agg group_sum col df metric = Ok grp ∧
    Forall2 (λ g v, to_float g.2 = Ok v) grp values ∧
    out = zip grp.*1
            (show_change <$> (fillna0 <$>
               ((λ x, mul x (of_Z 100)) <$> pct_change values))).
Proof.
  unfold get_per_year_change. rewrite bind_Ok. split.
  - intros (grp & Hgrp & H). apply bind_Ok in H as (values & Hv & [= <-]).
    exists grp, values. split; [done|]. split; [|done].
    by apply for_each_Ok in Hv.
  - intros (grp & values & Hgrp & Hv & ->). exists grp. split; [done|].
    apply bind_Ok. exists values. split; [|done]. by apply for_each_Ok.
Qed.

Lemma change_texts_length values :
  length (show_change <$> (fillna0 <$>
     ((λ x, mul x (of_Z 100)) <$> pct_change values))) = length values.
Proof. by rewrite !length_fmap, pct_change_length. Qed.

(** The series has one entry per year of the data, in ascending order. *)
Lemma get_per_year_change_keys col df metric out :
  get_per_year_change group_sum col df metric = Ok out →
  ∃ years, int_col df "year" = Ok years ∧ out.*1 = group_keys Z.le years.
Proof.
  intros (grp & values & Hgrp & Hv & ->)%get_per_year_change_Ok.
  destruct (groupby_year_agg_keys _ _ _ _ Hgrp) as (years & Hy & Hk).
  exists years. split; [done|]. rewrite <-Hk. apply fst_zip.
  rewrite change_texts_length, length_fmap.
  apply Forall2_length in Hv. lia.
Qed.

(** What is shown for a change [x]: a NaN has been filled with 0. *)
Lemma show_change_fillna0 x :
  show_change (fillna0 x) = if is_nan x then "0.0%" else format_1f x ++ "%".
Proof. by destruct x. Qed.

Lemma percent_not_NaN (s : string) : s ++ "%" ≠ "NaN".
Proof.
  destruct s as [|c1 [|c2 [|c3 s]]]; cbn; try done.
  intros [= _ _ _ H]. by destruct s.
Qed.

(** The text ['NaN'] is never shown: no NaN is left when the texts are
    made. *)
Lemma show_change_fillna0_not_NaN x : show_change (fillna0 x) ≠ "NaN".
Proof.
  rewrite show_change_fillna0.
  destruct (is_nan x); [done|apply percent_not_NaN].
Qed.

End YearlyChange.

Example sample_load :
  load_data SampleApp.row_order_sum SampleApp.raw =
    Ok (SampleApp.loaded,
        [(2020, "0.0%"); (2021, "0.0%"); (2022, "0.0%")],
        [(2020, "0.0%"); (2021, "0.0%"); (2022, "inf%")],
        [(2020, "0.0%"); (2021, "0.0%"); (2022, "0.0%")]).
Proof. vm_compute. reflexivity. Qed.

Example sample_hundred :
  get_per_year_change SampleApp.row_order_sum "Sales" SampleApp.hundred Sum =
    Ok [(2020, "0.0%"); (2021, "50.0%")].
Proof. vm_compute. reflexivity. Qed.

(** The same happens with counts: from 2000 to 2001 orders the program
    shows 0.0%, and [(cur - prev) / prev * 100] prints as 0.1%. *)
Example sample_change_of_counts :
  change_text (of_Z 2001) (of_Z 2000) = "0.0%" ∧
  spec_change (of_Z 2001) (of_Z 2000) = "0.1%".
Proof. vm_compute. split; reflexivity. Qed.

Example sample_spec_change :
  spec_change SampleApp.sales_2021 SampleApp.sales_2020 = "0.1%" /\
  change_text SampleApp.sales_2021 SampleApp.sales_2020 = "0.0%".
Proof. vm_compute. split; reflexivity. Qed.

Section YearlyChangeTheorems.

Variable group_sum : list float → float.

Lemma change_text_eq cur prev :
  show_change (fillna0 (mul (sub (div cur prev) (of_Z 1)) (of_Z 100)))
  = change_text cur prev.
Proof. apply show_change_fillna0. Qed.

(** The entry of the series at a position with a predecessor. *)
Lemma get_per_year_change_lookup col df metric grp out i yp mp y m :
  groupby_year_agg group_sum col df metric = Ok grp →
  get_per_year_change group_sum col df metric = Ok out →
  grp !! i = Some (yp, mp) → grp !! S i = Some (y, m) →
  ∃ fp fm, to_float mp = Ok fp ∧ to_float m = Ok fm ∧
           out !! S i = Some (y, change_text fm fp).
Proof.
  intros Hgrp Hout Hp Hc.
  apply get_per_year_change_Ok in Hout as (grp' & values & Hgrp' & Hv & ->).
  rewrite Hgrp in Hgrp'. injection Hgrp' as <-.
  destruct (Forall2_lookup_l _ _ _ _ _ Hv Hp) as (fp & Hfp & Htp).
  destruct (Forall2_lookup_l _ _ _ _ _ Hv Hc) as (fm & Hfm & Htm).
  exists fp, fm. split; [done|]. split; [done|].
  apply lookup_zip_Some. split.
  - by rewrite list_lookup_fmap, Hc.
  - rewrite !list_lookup_fmap, (pct_change_lookup _ _ _ _ Hfp Hfm).
    cbn [fmap option_fmap option_map]. by rewrite change_text_eq.
Qed.

Lemma get_per_year_change_never_NaN col df metric out y d :
  get_per_year_change group_sum col df metric = Ok out →
  (y, d) ∈ out → d ≠ "NaN".
Proof.
  intros (grp & values & _ & _ & ->)%get_per_year_change_Ok Hin.
  apply elem_of_zip_r in Hin.
  apply list_elem_of_fmap in Hin as (x & -> & Hin).
  apply list_elem_of_fmap in Hin as (x' & -> & _).
  apply show_change_fillna0_not_NaN.
Qed.

Lemma agg_returns metric c m :
  metric = Count ∨ summable c →
  ∃ v, agg group_sum metric (col_mask m c) = Ok v ∧ ∃ x, to_float v = Ok x.
Proof.
  intros [->|Hsum].
  - destruct c; cbn; eauto.
  - destruct metric, c; cbn in *; try done; eauto.
Qed.

(** On a frame with a year column, the change of a column that can be
    aggregated is always computed: one entry per year of the data. *)
Lemma get_per_year_change_returns col df metric years c :
  int_col df "year" = Ok years → getitem df col = Ok c →
  metric = Count ∨ summable c →
  ∃ out, get_per_year_change group_sum col df metric = Ok out ∧
         out.*1 = group_keys Z.le years.
Proof.
  intros Hyears Hc Hagg.
  assert (∃ grp, groupby_year_agg group_sum col df metric = Ok grp ∧
                 Forall (λ g, ∃ x, to_float g.2 = Ok x) grp) as (grp & Hgrp & Hfl).
  { unfold groupby_year_agg. rewrite Hyears, Hc. cbn [mbind result_bind].
    induction (group_keys Z.le years) as [|y keys (grp & Hgrp & Hfl)].
    - exists []. by split.
    - destruct (agg_returns metric c (is_key y years) Hagg) as (v & Hv & Hx).
      exists ((y, v) :: grp). split.
      + rewrite for_each_cons, Hv. cbn. by rewrite Hgrp.
      + by constructor. }
  assert (∃ values, Forall2 (λ g v, to_float g.2 = Ok v) grp values)
    as (values & Hvalues).
  { clear Hgrp. induction Hfl as [|g grp (x & Hx) _ (values & IH)].
    - by exists [].
    - exists (x :: values). by constructor. }
  eexists. split.
  - apply get_per_year_change_Ok. exists grp, values. by repeat split.
  - destruct (groupby_year_agg_keys _ _ _ _ _ Hgrp) as (years' & Hy & Hk).
    rewrite Hyears in Hy. injection Hy as <-. rewrite <-Hk.
    apply fst_zip. rewrite change_texts_length, length_fmap.
    apply Forall2_length in Hvalues. lia.
Qed.

End YearlyChangeTheorems.

(** C1, as amended. For every metric column and aggregation verb, and for
    every year [y] of the grouped series that has a predecessor [yp] (the
    year before it in the data: no year of the series lies between the
    two) and whose change from it is a number, the text shown for [y] is
    the float64 value of [(metric(y) / metric(yp) - 1) * 100], to one
    decimal and with a percent sign. *)
Theorem C1_change_from_previous_year
    (group_sum : list float → float) col df metric grp out i yp mp y m :
  groupby_year_agg group_sum col df metric = Ok grp →
  get_per_year_change group_sum col df metric = Ok out →
  grp !! i = Some (yp, mp) → grp !! S i = Some (y, m) →
  yp < y ∧
  (∀ y' d', (y', d') ∈ out → ¬ (yp < y' < y)) ∧
  ∃ fp fm, to_float mp = Ok fp ∧ to_float m = Ok fm ∧
           (is_finite (percent_change fm fp) →
            out !! S i
            = Some (y, format_1f (percent_change fm fp) ++ "%")).
Proof.
  intros Hgrp Hout Hp Hc.
  destruct (groupby_year_agg_keys _ _ _ _ _ Hgrp) as (years & Hy & Hk).
  destruct (get_per_year_change_keys _ _ _ _ _ Hout) as (years' & Hy' & Hk').
  rewrite Hy in Hy'. injection Hy' as <-.
  pose proof (group_keys_ascending years) as Hasc. rewrite <-Hk in Hasc.
  assert (grp.*1 !! i = Some yp) as Hip by (by rewrite list_lookup_fmap, Hp).
  assert (grp.*1 !! S i = Some y) as Hic by (by rewrite list_lookup_fmap, Hc).
  split; [|split].
  - eapply ascending_lookup_lt; [exact Hasc|exact Hip|exact Hic|lia].
  - intros y' d' Hin [Hlo Hhi].
    assert (y' ∈ grp.*1) as Hin'.
    { rewrite Hk, <-Hk'. apply list_elem_of_fmap. by exists (y', d'). }
    apply list_elem_of_lookup in Hin' as (j & Hj).
    destruct (decide (j ≤ i)%nat) as [Hle|Hgt].
    + destruct (decide (j = i)) as [->|Hne].
      * rewrite Hip in Hj. injection Hj as <-. lia.
      * assert (y' < yp); [|lia].
        eapply ascending_lookup_lt; [exact Hasc|exact Hj|exact Hip|lia].
    + destruct (decide (j = S i)) as [->|Hne].
      * rewrite Hic in Hj. injection Hj as <-. lia.
      * assert (y < y'); [|lia].
        eapply ascending_lookup_lt; [exact Hasc|exact Hic|exact Hj|lia].
  - destruct (get_per_year_change_lookup group_sum col df metric grp out
                i yp mp y m Hgrp Hout Hp Hc) as (fp & fm & Hfp & Hfm & Hentry).
    exists fp, fm. split; [done|]. split; [done|].
    intros Hnum. rewrite Hentry. do 2 f_equal.
    unfold change_text. fold (percent_change fm fp).
    by destruct (percent_change fm fp).
Qed.

Lemma C1_change_from_previous_year_witness :
  groupby_year_agg SampleApp.row_order_sum "Sales" SampleApp.hundred Sum
    = Ok [(2020, SFloat (of_Z 100)); (2021, SFloat (of_Z 150))] ∧
  get_per_year_change SampleApp.row_order_sum "Sales" SampleApp.hundred Sum
    = Ok [(2020, "0.0%"); (2021, "50.0%")] ∧
  is_finite (percent_change (of_Z 150) (of_Z 100)) ∧
  format_1f (percent_change (of_Z 150) (of_Z 100)) ++ "%" = "50.0%" ∧
  2020 < 2021 ∧
  (∀ y' d', (y', d') ∈ [(2020, "0.0%"); (2021, "50.0%")] → ¬ (2020 < y' < 2021)) ∧
  ∃ fp fm, to_float (SFloat (of_Z 100)) = Ok fp ∧
           to_float (SFloat (of_Z 150)) = Ok fm ∧
           (is_finite (percent_change fm fp) →
            [(2020, "0.0%"); (2021, "50.0%")] !! 1%nat
            = Some (2021, format_1f (percent_change fm fp) ++ "%")).
Proof.
  split; [vm_compute; reflexivity|]. split; [vm_compute; reflexivity|].
  split; [vm_compute; exact I|]. split; [vm_compute; reflexivity|].
  apply (C1_change_from_previous_year SampleApp.row_order_sum "Sales"
           SampleApp.hundred Sum
           [(2020, SFloat (of_Z 100)); (2021, SFloat (of_Z 150))]
           [(2020, "0.0%"); (2021, "50.0%")]
           0%nat 2020 (SFloat (of_Z 100)) 2021 (SFloat (of_Z 150)));
    vm_compute; reflexivity.
Defined.

(** C1 fails as specified. With sales of 4503599627371999 / 2^40 in 2020 and
    4505851427185685 / 2^40 in 2021 the exact change is above 0.05 percent
    (the first conjunct, cross-multiplied), and [(cur - prev) / prev * 100]
    prints as 0.1%, but the program shows 0.0%. *)
Lemma C1_counterexample :
  20 * (100 * (4505851427185685 - 4503599627371999)) > 4503599627371999 ∧
  spec_change SampleApp.sales_2021 SampleApp.sales_2020 = "0.1%" ∧
  get_per_year_change SampleApp.row_order_sum "Sales" SampleApp.loaded Sum
    = Ok [(2020, "0.0%"); (2021, "0.0%"); (2022, "0.0%")] ∧
  ¬ change_as_specified SampleApp.row_order_sum "Sales" SampleApp.loaded Sum.
Proof.
  split; [lia|]. split; [vm_compute; reflexivity|].
  split; [vm_compute; reflexivity|].
  intros Hspec.
  specialize (Hspec
    [(2020, SFloat SampleApp.sales_2020); (2021, SFloat SampleApp.sales_2021);
     (2022, SFloat SampleApp.sales_2021)]
    [(2020, "0.0%"); (2021, "0.0%"); (2022, "0.0%")]
    0%nat 2020 (SFloat SampleApp.sales_2020) 2021 (SFloat SampleApp.sales_2021)
    SampleApp.sales_2020 SampleApp.sales_2021).
  assert (Some (2021, "0.0%") = Some (2021, "0.1%")) as Habs; [|discriminate Habs].
  etransitivity; [symmetry|]; [|apply Hspec; vm_compute; reflexivity].
  vm_compute. reflexivity.
Qed.

(** C3. The earliest year of the grouped series shows 0.0%, whatever the
    column, the verb and the values are. *)
Theorem C3_earliest_year_is_zero
    (group_sum : list float → float) col df metric
    (out : list (Z * string)) (y : Z) (d : string) :
  get_per_year_change group_sum col df metric = Ok out →
  (y, d) ∈ out →
  (∀ y' d', (y', d') ∈ out → y ≤ y') →
  d = "0.0%".
Proof.
  intros Hout Hin Hmin.
  destruct (get_per_year_change_keys _ _ _ _ _ Hout) as (years & _ & Hk).
  pose proof (group_keys_ascending years) as Hasc. rewrite <-Hk in Hasc.
  apply get_per_year_change_Ok in Hout as (grp & values & _ & Hv & ->).
  apply list_elem_of_lookup in Hin as (j & Hj).
  destruct j as [|j].
  - destruct grp as [|[y0 m0] grp]; [done|].
    apply Forall2_cons_inv_l in Hv as (v0 & values' & _ & _ & ->).
    cbn in Hj. by injection Hj as _ <-.
  - exfalso.
    destruct (zip _ _) as [|[y0 d0] out] eqn:Hzip; [done|].
    assert (y ≤ y0) by (apply (Hmin y0 d0); by left).
    assert (y0 < y); [|lia].
    eapply (ascending_lookup_lt _ 0 (S j)); [exact Hasc|done| |lia].
    by rewrite list_lookup_fmap, Hj.
Qed.

Lemma C3_earliest_year_is_zero_witness :
  get_per_year_change SampleApp.row_order_sum "Profit" SampleApp.loaded Sum
    = Ok [(2020, "0.0%"); (2021, "0.0%"); (2022, "inf%")] ∧
  (2020, "0.0%") ∈ [(2020, "0.0%"); (2021, "0.0%"); (2022, "inf%")] ∧
  (∀ y' d', (y', d') ∈ [(2020, "0.0%"); (2021, "0.0%"); (2022, "inf%")] → 2020 ≤ y') ∧
  "0.0%" = "0.0%".
Proof.
  assert (∀ y' d', (y', d') ∈ [(2020, "0.0%"); (2021, "0.0%"); (2022, "inf%")]
                   → 2020 ≤ y') as Hmin.
  { intros y' d' Hin. repeat (apply elem_of_cons in Hin as [[= -> _]|Hin]; [lia|]).
    by apply elem_of_nil in Hin. }
  split; [vm_compute; reflexivity|]. split; [by left|]. split; [exact Hmin|].
  apply (C3_earliest_year_is_zero SampleApp.row_order_sum "Profit"
           SampleApp.loaded Sum
           [(2020, "0.0%"); (2021, "0.0%"); (2022, "inf%")] 2020 "0.0%");
    [vm_compute; reflexivity|by left|exact Hmin].
Defined.

(** C4 does not hold of the program. Profits of 0, 0 and 5 in three years:
    the change of the second year is 0/0 - 1, a NaN, and is shown as 0.0%;
    the change of the third is 5/0 - 1, infinite, and is shown as inf%. The
    text NaN is shown for neither. *)
Theorem C4_zero_base_shows_no_NaN :
  groupby_year_agg SampleApp.row_order_sum "Profit" SampleApp.loaded Sum
    = Ok [(2020, SFloat (of_Z 0)); (2021, SFloat (of_Z 0)); (2022, SFloat (of_Z 5))] ∧
  is_nan (mul (sub (div (of_Z 0) (of_Z 0)) (of_Z 1)) (of_Z 100)) = true ∧
  mul (sub (div (of_Z 5) (of_Z 0)) (of_Z 1)) (of_Z 100) = S754_infinity false ∧
  get_per_year_change SampleApp.row_order_sum "Profit" SampleApp.loaded Sum
    = Ok [(2020, "0.0%"); (2021, "0.0%"); (2022, "inf%")] ∧
  ¬ NaN_as_specified SampleApp.row_order_sum "Profit" SampleApp.loaded Sum.
Proof.
  split; [vm_compute; reflexivity|]. split; [vm_compute; reflexivity|].
  split; [vm_compute; reflexivity|]. split; [vm_compute; reflexivity|].
  intros Hspec.
  specialize (Hspec
    [(2020, SFloat (of_Z 0)); (2021, SFloat (of_Z 0)); (2022, SFloat (of_Z 5))]
    [(2020, "0.0%"); (2021, "0.0%"); (2022, "inf%")]
    0%nat 2020 (SFloat (of_Z 0)) 2021 (SFloat (of_Z 0)) (of_Z 0) (of_Z 0)).
  assert (Some (2021, "0.0%") = Some (2021, "NaN")) as Habs; [|discriminate Habs].
  etransitivity; [symmetry|]; [|apply Hspec; vm_compute; reflexivity].
  vm_compute. reflexivity.
Qed.

(** ** app.py: the year filter *)

Section Rows.

Lemma mask_fmap {A B} (f : A → B) m (l : list A) :
  mask m (f <$> l) = f <$> mask m l.
Proof.
  revert l. induction m as [|b m IH]; intros [|x l]; cbn; try done.
  destruct b; cbn; by rewrite IH.
Qed.

Lemma mask_nil_r {A} m : mask m (@nil A) = [].
Proof. by destruct m. Qed.

Lemma cells_col_mask m c : cells (col_mask m c) = mask m (cells c).
Proof. destruct c; cbn; by rewrite mask_fmap. Qed.

(** Masking agrees with filtering, when the flags say what the predicate
    says. *)
Lemma mask_filter {A} (P : A → Prop) `{∀ x, Decision (P x)} m (l : list A) :
  Forall2 (λ b x, b = true ↔ P x) m l → mask m l = filter P l.
Proof.
  induction 1 as [|b x m l Hb _ IH]; [done|]. cbn [mask].
  destruct b.
  - rewrite filter_cons_True by (by apply Hb). by rewrite IH.
  - rewrite filter_cons_False; [done|]. intros HP. by apply Hb in HP.
Qed.

Lemma heads_mask_true m cols :
  heads (prod_map id (mask (true :: m)) <$> cols) = heads cols.
Proof.
  unfold heads. induction cols as [|[n [|x l]] cols IH]; cbn; [done|exact IH|].
  f_equal. exact IH.
Qed.

Lemma tails_mask_true m cols :
  tails (prod_map id (mask (true :: m)) <$> cols)
  = prod_map id (mask m) <$> tails cols.
Proof.
  unfold tails. induction cols as [|[n [|x l]] cols IH]; [done| |].
  - rewrite !fmap_cons. f_equal; [|exact IH].
    unfold prod_map; cbn [fst snd tail mask]. by rewrite mask_nil_r.
  - rewrite !fmap_cons. f_equal; exact IH.
Qed.

Lemma mask_false_tails m cols :
  prod_map id (mask (false :: m)) <$> cols
  = prod_map id (mask m) <$> tails cols.
Proof.
  unfold tails. induction cols as [|[n [|x l]] cols IH]; [done| |].
  - rewrite !fmap_cons. f_equal; [|exact IH].
    unfold prod_map; cbn [fst snd tail mask]. by rewrite mask_nil_r.
  - rewrite !fmap_cons. f_equal; exact IH.
Qed.

(** The rows of a masked grid are the masked rows. *)
Lemma rows_of_mask m idx cols :
  rows_of (mask m idx) (prod_map id (mask m) <$> cols)
  = mask m (rows_of idx cols).
Proof.
  revert m cols. induction idx as [|i idx IH]; intros m cols.
  - cbn [rows_of]. by rewrite !mask_nil_r.
  - destruct m as [|[] m].
    + done.
    + change (mask (true :: m) (i :: idx)) with (i :: mask m idx).
      cbn [rows_of].
      change (mask (true :: m) (?r :: ?rs)) with (r :: mask m rs).
      by rewrite heads_mask_true, tails_mask_true, IH.
    + change (mask (false :: m) (i :: idx)) with (mask m idx).
      cbn [rows_of].
      change (mask (false :: m) (?r :: ?rs)) with (mask m rs).
      by rewrite mask_false_tails, IH.
Qed.

Lemma rows_loc_mask df m : rows (loc_mask df m) = mask m (rows df).
Proof.
  unfold rows, loc_mask; cbn [index columns].
  rewrite <-rows_of_mask. f_equal.
  rewrite <-!list_fmap_compose. apply list_fmap_ext.
  intros _ [n c] _. cbn. by rewrite cells_col_mask.
Qed.

Lemma assoc_heads {A} name (cols : list (string * list A)) c cs :
  assoc name cols = Some (c :: cs) →
  assoc name (omap (λ nc, pair nc.1 <$> head nc.2) cols) = Some c.
Proof.
  induction cols as [|[n l] cols IH]; cbn; [done|].
  destruct (decide (name = n)) as [->|Hne].
  - intros [= ->]. cbn. by rewrite decide_True.
  - intros Hrest. destruct l as [|x l]; cbn; [by apply IH|].
    rewrite decide_False by done. by apply IH.
Qed.

Lemma assoc_tails {A} name (cols : list (string * list A)) cs :
  assoc name cols = Some cs →
  assoc name (prod_map id tail <$> cols) = Some (tail cs).
Proof.
  induction cols as [|[n l] cols IH]; cbn; [done|].
  destruct (decide (name = n)) as [->|Hne]; [by intros [= ->]|done].
Qed.

(** Row by row, [row[name]] is the cell of the column [name]. *)
Lemma rows_of_column name idx cols cs :
  assoc name cols = Some cs → length cs = length idx →
  Forall2 (λ c r, row_get r name = Some c) cs (rows_of idx cols).
Proof.
  revert cols cs. induction idx as [|i idx IH]; intros cols cs Hcs Hlen.
  - destruct cs; [constructor|done].
  - destruct cs as [|c cs]; [done|]. cbn [rows_of]. constructor.
    + unfold row_get, heads. cbn. by eapply assoc_heads.
    + apply IH; [|by injection Hlen].
      unfold tails. by rewrite (assoc_tails _ _ _ Hcs).
Qed.

Lemma assoc_fmap {A B} (f : A → B) name (l : list (string * A)) :
  assoc name (prod_map id f <$> l) = f <$> assoc name l.
Proof.
  induction l as [|[n a] l IH]; cbn; [done|].
  by destruct (decide (name = n)).
Qed.

Lemma rows_column df name c :
  rectangular df → getitem df name = Ok c →
  Forall2 (λ x r, row_get r name = Some x) (cells c) (rows df).
Proof.
  intros Hrect Hget. unfold getitem in Hget. apply or_raise_Ok in Hget.
  apply rows_of_column.
  - by rewrite assoc_fmap, Hget.
  - unfold rectangular in Hrect. rewrite Forall_forall in Hrect.
    apply (Hrect (name, c)). by apply assoc_elem_of.
Qed.

End Rows.

(** C5. Filtering by ["All"] returns the table as it is. Filtering by a
    year returns the rows whose year is that year, all of them and no other
    row, each as it was; the columns stay. *)
Theorem C5_filter_data df :
  filter_data df All = Ok df ∧
  ∀ y years,
    rectangular df → int_col df "year" = Ok years →
    ∃ out,
      filter_data df (Year y) = Ok out ∧
      rows out = filter (λ r, row_get r "year" = Some (CInt y)) (rows df) ∧
      names out = names df.
Proof.
  split; [done|]. intros y years Hrect Hyear.
  exists (loc_mask df (is_key y years)). split; [|split].
  - unfold filter_data. by rewrite Hyear.
  - rewrite rows_loc_mask. apply mask_filter.
    apply int_col_Ok in Hyear.
    pose proof (rows_column _ _ _ Hrect Hyear) as Hrows. cbn in Hrows.
    unfold is_key. apply Forall2_fmap_l. apply Forall2_fmap_l in Hrows.
    eapply Forall2_impl; [exact Hrows|]. cbn. intros y' r ->.
    rewrite bool_decide_eq_true. split; [by intros ->|by intros [= ->]].
  - unfold names, loc_mask; cbn. rewrite <-list_fmap_compose.
    apply list_fmap_ext. by intros _ [n c] _.
Qed.

Lemma C5_filter_data_witness :
  rectangular SampleApp.loaded ∧
  int_col SampleApp.loaded "year" = Ok [2020; 2021; 2022] ∧
  filter_data SampleApp.loaded All = Ok SampleApp.loaded ∧
  ∃ out,
    filter_data SampleApp.loaded (Year 2021) = Ok out ∧
    rows out = filter (λ r, row_get r "year" = Some (CInt 2021))
                      (rows SampleApp.loaded) ∧
    names out = names SampleApp.loaded.
Proof.
  assert (rectangular SampleApp.loaded) as Hrect.
  { unfold rectangular. repeat constructor. }
  split; [exact Hrect|]. split; [reflexivity|].
  destruct (C5_filter_data SampleApp.loaded) as [Hall Hyear].
  split; [exact Hall|].
  apply (Hyear 2021 [2020; 2021; 2022]); [exact Hrect|reflexivity].
Defined.

(** ** app.py: loading *)

(** 1970-01-01, 2000-02-29, 2020-12-31, 2021-01-01 and 1969-12-31. *)
Example sample_dates :
  civil_from_days 0 = (1970, 1) ∧
  civil_from_days 11016 = (2000, 2) ∧
  civil_from_days 18627 = (2020, 12) ∧
  civil_from_days 18628 = (2021, 1) ∧
  civil_from_days (-1) = (1969, 12).
Proof. vm_compute. repeat split; reflexivity. Qed.

Section Loading.

Variable group_sum : list float → float.

Lemma days_between_Ok ship order d :
  days_between ship order = Ok d →
  d = Z.abs (ship - order) / ns_per_day ∧ 0 ≤ d.
Proof.
  unfold days_between. destruct (_ && _); [|done]. intros [= <-].
  split; [done|]. apply Z.div_pos; [lia|]. by vm_compute.
Qed.

(** Timestamps within ten thousand years of the epoch are far from the
    ends of int64: the difference of two of them is always computed. *)
Lemma days_between_total ship order :
  Z.abs ship ≤ 2 ^ 62 → Z.abs order ≤ 2 ^ 62 - 1 →
  days_between ship order = Ok (Z.abs (ship - order) / ns_per_day).
Proof.
  intros Hs Ho. unfold days_between, in_int64.
  assert (2 ^ 62 = 4611686018427387904) as E62 by reflexivity.
  assert (2 ^ 63 = 9223372036854775808) as E63 by reflexivity.
  rewrite E62 in *. rewrite !E63.
  destruct (_ && _) eqn:Hin; [done|]. exfalso.
  rewrite !andb_false_iff, !Z.leb_gt, !Z.ltb_ge in Hin. lia.
Qed.

(** On whole days the result is the distance between the two dates, in
    days. *)
Lemma whole_days_between (ship order : Z) :
  Z.abs (ship * ns_per_day - order * ns_per_day) / ns_per_day
  = Z.abs (ship - order).
Proof.
  rewrite <-Z.mul_sub_distr_r, Z.abs_mul.
  rewrite (Z.abs_eq ns_per_day) by (by vm_compute).
  apply Z.div_mul. by vm_compute.
Qed.

(** The run of [load_data], step by step. *)
Lemma load_data_Ok raw df s p o :
  load_data group_sum raw = Ok (df, s, p, o) →
  ∃ order ship days,
    datetime_col raw "Order Date" = Ok order ∧
    datetime_col raw "Ship Date" = Ok ship ∧
    Forall2 (λ so d, days_between so.1 so.2 = Ok d) (zip ship order) days ∧
    df = setitem (setitem raw "year" (Int64Col (dt_year <$> order)))
                 "days to ship" (Int64Col days) ∧
    get_per_year_change group_sum "Sales" df Sum = Ok s ∧
    get_per_year_change group_sum "Profit" df Sum = Ok p ∧
    get_per_year_change group_sum "Order ID" df Count = Ok o.
Proof.
  unfold load_data. intros H.
  apply bind_Ok in H as (order & Horder & H).
  rewrite !datetime_col_setitem_ne in H by done.
  apply bind_Ok in H as (ship & Hship & H).
  rewrite Horder in H. cbn [mbind result_bind] in H.
  apply bind_Ok in H as (days & Hdays & H).
  apply bind_Ok in H as (s' & Hs & H).
  apply bind_Ok in H as (p' & Hp & H).
  apply bind_Ok in H as (o' & Ho & H).
  injection H as <- <- <- <-.
  exists order, ship, days. apply for_each_Ok in Hdays. done.
Qed.

(** A sheet with the columns the dashboard reads, with dates of our era and
    amounts that are numbers, is always loaded, whichever of Ship Date and
    Order Date comes first in a row. *)
Lemma load_data_returns raw order ship sales profit ids :
  datetime_col raw "Order Date" = Ok order →
  datetime_col raw "Ship Date" = Ok ship →
  Forall in_range order → Forall in_range ship →
  getitem raw "Sales" = Ok sales → summable sales →
  getitem raw "Profit" = Ok profit → summable profit →
  getitem raw "Order ID" = Ok ids →
  ∃ df s p o, load_data group_sum raw = Ok (df, s, p, o).
Proof.
  intros Horder Hship Ho Hs Hsales Hsum1 Hprofit Hsum2 Hids.
  assert (∃ days, for_each (λ so, days_between so.1 so.2) (zip ship order)
                  = Ok days) as (days & Hdays).
  { eexists. apply (for_each_total_on _ (λ so, Z.abs (so.1 - so.2) / ns_per_day)).
    apply Forall_forall. intros [sh od] Hin. cbn.
    apply days_between_total.
    - apply elem_of_zip_l in Hin. rewrite Forall_forall in Hs.
      specialize (Hs _ Hin). unfold in_range in Hs. lia.
    - apply elem_of_zip_r in Hin. rewrite Forall_forall in Ho.
      apply (Ho _ Hin). }
  set (df := setitem (setitem raw "year" (Int64Col (dt_year <$> order)))
                     "days to ship" (Int64Col days)).
  assert (int_col df "year" = Ok (dt_year <$> order)) as Hyear.
  { unfold df. rewrite int_col_setitem_ne by done.
    apply int_col_Ok, getitem_setitem_eq. }
  destruct (get_per_year_change_returns group_sum "Sales" df Sum _ sales Hyear)
    as (s & Hrs & _); [unfold df; by rewrite !getitem_setitem_ne|by right|].
  destruct (get_per_year_change_returns group_sum "Profit" df Sum _ profit Hyear)
    as (p & Hrp & _); [unfold df; by rewrite !getitem_setitem_ne|by right|].
  destruct (get_per_year_change_returns group_sum "Order ID" df Count _ ids Hyear)
    as (o & Hro & _); [unfold df; by rewrite !getitem_setitem_ne|by left|].
  exists df, s, p, o. unfold load_data.
  rewrite Horder. cbn [mbind result_bind].
  rewrite !datetime_col_setitem_ne by done. rewrite Hship, Horder.
  cbn [mbind result_bind]. rewrite Hdays. cbn [mbind result_bind].
  fold df. by rewrite Hrs, Hrp, Hro.
Qed.

End Loading.

(** C9. For every loaded row, [days to ship] is the absolute difference
    between Ship Date and Order Date in whole days; it is never negative,
    also when Ship Date comes before Order Date. Nothing checks that Ship
    Date is not before Order Date. *)
Theorem C9_days_to_ship_is_absolute
    (group_sum : list float → float) raw df s p o :
  load_data group_sum raw = Ok (df, s, p, o) →
  ∃ order ship days,
    datetime_col raw "Order Date" = Ok order ∧
    datetime_col raw "Ship Date" = Ok ship ∧
    getitem df "days to ship" = Ok (Int64Col days) ∧
    length days = length (zip ship order) ∧
    ∀ i sh od, ship !! i = Some sh → order !! i = Some od →
      days !! i = Some (Z.abs (sh - od) / ns_per_day) ∧
      0 ≤ Z.abs (sh - od) / ns_per_day.
Proof.
  intros Hload.
  apply load_data_Ok in Hload
    as (order & ship & days & Horder & Hship & Hdays & -> & _).
  exists order, ship, days. split; [done|]. split; [done|].
  split; [apply getitem_setitem_eq|].
  split; [symmetry; by eapply Forall2_length|].
  intros i sh od Hsh Hod.
  assert (zip ship order !! i = Some (sh, od)) as Hi by (by apply lookup_zip_Some).
  destruct (Forall2_lookup_l _ _ _ _ _ Hdays Hi) as (d & Hd & Hbetween).
  apply days_between_Ok in Hbetween as [-> Hpos]. done.
Qed.

Lemma C9_days_to_ship_is_absolute_witness :
  load_data SampleApp.row_order_sum SampleApp.raw =
    Ok (SampleApp.loaded,
        [(2020, "0.0%"); (2021, "0.0%"); (2022, "0.0%")],
        [(2020, "0.0%"); (2021, "0.0%"); (2022, "inf%")],
        [(2020, "0.0%"); (2021, "0.0%"); (2022, "0.0%")]) ∧
  SampleApp.day 18626 < SampleApp.day 18628 ∧
  ∃ order ship days,
    datetime_col SampleApp.raw "Order Date" = Ok order ∧
    datetime_col SampleApp.raw "Ship Date" = Ok ship ∧
    getitem SampleApp.loaded "days to ship" = Ok (Int64Col days) ∧
    length days = length (zip ship order) ∧
    ∀ i sh od, ship !! i = Some sh → order !! i = Some od →
      days !! i = Some (Z.abs (sh - od) / ns_per_day) ∧
      0 ≤ Z.abs (sh - od) / ns_per_day.
Proof.
  split; [vm_compute; reflexivity|]. split; [by vm_compute|].
  apply (C9_days_to_ship_is_absolute SampleApp.row_order_sum SampleApp.raw
           SampleApp.loaded
           [(2020, "0.0%"); (2021, "0.0%"); (2022, "0.0%")]
           [(2020, "0.0%"); (2021, "0.0%"); (2022, "inf%")]
           [(2020, "0.0%"); (2021, "0.0%"); (2022, "0.0%")]).
  vm_compute; reflexivity.
Defined.

(** ** app.py: the KPI row *)

Section Kpi.

Variable group_sum : list float → float.
Variable series_sum : list float → float.
Variable millify : Scalar → result string.

(** The distinct values of a list are as many as the set of its values
    has elements. *)
Lemma nunique_size (v : list string) :
  nunique v = Z.of_nat (size (list_to_set v : gset string)).
Proof.
  unfold nunique. f_equal.
  rewrite <-(size_list_to_set (C:=gset string) (remove_dups v))
    by apply NoDup_remove_dups.
  f_equal. apply set_eq. intros x.
  by rewrite !elem_of_list_to_set, elem_of_remove_dups.
Qed.

Lemma getitem_loc_mask df m name :
  getitem (loc_mask df m) name = col_mask m <$> getitem df name.
Proof.
  unfold getitem, loc_mask; cbn [columns index].
  rewrite assoc_fmap. by destruct (assoc name (columns df)).
Qed.

(** Filtering keeps the dtype of a column. *)
Lemma filter_data_text_col df sel view name ids :
  filter_data df sel = Ok view → text_col view name = Ok ids →
  ∃ all_ids, text_col df name = Ok all_ids.
Proof.
  destruct sel as [|y]; cbn.
  - intros [= ->]. eauto.
  - intros H. apply bind_Ok in H as (years & _ & [= <-]).
    rewrite !text_col_Ok, getitem_loc_mask.
    intros (c & Hc & Hm)%fmap_Ok. destruct c as [v| | | |]; try done.
    exists v. by apply text_col_Ok.
Qed.

(** The rows of a group are as many as the rows with the key of the
    group. *)
Lemma length_mask_is_key {A} (keys : list Z) (v : list A) k :
  length v = length keys →
  Z.of_nat (length (mask (is_key k keys) v)) = rows_in_year keys k.
Proof.
  unfold rows_in_year. intros Hlen. f_equal. revert v Hlen.
  induction keys as [|k' keys IH]; intros [|x v] Hlen; try done.
  injection Hlen as Hlen. unfold is_key. rewrite fmap_cons. cbn [mask].
  destruct (decide (k' = k)) as [->|Hne].
  - rewrite bool_decide_true, filter_cons_True by done.
    cbn [length]. f_equal. by apply IH.
  - rewrite bool_decide_false, filter_cons_False by done. by apply IH.
Qed.

Lemma rectangular_length df name c :
  rectangular df → getitem df name = Ok c →
  length (cells c) = length (index df).
Proof.
  intros Hrect Hget. unfold getitem in Hget. apply or_raise_Ok in Hget.
  unfold rectangular in Hrect. rewrite Forall_forall in Hrect.
  apply (Hrect (name, c)). by apply assoc_elem_of.
Qed.

(** The yearly count of a text column is the number of rows of the year. *)
Lemma groupby_year_count df col ids years :
  text_col df col = Ok ids → int_col df "year" = Ok years →
  length ids = length years →
  groupby_year_agg group_sum col df Count
  = Ok ((λ y, (y, SInt (rows_in_year years y))) <$> group_keys Z.le years).
Proof.
  intros Hids Hyears Hlen. unfold groupby_year_agg.
  rewrite Hyears. apply text_col_Ok in Hids. rewrite Hids.
  cbn [mbind result_bind].
  apply for_each_total. intros y. cbn.
  by rewrite length_fmap, length_mask_is_key.
Qed.

(** The third card of the KPI row. *)
Lemma create_kpi_metrics_orders df s p o sel cards :
  create_kpi_metrics series_sum millify df s p o sel = Ok cards →
  ∃ ids d,
    text_col df "Order ID" = Ok ids ∧
    cards !! 2%nat = Some (mkMetric "Orders" (Number (nunique ids)) d) ∧
    match sel with
    | All => iloc_last o = Ok d
    | Year y => d = series_get o y "0%"
    end.
Proof.
  unfold create_kpi_metrics. intros H.
  apply bind_Ok in H as (total_sales & _ & H).
  apply bind_Ok in H as (total_profit & _ & H).
  apply bind_Ok in H as (total_orders & Horders & H).
  apply fmap_Ok in Horders as (ids & Hids & ->).
  apply bind_Ok in H as ([[sc pc] oc] & Hchange & H).
  apply bind_Ok in H as (st & _ & H).
  apply bind_Ok in H as (pt & _ & H).
  injection H as <-.
  exists ids, oc. split; [done|]. split; [done|].
  destruct sel as [|y].
  - run_inv Hchange. by subst.
  - by injection Hchange as _ _ <-.
Qed.

End Kpi.

(** C10. The Orders headline is the number of distinct Order ID values of
    the filtered table: an order with several line items counts once. The
    change shown beside it comes from the series that [load_data] computes
    from the whole table with the verb count: its yearly figure is the
    number of rows of the year. *)
Theorem C10_orders_headline_and_change
    (group_sum series_sum : list float → float)
    (millify : Scalar → result string) raw df s p o sel view cards :
  rectangular raw →
  load_data group_sum raw = Ok (df, s, p, o) →
  filter_data df sel = Ok view →
  create_kpi_metrics series_sum millify view s p o sel = Ok cards →
  ∃ ids d years,
    text_col view "Order ID" = Ok ids ∧
    cards !! 2%nat
      = Some (mkMetric "Orders"
                (Number (Z.of_nat (size (list_to_set ids : gset string)))) d) ∧
    match sel with
    | All => iloc_last o = Ok d
    | Year y => d = series_get o y "0%"
    end ∧
    int_col df "year" = Ok years ∧
    groupby_year_agg group_sum "Order ID" df Count
      = Ok ((λ y, (y, SInt (rows_in_year years y))) <$> group_keys Z.le years) ∧
    get_per_year_change group_sum "Order ID" df Count = Ok o.
Proof.
  intros Hrect Hload Hview Hcards.
  destruct (create_kpi_metrics_orders _ _ _ _ _ _ _ _ Hcards)
    as (ids & d & Hids & Hcard & Hd).
  apply load_data_Ok in Hload
    as (order & ship & days & Horder & Hship & Hdays & -> & _ & _ & Ho).
  exists ids, d, (dt_year <$> order).
  split; [done|]. split; [by rewrite <-nunique_size|]. split; [done|].
  assert (int_col (setitem (setitem raw "year" (Int64Col (dt_year <$> order)))
                           "days to ship" (Int64Col days)) "year"
          = Ok (dt_year <$> order)) as Hyears.
  { rewrite int_col_setitem_ne by done. apply int_col_Ok, getitem_setitem_eq. }
  split; [done|]. split; [|done].
  destruct (filter_data_text_col _ _ _ _ _ Hview Hids) as (all_ids & Hall).
  rewrite !text_col_setitem_ne in Hall by done.
  eapply groupby_year_count; [|done|].
  - by rewrite !text_col_setitem_ne.
  - apply text_col_Ok in Hall. apply datetime_col_Ok in Horder.
    pose proof (rectangular_length _ _ _ Hrect Hall) as L1.
    pose proof (rectangular_length _ _ _ Hrect Horder) as L2.
    cbn [cells] in L1, L2. rewrite length_fmap in L1. rewrite length_fmap in L2.
    rewrite length_fmap. lia.
Qed.

Example sample_lines :
  load_data SampleApp.row_order_sum SampleApp.raw_lines =
    Ok (SampleApp.loaded_lines,
        [(2020, "0.0%"); (2021, "50.0%")],
        [(2020, "0.0%"); (2021, "50.0%")],
        [(2020, "0.0%"); (2021, "-50.0%")]) ∧
  filter_data SampleApp.loaded_lines (Year 2020) = Ok SampleApp.lines_2020 ∧
  create_kpi_metrics SampleApp.row_order_sum SampleApp.unabridged
    SampleApp.lines_2020
    [(2020, "0.0%"); (2021, "50.0%")] [(2020, "0.0%"); (2021, "50.0%")]
    [(2020, "0.0%"); (2021, "-50.0%")] (Year 2020)
  = Ok [mkMetric "Sales" (Text "$100.0") "0.0%";
        mkMetric "Profit" (Text "$10.0") "0.0%";
        mkMetric "Orders" (Number 1) "0.0%"].
Proof. vm_compute. repeat split; reflexivity. Qed.

Lemma C10_orders_headline_and_change_witness :
  rectangular SampleApp.raw_lines ∧
  load_data SampleApp.row_order_sum SampleApp.raw_lines =
    Ok (SampleApp.loaded_lines,
        [(2020, "0.0%"); (2021, "50.0%")],
        [(2020, "0.0%"); (2021, "50.0%")],
        [(2020, "0.0%"); (2021, "-50.0%")]) ∧
  filter_data SampleApp.loaded_lines (Year 2020) = Ok SampleApp.lines_2020 ∧
  create_kpi_metrics SampleApp.row_order_sum SampleApp.unabridged
    SampleApp.lines_2020
    [(2020, "0.0%"); (2021, "50.0%")] [(2020, "0.0%"); (2021, "50.0%")]
    [(2020, "0.0%"); (2021, "-50.0%")] (Year 2020)
  = Ok [mkMetric "Sales" (Text "$100.0") "0.0%";
        mkMetric "Profit" (Text "$10.0") "0.0%";
        mkMetric "Orders" (Number 1) "0.0%"] ∧
  ∃ ids d years,
    text_col SampleApp.lines_2020 "Order ID" = Ok ids ∧
    [mkMetric "Sales" (Text "$100.0") "0.0%";
     mkMetric "Profit" (Text "$10.0") "0.0%";
     mkMetric "Orders" (Number 1) "0.0%"] !! 2%nat
      = Some (mkMetric "Orders"
                (Number (Z.of_nat (size (list_to_set ids : gset string)))) d) ∧
    d = series_get [(2020, "0.0%"); (2021, "-50.0%")] 2020 "0%" ∧
    int_col SampleApp.loaded_lines "year" = Ok years ∧
    groupby_year_agg SampleApp.row_order_sum "Order ID" SampleApp.loaded_lines Count
      = Ok ((λ y, (y, SInt (rows_in_year years y))) <$> group_keys Z.le years) ∧
    get_per_year_change SampleApp.row_order_sum "Order ID"
      SampleApp.loaded_lines Count
      = Ok [(2020, "0.0%"); (2021, "-50.0%")].
Proof.
  assert (rectangular SampleApp.raw_lines) as Hrect.
  { unfold rectangular. repeat constructor. }
  split; [exact Hrect|]. split; [vm_compute; reflexivity|].
  split; [vm_compute; reflexivity|]. split; [vm_compute; reflexivity|].
  apply (C10_orders_headline_and_change SampleApp.row_order_sum
           SampleApp.row_order_sum SampleApp.unabridged SampleApp.raw_lines
           SampleApp.loaded_lines
           [(2020, "0.0%"); (2021, "50.0%")] [(2020, "0.0%"); (2021, "50.0%")]
           [(2020, "0.0%"); (2021, "-50.0%")] (Year 2020) SampleApp.lines_2020);
    [exact Hrect|vm_compute; reflexivity..].
Defined.

(** ** app.py: the chart functions and the frame *)

Section Charts.

Variable group_sum : list float → float.
Variable series_sum : list float → float.

Lemma chart_bind_Ok {A B} (m : chart A) (f : A → chart B) df b df'' :
  (m ≫= f) df = Ok (b, df'') ↔
  ∃ a df', m df = Ok (a, df') ∧ f a df' = Ok (b, df'').
Proof.
  unfold mbind, chart_bind. destruct (m df) as [[a df']|e]; split.
  - eauto.
  - by intros (? & ? & [= -> ->] & ?).
  - done.
  - by intros (? & ? & ? & ?).
Qed.

Lemma keeps_frame_ret {A} (a : A) : keeps_frame (mret a).
Proof. by intros df a' df' [= _ <-]. Qed.

Lemma keeps_frame_read {A} (f : DataFrame → result A) : keeps_frame (read f).
Proof.
  intros df a df'. unfold read. destruct (f df); [|done]. by intros [= _ <-].
Qed.

Lemma keeps_frame_lift {A} (r : result A) : keeps_frame (lift r).
Proof. apply keeps_frame_read. Qed.

(** A sequence of steps that keep the frame keeps the frame. *)
Lemma keeps_frame_bind {A B} (m : chart A) (f : A → chart B) :
  keeps_frame m → (∀ a, keeps_frame (f a)) → keeps_frame (m ≫= f).
Proof.
  intros Hm Hf df b df'' (a & df' & Hrun & Hk)%chart_bind_Ok.
  apply Hm in Hrun as ->. by apply Hf in Hk.
Qed.

Lemma assoc_set_same {A} k (a : A) l :
  assoc k l = Some a → assoc_set k a l = l.
Proof.
  induction l as [|[k' a'] l IH]; cbn; [done|].
  destruct (decide (k = k')) as [->|Hne].
  - by intros [= ->].
  - intros H. by rewrite IH.
Qed.

(** Assigning to a column the value it has changes nothing. *)
Lemma setitem_same df name col :
  getitem df name = Ok col → setitem df name col = df.
Proof.
  unfold getitem, setitem. rewrite or_raise_Ok. intros H.
  rewrite assoc_set_same by done. by destruct df.
Qed.

End Charts.

Ltac keeps_frame :=
  repeat first
    [ apply keeps_frame_ret | apply keeps_frame_read | apply keeps_frame_lift
    | apply keeps_frame_bind; [|intros ?]
    | match goal with |- keeps_frame (let '(_, _) := ?x in _) => destruct x end ].

Section ChartTheorems.

Variable group_sum : list float → float.
Variable series_sum : list float → float.

Lemma category_chart_keeps_frame :
  keeps_frame (create_category_performance_chart group_sum).
Proof. unfold create_category_performance_chart. keeps_frame. Qed.

Lemma distribution_chart_keeps_frame :
  keeps_frame create_order_distribution_chart.
Proof. unfold create_order_distribution_chart. keeps_frame. Qed.

Lemma top_products_chart_keeps_frame metric title :
  keeps_frame (create_top_products_chart group_sum metric title).
Proof. unfold create_top_products_chart. keeps_frame. Qed.

Lemma product_charts_keep_frame : keeps_frame (create_product_charts group_sum).
Proof.
  unfold create_product_charts.
  apply keeps_frame_bind; [apply top_products_chart_keeps_frame|intros ?].
  apply keeps_frame_bind; [apply top_products_chart_keeps_frame|intros ?].
  apply keeps_frame_ret.
Qed.

Lemma shipping_gauge_keeps_frame : keeps_frame (create_shipping_gauge series_sum).
Proof. unfold create_shipping_gauge. keeps_frame. Qed.

Lemma sales_trend_chart_keeps_frame : keeps_frame create_sales_trend_chart.
Proof. unfold create_sales_trend_chart. keeps_frame. Qed.

Lemma monthly_sales_traces_keeps_frame :
  keeps_frame (monthly_sales_traces group_sum).
Proof. unfold monthly_sales_traces. keeps_frame. Qed.

(** [create_monthly_sales_trend] is its two assignments, then reads. *)
Lemma create_monthly_sales_trend_unfold df order :
  datetime_col df "Order Date" = Ok order →
  create_monthly_sales_trend group_sum df
  = monthly_sales_traces group_sum
      (setitem (setitem df "Month" (ObjectCol (strftime_b <$> order)))
               "Month_num" (Int64Col (dt_month <$> order))).
Proof.
  intros Horder. unfold create_monthly_sales_trend.
  unfold mbind at 1. unfold chart_bind at 1. unfold read at 1.
  rewrite Horder.
  unfold mbind at 1. unfold chart_bind at 1. unfold assign at 1.
  unfold mbind at 1. unfold chart_bind at 1. unfold read at 1.
  rewrite datetime_col_setitem_ne by done. rewrite Horder.
  unfold mbind at 1. unfold chart_bind at 1. unfold assign at 1.
  reflexivity.
Qed.

Lemma create_monthly_sales_trend_Ok df fig df' :
  create_monthly_sales_trend group_sum df = Ok (fig, df') →
  ∃ order, datetime_col df "Order Date" = Ok order.
Proof.
  unfold create_monthly_sales_trend.
  intros (order & ? & Hrun & _)%chart_bind_Ok.
  unfold read in Hrun. destruct (datetime_col df "Order Date"); [|done]. eauto.
Qed.

End ChartTheorems.

(** C7, as amended. Every chart function returns what its input table (and
    metric name) determines, and none keeps anything between calls. All but
    one leave the table as it was. [create_monthly_sales_trend] assigns the
    columns Month and Month_num on the table it is given, replacing columns
    of these names, and leaves the row labels and every other column as they
    were; run again on the table it left, it returns the same traces and
    leaves that table as it is. *)
Theorem C7_chart_functions_and_the_frame
    (group_sum series_sum : list float → float) :
  keeps_frame (create_category_performance_chart group_sum) ∧
  keeps_frame create_order_distribution_chart ∧
  (∀ metric title, keeps_frame (create_top_products_chart group_sum metric title)) ∧
  keeps_frame (create_shipping_gauge series_sum) ∧
  keeps_frame create_sales_trend_chart ∧
  ∀ df fig df',
    create_monthly_sales_trend group_sum df = Ok (fig, df') →
    ∃ order,
      datetime_col df "Order Date" = Ok order ∧
      getitem df' "Month" = Ok (ObjectCol (strftime_b <$> order)) ∧
      getitem df' "Month_num" = Ok (Int64Col (dt_month <$> order)) ∧
      index df' = index df ∧
      (∀ name, name ≠ "Month" → name ≠ "Month_num" →
               getitem df' name = getitem df name) ∧
      create_monthly_sales_trend group_sum df' = Ok (fig, df').
Proof.
  split; [apply category_chart_keeps_frame|].
  split; [apply distribution_chart_keeps_frame|].
  split; [apply top_products_chart_keeps_frame|].
  split; [apply shipping_gauge_keeps_frame|].
  split; [apply sales_trend_chart_keeps_frame|].
  intros df fig df' Hrun.
  destruct (create_monthly_sales_trend_Ok _ _ _ _ Hrun) as (order & Horder).
  exists order. split; [done|].
  rewrite (create_monthly_sales_trend_unfold _ _ _ Horder) in Hrun.
  pose proof (monthly_sales_traces_keeps_frame _ _ _ _ Hrun) as ->.
  set (c1 := ObjectCol (strftime_b <$> order)) in *.
  set (c2 := Int64Col (dt_month <$> order)) in *.
  assert (getitem (setitem (setitem df "Month" c1) "Month_num" c2) "Month" = Ok c1)
    as Hm by (rewrite getitem_setitem_ne by done; apply getitem_setitem_eq).
  assert (getitem (setitem (setitem df "Month" c1) "Month_num" c2) "Month_num" = Ok c2)
    as Hn by apply getitem_setitem_eq.
  split; [done|]. split; [done|]. split; [done|]. split.
  - intros name H1 H2. by rewrite !getitem_setitem_ne.
  - rewrite (create_monthly_sales_trend_unfold _ _ order).
    + rewrite (setitem_same _ "Month" c1) by done.
      by rewrite (setitem_same _ "Month_num" c2).
    + by rewrite !datetime_col_setitem_ne.
Qed.

Lemma C7_chart_functions_and_the_frame_witness :
  create_monthly_sales_trend SampleApp.row_order_sum SampleApp.loaded_lines
    = Ok (SampleApp.monthly_traces, SampleApp.lines_with_months) ∧
  ∃ order,
    datetime_col SampleApp.loaded_lines "Order Date" = Ok order ∧
    getitem SampleApp.lines_with_months "Month"
      = Ok (ObjectCol (strftime_b <$> order)) ∧
    getitem SampleApp.lines_with_months "Month_num"
      = Ok (Int64Col (dt_month <$> order)) ∧
    index SampleApp.lines_with_months = index SampleApp.loaded_lines ∧
    (∀ name, name ≠ "Month" → name ≠ "Month_num" →
             getitem SampleApp.lines_with_months name
             = getitem SampleApp.loaded_lines name) ∧
    create_monthly_sales_trend SampleApp.row_order_sum SampleApp.lines_with_months
      = Ok (SampleApp.monthly_traces, SampleApp.lines_with_months).
Proof.
  split; [vm_compute; reflexivity|].
  destruct (C7_chart_functions_and_the_frame SampleApp.row_order_sum
              SampleApp.row_order_sum) as (_ & _ & _ & _ & _ & Hmonthly).
  apply (Hmonthly SampleApp.loaded_lines SampleApp.monthly_traces
           SampleApp.lines_with_months).
  vm_compute; reflexivity.
Defined.

(** C7 fails as specified: [create_monthly_sales_trend] hands back the
    sample table with two columns more, Month and Month_num. *)
Lemma C7_counterexample :
  create_monthly_sales_trend SampleApp.row_order_sum SampleApp.loaded_lines
    = Ok (SampleApp.monthly_traces, SampleApp.lines_with_months) ∧
  names SampleApp.lines_with_months
    = (names SampleApp.loaded_lines ++ ["Month"; "Month_num"])%list ∧
  ¬ keeps_frame (create_monthly_sales_trend SampleApp.row_order_sum).
Proof.
  assert (create_monthly_sales_trend SampleApp.row_order_sum SampleApp.loaded_lines
          = Ok (SampleApp.monthly_traces, SampleApp.lines_with_months)) as Hrun
    by (vm_compute; reflexivity).
  split; [exact Hrun|]. split; [reflexivity|].
  intros Hkeeps. apply Hkeeps in Hrun. discriminate Hrun.
Qed.

(** In [main] the charts are drawn one after the other from one frame: the
    stacked bars, drawn last, are handed the two columns that the monthly
    trend has added. *)
Example charts_share_the_frame :
  ∃ kpi c1 c2 c3 c4 c5 c6,
    App.main SampleApp.row_order_sum SampleApp.row_order_sum
      SampleApp.unabridged SampleApp.raw_lines All
      = Ok (kpi, (c1, c2, c3, c4, c5, c6)) ∧
    sb_data c6 = SampleApp.lines_with_months.
Proof. do 7 eexists. split; [vm_compute; reflexivity|reflexivity]. Qed.

(** * Further properties of the code *)

(** ** The yearly series *)

Section SeriesShape.

Variable group_sum : list float → float.

Lemma show_change_fillna0_percent x : ∃ t, show_change (fillna0 x) = t ++ "%".
Proof.
  rewrite show_change_fillna0. destruct (is_nan x); [by exists "0.0"|eauto].
Qed.

End SeriesShape.

(** Every text of the series that [get_per_year_change] returns ends
    with a percent sign; the text NaN of the lambda's second branch is never
    among them. *)
Theorem change_texts_end_in_percent
    (group_sum : list float → float) col df metric
    (out : list (Z * string)) (y : Z) (d : string) :
  get_per_year_change group_sum col df metric = Ok out →
  (y, d) ∈ out →
  (∃ t, d = t ++ "%") ∧ d ≠ "NaN".
Proof.
  intros Hout Hin. split; [|by eapply get_per_year_change_never_NaN].
  apply get_per_year_change_Ok in Hout as (grp & values & _ & _ & ->).
  apply elem_of_zip_r in Hin.
  apply list_elem_of_fmap in Hin as (x & -> & Hin).
  apply list_elem_of_fmap in Hin as (x' & -> & _).
  apply show_change_fillna0_percent.
Qed.

Lemma change_texts_end_in_percent_witness :
  get_per_year_change SampleApp.row_order_sum "Profit" SampleApp.loaded Sum
    = Ok [(2020, "0.0%"); (2021, "0.0%"); (2022, "inf%")] ∧
  (2022, "inf%") ∈ [(2020, "0.0%"); (2021, "0.0%"); (2022, "inf%")] ∧
  (∃ t, "inf%" = t ++ "%") ∧ "inf%" ≠ "NaN".
Proof.
  assert ((2022, "inf%") ∈ [(2020, "0.0%"); (2021, "0.0%"); (2022, "inf%")])
    as Hin by (right; right; left).
  split; [vm_compute; reflexivity|]. split; [exact Hin|].
  apply (change_texts_end_in_percent SampleApp.row_order_sum "Profit"
           SampleApp.loaded Sum
           [(2020, "0.0%"); (2021, "0.0%"); (2022, "inf%")] 2022 "inf%");
    [vm_compute; reflexivity|exact Hin].
Defined.

(** On a frame with a year column, counting any column and summing a
    column of numbers always return, and the series has one entry for each
    distinct year of the frame, in strictly ascending order of the years. *)
Theorem one_entry_per_year
    (group_sum : list float → float) col df metric years c :
  int_col df "year" = Ok years →
  getitem df col = Ok c →
  metric = Count ∨ summable c →
  ∃ out,
    get_per_year_change group_sum col df metric = Ok out ∧
    StronglySorted Z.lt out.*1 ∧
    ∀ y, y ∈ out.*1 ↔ y ∈ years.
Proof.
  intros Hyears Hc Hagg.
  destruct (get_per_year_change_returns group_sum col df metric years c
              Hyears Hc Hagg) as (out & Hout & Hkeys).
  exists out. split; [done|]. rewrite Hkeys. split.
  - apply group_keys_ascending.
  - intros y. apply elem_of_group_keys.
Qed.

Lemma one_entry_per_year_witness :
  int_col SampleApp.loaded_lines "year" = Ok [2020; 2020; 2021] ∧
  getitem SampleApp.loaded_lines "Order ID"
    = Ok (ObjectCol ["CA-1"; "CA-1"; "US-2"]) ∧
  (Count = Count ∨ summable (ObjectCol ["CA-1"; "CA-1"; "US-2"])) ∧
  ∃ out,
    get_per_year_change SampleApp.row_order_sum "Order ID"
      SampleApp.loaded_lines Count = Ok out ∧
    StronglySorted Z.lt out.*1 ∧
    ∀ y, y ∈ out.*1 ↔ y ∈ [2020; 2020; 2021].
Proof.
  split; [reflexivity|]. split; [reflexivity|]. split; [by left|].
  apply (one_entry_per_year SampleApp.row_order_sum "Order ID"
           SampleApp.loaded_lines Count [2020; 2020; 2021]
           (ObjectCol ["CA-1"; "CA-1"; "US-2"]));
    [reflexivity|reflexivity|by left].
Defined.

Lemma load_data_returns_witness :
  datetime_col SampleApp.raw "Order Date"
    = Ok [SampleApp.day 18262; SampleApp.day 18628; SampleApp.day 18993] ∧
  datetime_col SampleApp.raw "Ship Date"
    = Ok [SampleApp.day 18265; SampleApp.day 18626; SampleApp.day 18993] ∧
  Forall in_range [SampleApp.day 18262; SampleApp.day 18628; SampleApp.day 18993] ∧
  Forall in_range [SampleApp.day 18265; SampleApp.day 18626; SampleApp.day 18993] ∧
  summable (Float64Col [SampleApp.sales_2020; SampleApp.sales_2021;
                        SampleApp.sales_2021]) ∧
  summable (Float64Col [of_Z 0; of_Z 0; of_Z 5]) ∧
  ∃ df s p o, load_data SampleApp.row_order_sum SampleApp.raw = Ok (df, s, p, o).
Proof.
  assert (Forall in_range
            [SampleApp.day 18262; SampleApp.day 18628; SampleApp.day 18993]) as Ho
    by (repeat constructor; by vm_compute).
  assert (Forall in_range
            [SampleApp.day 18265; SampleApp.day 18626; SampleApp.day 18993]) as Hs
    by (repeat constructor; by vm_compute).
  split; [reflexivity|]. split; [reflexivity|]. split; [exact Ho|].
  split; [exact Hs|]. split; [exact I|]. split; [exact I|].
  apply (load_data_returns SampleApp.row_order_sum SampleApp.raw _ _
           (Float64Col [SampleApp.sales_2020; SampleApp.sales_2021;
                        SampleApp.sales_2021])
           (Float64Col [of_Z 0; of_Z 0; of_Z 5])
           (ObjectCol ["CA-1"; "US-2"; "CA-3"]) eq_refl eq_refl Ho Hs
           eq_refl I eq_refl I eq_refl).
Defined.

(** ** The select box and the year filter *)

Section YearViews.

Lemma length_mask_same {A B} m (l : list A) (k : list B) :
  length l = length k → length (mask m l) = length (mask m k).
Proof.
  revert l k. induction m as [|b m IH]; intros [|x l] [|z k] Hlen; try done.
  injection Hlen as Hlen. cbn [mask]. destruct b; cbn [length]; auto.
Qed.

Lemma mask_all_true {A} m (l : list A) :
  Forall (λ b, b = true) m → (length l ≤ length m)%nat → mask m l = l.
Proof.
  intros Hm. revert l. induction Hm as [|b m -> _ IH]; intros [|x l] Hlen;
    try done; [cbn in Hlen; lia|].
  cbn [mask]. f_equal. apply IH. cbn in Hlen. lia.
Qed.

(** After selecting the rows with a key, every row has the key. *)
Lemma is_key_mask (keys : list Z) k :
  Forall (λ b, b = true) (is_key k (mask (is_key k keys) keys)).
Proof.
  unfold is_key. induction keys as [|k' keys IH]; [constructor|].
  rewrite fmap_cons. cbn [mask]. destruct (decide (k' = k)) as [->|Hne].
  - rewrite bool_decide_true by done. rewrite fmap_cons. constructor; [|done].
    by rewrite bool_decide_true.
  - by rewrite bool_decide_false.
Qed.

(** ... and no row has another key. *)
Lemma is_key_mask_other (keys : list Z) k k' :
  k' ≠ k → mask (is_key k' (mask (is_key k keys) keys)) (mask (is_key k keys) keys) = [].
Proof.
  intros Hne. unfold is_key. induction keys as [|x keys IH]; [done|].
  rewrite fmap_cons. cbn [mask]. destruct (decide (x = k)) as [->|Hx].
  - rewrite bool_decide_true by done. rewrite fmap_cons. cbn [mask].
    by rewrite bool_decide_false.
  - by rewrite bool_decide_false.
Qed.

Lemma length_mask_le {A} m (l : list A) : (length (mask m l) ≤ length l)%nat.
Proof.
  revert l. induction m as [|b m IH]; intros [|x l]; cbn; try lia.
  specialize (IH l). destruct b; cbn; lia.
Qed.

Lemma rectangular_loc_mask df m : rectangular df → rectangular (loc_mask df m).
Proof.
  unfold rectangular, loc_mask; cbn [index columns]. intros Hrect.
  apply Forall_fmap. eapply Forall_impl; [exact Hrect|].
  intros [n c] Hlen. cbn in *. rewrite cells_col_mask. by apply length_mask_same.
Qed.

Lemma rectangular_setitem df name col :
  rectangular df → length (cells col) = length (index df) →
  rectangular (setitem df name col).
Proof.
  unfold rectangular, setitem; cbn [index columns]. intros Hrect Hlen.
  induction Hrect as [|[n c] l Hc Hl IH]; cbn [assoc_set].
  - by repeat constructor.
  - destruct (decide (name = n)); constructor; done.
Qed.

Lemma int_col_loc_mask df m name v :
  int_col df name = Ok v → int_col (loc_mask df m) name = Ok (mask m v).
Proof.
  rewrite !int_col_Ok, getitem_loc_mask. by intros ->.
Qed.

(** Masking with flags that are all set, on a table that is no longer than
    the flags, changes nothing. *)
Lemma loc_mask_all_true df m :
  rectangular df → Forall (λ b, b = true) m →
  (length (index df) ≤ length m)%nat → loc_mask df m = df.
Proof.
  intros Hrect Hm Hlen. destruct df as [idx cols]. unfold loc_mask; cbn in *.
  f_equal; [by apply mask_all_true|].
  unfold rectangular in Hrect; cbn in Hrect.
  induction Hrect as [|[n c] l Hc _ IH]; [done|].
  rewrite fmap_cons. f_equal; [|done]. unfold prod_map; cbn. f_equal.
  cbn in Hc. destruct c; cbn in *; rewrite length_fmap in Hc; f_equal;
    apply mask_all_true; try done; lia.
Qed.

Lemma filter_eq_nil_iff (keys : list Z) k :
  filter (λ k', k' = k) keys = [] ↔ k ∉ keys.
Proof.
  induction keys as [|x keys IH]; [by split; [intros _ ?%elem_of_nil|]|].
  destruct (decide (x = k)) as [->|Hne].
  - rewrite filter_cons_True by done. split; [done|]. intros H. destruct H. by left.
  - rewrite filter_cons_False by done. rewrite IH, not_elem_of_cons.
    split; [intros ?; split; [congruence|done]|by intros [_ ?]].
Qed.

Lemma rows_in_year_pos (keys : list Z) k : 0 < rows_in_year keys k ↔ k ∈ keys.
Proof.
  unfold rows_in_year.
  destruct (filter (λ k', k' = k) keys) as [|x l] eqn:Hf.
  - apply filter_eq_nil_iff in Hf. cbn. split; [lia|done].
  - cbn [length]. split; [|lia]. intros _.
    destruct (decide (k ∈ keys)) as [|Hn]; [done|].
    apply filter_eq_nil_iff in Hn. congruence.
Qed.

Lemma sumZ_indicator (ks : list Z) x :
  NoDup ks → x ∈ ks → sumZ ((λ k, if decide (x = k) then 1 else 0) <$> ks) = 1.
Proof.
  unfold sumZ. induction 1 as [|k ks Hnin Hnd IH]; [by intros ?%elem_of_nil|].
  rewrite fmap_cons. cbn [foldr]. intros [->|Hin]%elem_of_cons.
  - rewrite decide_True by done.
    assert (foldr Z.add 0 ((λ k0, if decide (k = k0) then 1 else 0) <$> ks) = 0)
      as ->; [|done].
    clear IH Hnd. induction ks as [|k' ks IH]; [done|].
    apply not_elem_of_cons in Hnin as [Hne Hnin].
    rewrite fmap_cons. cbn [foldr]. rewrite decide_False by done. by rewrite IH.
  - rewrite decide_False by (intros ->; done). by rewrite IH.
Qed.

Lemma sumZ_add {A} (f g : A → Z) l :
  sumZ ((λ x, f x + g x) <$> l) = sumZ (f <$> l) + sumZ (g <$> l).
Proof.
  unfold sumZ. induction l as [|x l IH]; [done|].
  rewrite !fmap_cons. cbn [foldr]. rewrite IH. lia.
Qed.

(** Every row is counted under exactly one key. *)
Lemma sumZ_rows_in_year (ks keys : list Z) :
  NoDup ks → (∀ k, k ∈ keys → k ∈ ks) →
  sumZ (rows_in_year keys <$> ks) = Z.of_nat (length keys).
Proof.
  intros Hnd. induction keys as [|x keys IH]; intros Hin.
  - unfold sumZ, rows_in_year. clear. induction ks as [|k ks IH]; [done|].
    rewrite fmap_cons. cbn [foldr]. by rewrite IH.
  - rewrite <-(list_fmap_ext
                (λ k, (if decide (x = k) then 1 else 0) + rows_in_year keys k)).
    + rewrite sumZ_add, sumZ_indicator, IH; [cbn [length]; lia| |done|].
      * intros k Hk. apply Hin. by right.
      * apply Hin. by left.
    + intros _ k _. unfold rows_in_year.
      destruct (decide (x = k)) as [->|Hne].
      * rewrite filter_cons_True by done. cbn [length]. lia.
      * rewrite filter_cons_False by done. lia.
Qed.

Lemma length_rows df : length (rows df) = length (index df).
Proof.
  unfold rows. generalize (prod_map id cells <$> columns df).
  induction (index df) as [|i idx IH]; intros cols; [done|].
  cbn [rows_of length]. by rewrite IH.
Qed.

Lemma sumZ_Permutation (l k : list Z) : l ≡ₚ k → sumZ l = sumZ k.
Proof.
  unfold sumZ. induction 1; cbn; lia.
Qed.

End YearViews.

(** The select box offers All first and then the years of the table, each
    once, in ascending order; a year is offered exactly if the filter gives
    a view with rows for it. *)
Theorem sidebar_offers_the_years df years :
  rectangular df → int_col df "year" = Ok years →
  ∃ ys,
    create_sidebar df = Ok (All :: (Year <$> ys)) ∧
    StronglySorted Z.lt ys ∧
    (∀ y, y ∈ ys ↔ y ∈ years) ∧
    ∀ y, ∃ view, filter_data df (Year y) = Ok view ∧ (y ∈ ys ↔ index view ≠ []).
Proof.
  intros Hrect Hyears. exists (group_keys Z.le years).
  split; [unfold create_sidebar; by rewrite Hyears|].
  split; [apply group_keys_ascending|].
  split; [intros y; apply elem_of_group_keys|].
  intros y. exists (loc_mask df (is_key y years)).
  split; [unfold filter_data; by rewrite Hyears|].
  rewrite elem_of_group_keys, <-rows_in_year_pos.
  apply int_col_Ok in Hyears.
  pose proof (rectangular_length _ _ _ Hrect Hyears) as Hlen.
  cbn [cells] in Hlen. rewrite length_fmap in Hlen.
  rewrite <-(length_mask_is_key years (index df) y) by done.
  unfold loc_mask; cbn [index].
  destruct (mask (is_key y years) (index df)); cbn [length]; split; try done; lia.
Qed.

Lemma sidebar_offers_the_years_witness :
  rectangular SampleApp.loaded_lines ∧
  int_col SampleApp.loaded_lines "year" = Ok [2020; 2020; 2021] ∧
  ∃ ys,
    create_sidebar SampleApp.loaded_lines = Ok (All :: (Year <$> ys)) ∧
    StronglySorted Z.lt ys ∧
    (∀ y, y ∈ ys ↔ y ∈ [2020; 2020; 2021]) ∧
    ∀ y, ∃ view, filter_data SampleApp.loaded_lines (Year y) = Ok view ∧
                 (y ∈ ys ↔ index view ≠ []).
Proof.
  assert (rectangular SampleApp.loaded_lines) as Hrect.
  { unfold rectangular. repeat constructor. }
  split; [exact Hrect|]. split; [reflexivity|].
  apply (sidebar_offers_the_years SampleApp.loaded_lines [2020; 2020; 2021]);
    [exact Hrect|reflexivity].
Defined.

(** The views of the years that the select box offers divide the table
    among them: their numbers of rows add up to the number of rows of the
    table. *)
Theorem year_views_partition df years :
  rectangular df → int_col df "year" = Ok years →
  sumZ ((λ y, n_rows (filter_data df (Year y))) <$> group_keys Z.le years)
  = Z.of_nat (length (index df)).
Proof.
  intros Hrect Hyears.
  pose proof Hyears as Hget. apply int_col_Ok in Hget.
  pose proof (rectangular_length _ _ _ Hrect Hget) as Hlen.
  cbn [cells] in Hlen. rewrite length_fmap in Hlen.
  rewrite (list_fmap_ext _ (rows_in_year years) (group_keys Z.le years)).
  - rewrite (sumZ_Permutation _ (rows_in_year years <$> remove_dups years)).
    + rewrite sumZ_rows_in_year; [lia|apply NoDup_remove_dups|].
      intros k. by rewrite elem_of_remove_dups.
    + apply fmap_Permutation, group_keys_Permutation.
  - intros _ y _. unfold filter_data. rewrite Hyears. cbn.
    by apply length_mask_is_key.
Qed.

Lemma year_views_partition_witness :
  rectangular SampleApp.loaded_lines ∧
  int_col SampleApp.loaded_lines "year" = Ok [2020; 2020; 2021] ∧
  sumZ ((λ y, n_rows (filter_data SampleApp.loaded_lines (Year y)))
          <$> group_keys Z.le [2020; 2020; 2021])
  = Z.of_nat (length (index SampleApp.loaded_lines)).
Proof.
  assert (rectangular SampleApp.loaded_lines) as Hrect.
  { unfold rectangular. repeat constructor. }
  split; [exact Hrect|]. split; [reflexivity|].
  apply (year_views_partition SampleApp.loaded_lines [2020; 2020; 2021]);
    [exact Hrect|reflexivity].
Defined.

(** Filtering a view of a year by the same year again returns the view as
    it is, and filtering it by another year returns a table without rows. *)
Theorem filter_data_twice df years y view :
  rectangular df → int_col df "year" = Ok years →
  filter_data df (Year y) = Ok view →
  filter_data view (Year y) = Ok view ∧
  ∀ y', y' ≠ y →
    ∃ none, filter_data view (Year y') = Ok none ∧ rows none = [].
Proof.
  intros Hrect Hyears Hview. unfold filter_data in Hview.
  rewrite Hyears in Hview. injection Hview as <-.
  pose proof (int_col_loc_mask df (is_key y years) "year" years Hyears) as Hy.
  pose proof (rectangular_loc_mask df (is_key y years) Hrect) as Hrect'.
  pose proof Hy as Hget. apply int_col_Ok in Hget.
  pose proof (rectangular_length _ _ _ Hrect' Hget) as Hlen.
  cbn [cells] in Hlen. rewrite length_fmap in Hlen.
  split.
  - unfold filter_data. rewrite Hy. cbn. f_equal.
    apply loc_mask_all_true; [done|apply is_key_mask|].
    rewrite <-Hlen. unfold is_key. by rewrite length_fmap.
  - intros y' Hne. eexists. split; [unfold filter_data; by rewrite Hy|].
    rewrite rows_loc_mask.
    apply int_col_Ok in Hyears.
    pose proof (rectangular_length _ _ _ Hrect Hyears) as Hlen0.
    assert (length (rows (loc_mask df (is_key y years)))
            = length (mask (is_key y years) years)) as Hrows.
    { by rewrite length_rows. }
    apply length_zero_iff_nil.
    pose proof (is_key_mask_other years y y' Hne) as Hnil.
    rewrite (length_mask_same _ _ (mask (is_key y years) years)) by done.
    by rewrite Hnil.
Qed.

Lemma filter_data_twice_witness :
  rectangular SampleApp.loaded_lines ∧
  int_col SampleApp.loaded_lines "year" = Ok [2020; 2020; 2021] ∧
  filter_data SampleApp.loaded_lines (Year 2020) = Ok SampleApp.lines_2020 ∧
  filter_data SampleApp.lines_2020 (Year 2020) = Ok SampleApp.lines_2020 ∧
  ∀ y', y' ≠ 2020 →
    ∃ none, filter_data SampleApp.lines_2020 (Year y') = Ok none ∧ rows none = [].
Proof.
  assert (rectangular SampleApp.loaded_lines) as Hrect.
  { unfold rectangular. repeat constructor. }
  split; [exact Hrect|]. split; [reflexivity|]. split; [vm_compute; reflexivity|].
  apply (filter_data_twice SampleApp.loaded_lines [2020; 2020; 2021] 2020
           SampleApp.lines_2020); [exact Hrect|reflexivity|vm_compute; reflexivity].
Defined.

(** ** The deltas of the KPI row *)

Section KpiDeltas.

Variable group_sum : list float → float.
Variable series_sum : list float → float.
Variable millify : Scalar → result string.

Lemma series_get_elem_of (s : Series) k d :
  k ∈ s.*1 → (k, series_get s k d) ∈ s.
Proof.
  induction s as [|[k' v] s IH]; cbn; [by intros ?%elem_of_nil|].
  destruct (decide (k' = k)) as [->|Hne].
  - intros _. by left.
  - intros [?|Hin]%elem_of_cons; [congruence|]. right. by apply IH.
Qed.

Lemma series_get_default (s : Series) k d :
  k ∉ s.*1 → series_get s k d = d.
Proof.
  induction s as [|[k' v] s IH]; cbn; [done|].
  rewrite not_elem_of_cons. intros [Hne Hnin].
  rewrite decide_False by congruence. by apply IH.
Qed.

Lemma iloc_last_Ok (s : Series) d :
  iloc_last s = Ok d → ∃ y, last s = Some (y, d) ∧ last s.*1 = Some y.
Proof.
  unfold iloc_last. rewrite or_raise_Ok, fmap_last.
  destruct (last s) as [[y d']|]; cbn; [|done].
  intros [= ->]. eauto.
Qed.

Lemma ascending_last_greatest (l : list Z) y :
  StronglySorted Z.lt l → last l = Some y → ∀ y', y' ∈ l → y' ≤ y.
Proof.
  intros Hs Hlast y' Hin.
  apply list_elem_of_lookup in Hin as (i & Hi).
  rewrite last_lookup in Hlast.
  pose proof (lookup_lt_Some _ _ _ Hi) as Hlt.
  destruct (decide (i = pred (length l))) as [->|Hne].
  - rewrite Hlast in Hi. injection Hi as <-. lia.
  - apply Z.lt_le_incl.
    apply (ascending_lookup_lt l i (pred (length l)) y' y); [done..|lia].
Qed.

(** What [create_kpi_metrics] puts on its three cards as deltas. *)
Lemma create_kpi_metrics_deltas df s p o sel cards :
  create_kpi_metrics series_sum millify df s p o sel = Ok cards →
  ∃ ds dp do,
    deltas cards = [ds; dp; do] ∧
    match sel with
    | All => iloc_last s = Ok ds ∧ iloc_last p = Ok dp ∧ iloc_last o = Ok do
    | Year y =>
        ds = series_get s y "0%" ∧ dp = series_get p y "0%" ∧
        do = series_get o y "0%"
    end.
Proof.
  unfold create_kpi_metrics. intros H.
  apply bind_Ok in H as (total_sales & _ & H).
  apply bind_Ok in H as (total_profit & _ & H).
  apply bind_Ok in H as (total_orders & _ & H).
  apply bind_Ok in H as ([[sc pc] oc] & Hchange & H).
  apply bind_Ok in H as (st & _ & H).
  apply bind_Ok in H as (pt & _ & H).
  injection H as <-.
  exists sc, pc, oc. split; [done|].
  destruct sel as [|y].
  - apply bind_Ok in Hchange as (s' & Hs & Hchange).
    apply bind_Ok in Hchange as (p' & Hp & Hchange).
    apply bind_Ok in Hchange as (o' & Ho & Hchange).
    by injection Hchange as <- <- <-.
  - by injection Hchange as <- <- <-.
Qed.

(** The three series that [load_data] returns have the years of the loaded
    table as their keys. *)
Lemma load_data_series_keys raw df s p o years :
  load_data group_sum raw = Ok (df, s, p, o) →
  int_col df "year" = Ok years →
  s.*1 = group_keys Z.le years ∧ p.*1 = group_keys Z.le years ∧
  o.*1 = group_keys Z.le years.
Proof.
  intros (order & ship & days & _ & _ & _ & _ & Hs & Hp & Ho)%load_data_Ok Hy.
  apply get_per_year_change_keys in Hs as (ys & Hys & ->).
  apply get_per_year_change_keys in Hp as (yp & Hyp & ->).
  apply get_per_year_change_keys in Ho as (yo & Hyo & ->).
  rewrite Hy in Hys, Hyp, Hyo.
  injection Hys as <-. injection Hyp as <-. by injection Hyo as <-.
Qed.

End KpiDeltas.

(** With a year selected, each card of the KPI row shows as its delta the
    entry of that year in the series that [load_data] computed, if the year
    occurs in the loaded table; the fallback text 0% is shown on all three
    cards exactly for a year that does not occur in it. *)
Theorem kpi_deltas_of_a_year
    (group_sum series_sum : list float → float)
    (millify : Scalar → result string) raw df s p o years y view cards :
  load_data group_sum raw = Ok (df, s, p, o) →
  int_col df "year" = Ok years →
  create_kpi_metrics series_sum millify view s p o (Year y) = Ok cards →
  (y ∈ years →
   ∃ ds dp do, (y, ds) ∈ s ∧ (y, dp) ∈ p ∧ (y, do) ∈ o ∧
               deltas cards = [ds; dp; do]) ∧
  (y ∉ years → deltas cards = ["0%"; "0%"; "0%"]).
Proof.
  intros Hload Hyears Hcards.
  destruct (load_data_series_keys _ _ _ _ _ _ _ Hload Hyears) as (Ks & Kp & Ko).
  apply create_kpi_metrics_deltas in Hcards
    as (ds & dp & do & -> & -> & -> & ->).
  split; intros Hy.
  - apply elem_of_group_keys in Hy.
    exists (series_get s y "0%"), (series_get p y "0%"), (series_get o y "0%").
    split; [apply series_get_elem_of; by rewrite Ks|].
    split; [apply series_get_elem_of; by rewrite Kp|].
    split; [apply series_get_elem_of; by rewrite Ko|done].
  - rewrite <-elem_of_group_keys in Hy.
    rewrite !series_get_default; [done|by rewrite ?Ks, ?Kp, ?Ko..].
Qed.

Lemma kpi_deltas_of_a_year_witness :
  load_data SampleApp.row_order_sum SampleApp.raw_lines =
    Ok (SampleApp.loaded_lines,
        [(2020, "0.0%"); (2021, "50.0%")],
        [(2020, "0.0%"); (2021, "50.0%")],
        [(2020, "0.0%"); (2021, "-50.0%")]) ∧
  int_col SampleApp.loaded_lines "year" = Ok [2020; 2020; 2021] ∧
  create_kpi_metrics SampleApp.row_order_sum SampleApp.unabridged
    SampleApp.loaded_lines
    [(2020, "0.0%"); (2021, "50.0%")] [(2020, "0.0%"); (2021, "50.0%")]
    [(2020, "0.0%"); (2021, "-50.0%")] (Year 2021)
  = Ok [mkMetric "Sales" (Text "$250.0") "50.0%";
        mkMetric "Profit" (Text "$25.0") "50.0%";
        mkMetric "Orders" (Number 2) "-50.0%"] ∧
  (2021 ∈ [2020; 2020; 2021] →
   ∃ ds dp do,
     (2021, ds) ∈ [(2020, "0.0%"); (2021, "50.0%")] ∧
     (2021, dp) ∈ [(2020, "0.0%"); (2021, "50.0%")] ∧
     (2021, do) ∈ [(2020, "0.0%"); (2021, "-50.0%")] ∧
     deltas [mkMetric "Sales" (Text "$250.0") "50.0%";
             mkMetric "Profit" (Text "$25.0") "50.0%";
             mkMetric "Orders" (Number 2) "-50.0%"] = [ds; dp; do]) ∧
  (2021 ∉ [2020; 2020; 2021] →
   deltas [mkMetric "Sales" (Text "$250.0") "50.0%";
           mkMetric "Profit" (Text "$25.0") "50.0%";
           mkMetric "Orders" (Number 2) "-50.0%"] = ["0%"; "0%"; "0%"]).
Proof.
  split; [vm_compute; reflexivity|]. split; [reflexivity|].
  split; [vm_compute; reflexivity|].
  apply (kpi_deltas_of_a_year SampleApp.row_order_sum SampleApp.row_order_sum
           SampleApp.unabridged SampleApp.raw_lines SampleApp.loaded_lines
           [(2020, "0.0%"); (2021, "50.0%")] [(2020, "0.0%"); (2021, "50.0%")]
           [(2020, "0.0%"); (2021, "-50.0%")] [2020; 2020; 2021] 2021
           SampleApp.loaded_lines);
    [vm_compute; reflexivity|reflexivity|vm_compute; reflexivity].
Defined.

(** With All selected, the deltas on the cards are those of one year: the
    latest year of the loaded table. *)
Theorem kpi_deltas_of_all
    (group_sum series_sum : list float → float)
    (millify : Scalar → result string) raw df s p o years view cards :
  load_data group_sum raw = Ok (df, s, p, o) →
  int_col df "year" = Ok years →
  create_kpi_metrics series_sum millify view s p o All = Ok cards →
  ∃ y ds dp do,
    y ∈ years ∧ (∀ y', y' ∈ years → y' ≤ y) ∧
    (y, ds) ∈ s ∧ (y, dp) ∈ p ∧ (y, do) ∈ o ∧
    deltas cards = [ds; dp; do].
Proof.
  intros Hload Hyears Hcards.
  destruct (load_data_series_keys _ _ _ _ _ _ _ Hload Hyears) as (Ks & Kp & Ko).
  apply create_kpi_metrics_deltas in Hcards
    as (ds & dp & do & -> & Hs & Hp & Ho).
  apply iloc_last_Ok in Hs as (y & Hs & Hy).
  apply iloc_last_Ok in Hp as (yp & Hp & Hyp).
  apply iloc_last_Ok in Ho as (yo & Ho & Hyo).
  rewrite Ks in Hy. rewrite Kp, Hy in Hyp. rewrite Ko, Hy in Hyo.
  injection Hyp as <-. injection Hyo as <-.
  exists y, ds, dp, do.
  split; [by apply elem_of_group_keys, last_Some_elem_of|].
  split.
  { intros y' Hy'. apply (ascending_last_greatest (group_keys Z.le years));
      [apply group_keys_ascending|done|by apply elem_of_group_keys]. }
  by repeat split; try apply last_Some_elem_of.
Qed.

Lemma kpi_deltas_of_all_witness :
  load_data SampleApp.row_order_sum SampleApp.raw_lines =
    Ok (SampleApp.loaded_lines,
        [(2020, "0.0%"); (2021, "50.0%")],
        [(2020, "0.0%"); (2021, "50.0%")],
        [(2020, "0.0%"); (2021, "-50.0%")]) ∧
  int_col SampleApp.loaded_lines "year" = Ok [2020; 2020; 2021] ∧
  create_kpi_metrics SampleApp.row_order_sum SampleApp.unabridged
    SampleApp.loaded_lines
    [(2020, "0.0%"); (2021, "50.0%")] [(2020, "0.0%"); (2021, "50.0%")]
    [(2020, "0.0%"); (2021, "-50.0%")] All
  = Ok [mkMetric "Sales" (Text "$250.0") "50.0%";
        mkMetric "Profit" (Text "$25.0") "50.0%";
        mkMetric "Orders" (Number 2) "-50.0%"] ∧
  ∃ y ds dp do,
    y ∈ [2020; 2020; 2021] ∧ (∀ y', y' ∈ [2020; 2020; 2021] → y' ≤ y) ∧
    (y, ds) ∈ [(2020, "0.0%"); (2021, "50.0%")] ∧
    (y, dp) ∈ [(2020, "0.0%"); (2021, "50.0%")] ∧
    (y, do) ∈ [(2020, "0.0%"); (2021, "-50.0%")] ∧
    deltas [mkMetric "Sales" (Text "$250.0") "50.0%";
            mkMetric "Profit" (Text "$25.0") "50.0%";
            mkMetric "Orders" (Number 2) "-50.0%"] = [ds; dp; do].
Proof.
  split; [vm_compute; reflexivity|]. split; [reflexivity|].
  split; [vm_compute; reflexivity|].
  apply (kpi_deltas_of_all SampleApp.row_order_sum SampleApp.row_order_sum
           SampleApp.unabridged SampleApp.raw_lines SampleApp.loaded_lines
           [(2020, "0.0%"); (2021, "50.0%")] [(2020, "0.0%"); (2021, "50.0%")]
           [(2020, "0.0%"); (2021, "-50.0%")] [2020; 2020; 2021]
           SampleApp.loaded_lines);
    [vm_compute; reflexivity|reflexivity|vm_compute; reflexivity].
Defined.

(** ** The monthly trend *)

Section Calendar.

Lemma civil_month_range z : 1 ≤ (civil_from_days z).2 ≤ 12.
Proof.
  unfold civil_from_days. cbn [snd].
  set (doe := z + 719468 - (z + 719468) / 146097 * 146097).
  assert (0 ≤ doe < 146097) as Hdoe by (unfold doe; Z.div_mod_to_equations; lia).
  clearbody doe.
  set (yoe := (doe - doe / 1460 + doe / 36524 - doe / 146096) / 365).
  assert (0 ≤ doe - (365 * yoe + yoe / 4 - yoe / 100) ≤ 365) as Hdoy
    by (unfold yoe; Z.div_mod_to_equations; lia).
  set (doy := doe - (365 * yoe + yoe / 4 - yoe / 100)) in *. clearbody doy.
  assert (0 ≤ (5 * doy + 2) / 153 ≤ 11) as Hmp
    by (Z.div_mod_to_equations; lia).
  destruct (Z.ltb_spec ((5 * doy + 2) / 153) 10); lia.
Qed.

Lemma dt_month_range ns : 1 ≤ dt_month ns ≤ 12.
Proof. apply civil_month_range. Qed.

Lemma strftime_b_month_name ns : strftime_b ns = month_name (dt_month ns).
Proof. reflexivity. Qed.

(** In a list of numbers in strictly ascending order that all occur in
    another such list, the numbers come in the order of that list. *)
Lemma ascending_sublist (L ms : list Z) :
  StronglySorted Z.lt L → StronglySorted Z.lt ms → (∀ m, m ∈ ms → m ∈ L) →
  ms `sublist_of` L.
Proof.
  intros HL. revert ms. induction HL as [|x L HL IH Hx]; intros ms Hms Hin.
  - destruct ms as [|m ms]; [constructor|].
    exfalso. apply (not_elem_of_nil m), Hin. by left.
  - destruct ms as [|m ms]; [apply sublist_nil_l|].
    apply StronglySorted_cons in Hms as [Hm Hms].
    rewrite Forall_forall in Hm, Hx.
    destruct (decide (m = x)) as [->|Hne].
    + apply sublist_skip, IH; [done|].
      intros m' Hm'. specialize (Hm _ Hm').
      assert (m' ∈ x :: L) as [E|Hin']%elem_of_cons by (apply Hin; by right);
        [lia|done].
    + assert (m ∈ x :: L) as [E|HmL]%elem_of_cons by (apply Hin; by left);
        [done|].
      specialize (Hx _ HmL).
      apply sublist_cons, IH;
        [by apply StronglySorted_cons; rewrite Forall_forall|].
      intros m' Hm'.
      assert (m' ∈ x :: L) as [E|Hin']%elem_of_cons by (by apply Hin); [|done].
      apply elem_of_cons in Hm' as [->|Hm']; [lia|].
      specialize (Hm _ Hm'). lia.
Qed.

Lemma month_names_sublist (ms : list Z) :
  StronglySorted Z.lt ms → Forall (λ m, 1 ≤ m ≤ 12) ms →
  (month_name <$> ms) `sublist_of` MONTHS.
Proof.
  intros Hms Hrange.
  change MONTHS with (month_name <$> [1; 2; 3; 4; 5; 6; 7; 8; 9; 10; 11; 12]).
  apply fmap_sublist, ascending_sublist; [|done|].
  - repeat (apply StronglySorted_cons; split; [repeat constructor; lia|]).
    constructor.
  - rewrite Forall_forall in Hrange. intros m Hm%Hrange.
    rewrite !elem_of_cons, elem_of_nil. lia.
Qed.

#[local] Instance month_le_trans : Transitive month_le.
Proof. intros a b c. unfold month_le. lia. Qed.

#[local] Instance month_le_total : Total month_le.
Proof. intros a b. unfold month_le. lia. Qed.

(** In a list sorted in ascending order, dropping repetitions leaves a
    strictly ascending list. *)
Lemma remove_dups_ascending (l : list Z) :
  StronglySorted Z.le l → StronglySorted Z.lt (remove_dups l).
Proof.
  induction 1 as [|x l Hl IH Hx]; [constructor|].
  cbn [remove_dups]. destruct (decide_rel _ x l) as [|Hnin]; [done|].
  constructor; [done|].
  rewrite Forall_forall in Hx |- *. intros y Hy.
  rewrite elem_of_remove_dups in Hy.
  specialize (Hx _ Hy). assert (x ≠ y) by (by intros ->). lia.
Qed.

Lemma ascending_unique (l k : list Z) :
  StronglySorted Z.lt l → StronglySorted Z.lt k → (∀ x, x ∈ l ↔ x ∈ k) → l = k.
Proof.
  intros Hl Hk Hiff.
  apply (StronglySorted_unique_strong Z.lt); [intros; lia|done|done|].
  apply NoDup_Permutation; [by apply ascending_NoDup..|done].
Qed.

End Calendar.

Section MonthlyTrend.

Variable group_sum : list float → float.

Lemma read_Ok {A} (f : DataFrame → result A) df a df' :
  read f df = Ok (a, df') ↔ f df = Ok a ∧ df' = df.
Proof.
  unfold read. destruct (f df); split; try done.
  - by intros [= -> ->].
  - by intros [[= ->] ->].
  - by intros [? _].
Qed.

(** The line of a year, from the monthly sums. *)
Lemma monthly_sales_traces_Ok df fig df' :
  monthly_sales_traces group_sum df = Ok (fig, df') →
  ∃ year month month_num (monthly_sales : list (Z * string * Z * Scalar)),
    int_col df "year" = Ok year ∧
    text_col df "Month" = Ok month ∧
    int_col df "Month_num" = Ok month_num ∧
    monthly_sales.*1 = group_keys month_le (zip (zip year month) month_num) ∧
    fig = (λ y,
             let year_data := filter (λ r, r.1.1.1 = y) monthly_sales in
             mkYearTrace ((λ r, r.1.1.2) <$> year_data) (snd <$> year_data)
                         (str_Z y) (default "#000000" (year_palette !! y)))
          <$> remove_dups ((λ r, r.1.1.1) <$> monthly_sales).
Proof.
  unfold monthly_sales_traces. intros H.
  apply chart_bind_Ok in H as (year & df1 & [Hyear ->]%read_Ok & H).
  apply chart_bind_Ok in H as (month & df2 & [Hmonth ->]%read_Ok & H).
  apply chart_bind_Ok in H as (month_num & df3 & [Hnum ->]%read_Ok & H).
  apply chart_bind_Ok in H as (sales & df4 & [Hsales ->]%read_Ok & H).
  apply chart_bind_Ok in H as (ms & df5 & Hms & H).
  unfold lift in Hms. apply read_Ok in Hms as [Hms ->].
  injection H as <- <-.
  exists year, month, month_num, ms. repeat split; try done.
  apply for_each_Ok in Hms. clear -Hms.
  induction Hms as [|k r keys ms Hr _ IH]; [done|].
  apply fmap_Ok in Hr as (v & _ & ->). cbn. by f_equal.
Qed.

(** The keys of the monthly sums: the month name is that of the month
    number, which lies between 1 and 12. *)
Lemma month_keys_form (year : list Z) order k :
  k ∈ zip (zip year (strftime_b <$> order)) (dt_month <$> order) →
  k.1.2 = month_name k.2 ∧ 1 ≤ k.2 ≤ 12.
Proof.
  intros (i & Hi)%list_elem_of_lookup. destruct k as [[y mo] mn].
  apply lookup_zip_Some in Hi as [Hi Hmn].
  apply lookup_zip_Some in Hi as [_ Hmo].
  rewrite list_lookup_fmap in Hmn. rewrite list_lookup_fmap in Hmo.
  destruct (order !! i) as [d|]; [|done].
  injection Hmn as <-. injection Hmo as <-. cbn.
  split; [done|apply dt_month_range].
Qed.

(** Among sorted, distinct keys of that form, those of one year have
    strictly ascending month numbers. *)
Lemma year_data_months (monthly_sales : list (Z * string * Z * Scalar)) y :
  StronglySorted month_le monthly_sales.*1 → NoDup monthly_sales.*1 →
  Forall (λ k, k.1.2 = month_name k.2 ∧ 1 ≤ k.2 ≤ 12) monthly_sales.*1 →
  let year_data := filter (λ r, r.1.1.1 = y) monthly_sales in
  StronglySorted Z.lt ((λ r, r.1.2) <$> year_data) ∧
  Forall (λ m, 1 ≤ m ≤ 12) ((λ r, r.1.2) <$> year_data) ∧
  (λ r, r.1.1.2) <$> year_data = month_name <$> ((λ r, r.1.2) <$> year_data).
Proof.
  induction monthly_sales as [|r ms IH]; intros Hs Hnd Hform; cbn zeta.
  - rewrite filter_nil. repeat split; constructor.
  - rewrite fmap_cons in Hs, Hnd, Hform.
    apply StronglySorted_cons in Hs as [Hr Hs].
    apply NoDup_cons in Hnd as [Hnin Hnd].
    apply Forall_cons in Hform as [[Hname Hrange] Hform].
    destruct (IH Hs Hnd Hform) as (IH1 & IH2 & IH3).
    destruct (decide (r.1.1.1 = y)) as [Hy|Hy];
      [rewrite filter_cons_True by done|by rewrite filter_cons_False].
    rewrite !fmap_cons. split; [|split].
    + constructor; [done|]. apply Forall_fmap, Forall_forall.
      intros r' [Hy' Hin]%list_elem_of_filter. cbn.
      rewrite Forall_forall in Hr, Hform.
      assert (r'.1 ∈ ms.*1) as Hin' by (apply list_elem_of_fmap; eauto).
      pose proof (Hr _ Hin') as Hle. destruct (Hform _ Hin') as [Hname' _].
      assert (r.1 ≠ r'.1) as Hne by (intros E; by rewrite E in Hnin).
      unfold month_le in Hle.
      destruct r as [[[yr mo] mn] v], r' as [[[yr' mo'] mn'] v']; cbn in *.
      assert (mn ≠ mn') by (intros ->; congruence). lia.
    + by constructor.
    + by rewrite Hname, IH3.
Qed.

Lemma create_monthly_sales_trend_lines df fig df' :
  create_monthly_sales_trend group_sum df = Ok (fig, df') →
  ∃ order years (monthly_sales : list (Z * string * Z * Scalar)),
    datetime_col df "Order Date" = Ok order ∧
    int_col df "year" = Ok years ∧
    monthly_sales.*1
    = group_keys month_le
        (zip (zip years (strftime_b <$> order)) (dt_month <$> order)) ∧
    fig = (λ y,
             let year_data := filter (λ r, r.1.1.1 = y) monthly_sales in
             mkYearTrace ((λ r, r.1.1.2) <$> year_data) (snd <$> year_data)
                         (str_Z y) (default "#000000" (year_palette !! y)))
          <$> remove_dups ((λ r, r.1.1.1) <$> monthly_sales).
Proof.
  intros H.
  destruct (create_monthly_sales_trend_Ok _ _ _ _ H) as (order & Horder).
  rewrite (create_monthly_sales_trend_unfold _ _ _ Horder) in H.
  apply monthly_sales_traces_Ok in H
    as (year & month & month_num & ms & Hyear & Hmonth & Hnum & Hms & ->).
  rewrite !int_col_setitem_ne in Hyear by done.
  rewrite int_col_Ok, getitem_setitem_eq in Hnum. injection Hnum as <-.
  rewrite text_col_setitem_ne in Hmonth by done.
  rewrite text_col_Ok, getitem_setitem_eq in Hmonth. injection Hmonth as <-.
  by exists order, year, ms.
Qed.

Lemma group_keys_month_le keys :
  StronglySorted month_le (group_keys month_le keys) ∧
  NoDup (group_keys month_le keys) ∧
  ∀ k, k ∈ group_keys month_le keys ↔ k ∈ keys.
Proof.
  pose proof month_le_trans. pose proof month_le_total.
  unfold group_keys. split; [apply (StronglySorted_merge_sort month_le)|].
  split.
  - rewrite merge_sort_Permutation. apply NoDup_remove_dups.
  - intros k. by rewrite merge_sort_Permutation, elem_of_remove_dups.
Qed.

End MonthlyTrend.

(** Each line of the monthly trend runs through the months in the order of
    the calendar: its x labels are month names from January to December,
    each at most once and in that order, with one sum for each. *)
Theorem monthly_trend_lines_follow_the_calendar
    (group_sum : list float → float) df fig df' :
  create_monthly_sales_trend group_sum df = Ok (fig, df') →
  Forall (λ t, yt_x t `sublist_of` MONTHS ∧
               length (yt_y t) = length (yt_x t)) fig.
Proof.
  intros (order & years & ms & _ & _ & Hms & ->)%create_monthly_sales_trend_lines.
  destruct (group_keys_month_le
              (zip (zip years (strftime_b <$> order)) (dt_month <$> order)))
    as (Hs & Hnd & Hin).
  rewrite <-Hms in Hs, Hnd, Hin.
  assert (Forall (λ k, k.1.2 = month_name k.2 ∧ 1 ≤ k.2 ≤ 12) ms.*1) as Hform.
  { apply Forall_forall. intros k Hk%Hin. by eapply month_keys_form. }
  apply Forall_fmap, Forall_forall. intros y _. cbn.
  destruct (year_data_months ms y Hs Hnd Hform) as (H1 & H2 & H3).
  split; [|by rewrite !length_fmap].
  cbn zeta in H3. rewrite H3. by apply month_names_sublist.
Qed.

Lemma monthly_trend_lines_follow_the_calendar_witness :
  create_monthly_sales_trend SampleApp.row_order_sum SampleApp.loaded_lines
  = Ok (SampleApp.monthly_traces, SampleApp.lines_with_months) ∧
  Forall (λ t, yt_x t `sublist_of` MONTHS ∧
               length (yt_y t) = length (yt_x t)) SampleApp.monthly_traces.
Proof.
  split; [vm_compute; reflexivity|].
  apply (monthly_trend_lines_follow_the_calendar SampleApp.row_order_sum
           SampleApp.loaded_lines SampleApp.monthly_traces
           SampleApp.lines_with_months).
  vm_compute; reflexivity.
Defined.

(** The monthly trend has one line for each year of the table, in ascending
    order of the years and named by the year, and each line has a point. *)
Theorem monthly_trend_one_line_per_year
    (group_sum : list float → float) df years fig df' :
  rectangular df → int_col df "year" = Ok years →
  create_monthly_sales_trend group_sum df = Ok (fig, df') →
  yt_name <$> fig = str_Z <$> group_keys Z.le years ∧
  Forall (λ t, yt_x t ≠ []) fig.
Proof.
  intros Hrect Hyears
    (order & years' & ms & Horder & Hyears' & Hms & ->)%create_monthly_sales_trend_lines.
  rewrite Hyears in Hyears'. injection Hyears' as <-.
  set (keys := zip (zip years (strftime_b <$> order)) (dt_month <$> order)) in *.
  destruct (group_keys_month_le keys) as (Hs & Hnd & Hin).
  rewrite <-Hms in Hs, Hnd, Hin.
  assert (length order = length years) as Hlen.
  { apply int_col_Ok in Hyears. apply datetime_col_Ok in Horder.
    pose proof (rectangular_length _ _ _ Hrect Hyears) as L1.
    pose proof (rectangular_length _ _ _ Hrect Horder) as L2.
    cbn [cells] in L1, L2. rewrite length_fmap in L1. rewrite length_fmap in L2.
    lia. }
  assert ((keys.*1).*1 = years) as Hfst.
  { unfold keys. rewrite fst_zip; [apply fst_zip|];
      rewrite ?length_zip, !length_fmap; lia. }
  assert (∀ y, y ∈ (λ r : Z * string * Z * Scalar, r.1.1.1) <$> ms ↔ y ∈ years)
    as Helem.
  { intros y. rewrite <-Hfst. rewrite !list_elem_of_fmap. split.
    - intros (r & -> & Hr). exists r.1.1. split; [done|].
      apply list_elem_of_fmap. exists r.1. split; [done|].
      apply Hin, list_elem_of_fmap. eauto.
    - intros (yk & -> & (k & -> & Hk%Hin)%list_elem_of_fmap).
      apply list_elem_of_fmap in Hk as (r & -> & Hr). eauto. }
  split.
  - rewrite <-list_fmap_compose.
    rewrite (list_fmap_ext _ str_Z _) by done. f_equal.
    apply ascending_unique.
    + apply remove_dups_ascending.
      change ((λ r : Z * string * Z * Scalar, r.1.1.1) <$> ms)
        with ((λ k : Z * string * Z, k.1.1) ∘ fst <$> ms).
      rewrite (list_fmap_compose fst (λ k : Z * string * Z, k.1.1)).
      apply (StronglySorted_fmap _ month_le Z.le); [|done].
      intros a b. unfold month_le. lia.
    + apply group_keys_ascending.
    + intros y. by rewrite elem_of_remove_dups, elem_of_group_keys.
  - apply Forall_fmap, Forall_forall. intros y Hy. cbn.
    rewrite elem_of_remove_dups in Hy.
    apply list_elem_of_fmap in Hy as (r & -> & Hr).
    assert (r ∈ filter (λ r' : Z * string * Z * Scalar, r'.1.1.1 = r.1.1.1) ms)
      as Hf by (by apply list_elem_of_filter).
    destruct (filter _ ms); [by apply elem_of_nil in Hf|done].
Qed.

Lemma monthly_trend_one_line_per_year_witness :
  rectangular SampleApp.loaded_lines ∧
  int_col SampleApp.loaded_lines "year" = Ok [2020; 2020; 2021] ∧
  create_monthly_sales_trend SampleApp.row_order_sum SampleApp.loaded_lines
  = Ok (SampleApp.monthly_traces, SampleApp.lines_with_months) ∧
  yt_name <$> SampleApp.monthly_traces
  = str_Z <$> group_keys Z.le [2020; 2020; 2021] ∧
  Forall (λ t, yt_x t ≠ []) SampleApp.monthly_traces.
Proof.
  assert (rectangular SampleApp.loaded_lines) as Hrect.
  { unfold rectangular. repeat constructor. }
  split; [exact Hrect|]. split; [reflexivity|].
  split; [vm_compute; reflexivity|].
  apply (monthly_trend_one_line_per_year SampleApp.row_order_sum
           SampleApp.loaded_lines [2020; 2020; 2021] SampleApp.monthly_traces
           SampleApp.lines_with_months);
    [exact Hrect|reflexivity|vm_compute; reflexivity].
Defined.

(** ** The category chart *)

Section CategoryChart.

Variable group_sum : list float → float.

Lemma for_each_Raise_inv {A B} (f : A → result B) l e :
  for_each f l = Raise e → ∃ x, x ∈ l ∧ f x = Raise e.
Proof.
  induction l as [|x l IH]; [done|].
  rewrite for_each_cons. intros [Hx|(y & Hy & H)]%bind_Raise.
  - exists x. split; [by left|done].
  - apply bind_Raise in H as [H|(k & _ & H)]; [|done].
    destruct (IH H) as (x' & Hin & Hx'). exists x'. split; [by right|done].
Qed.

(** A loop whose body returns on every element of the list returns. *)
Lemma for_each_returns {A B} (f : A → result B) l :
  (∀ x, x ∈ l → ∃ y, f x = Ok y) → ∃ k, for_each f l = Ok k.
Proof.
  induction l as [|x l IH]; intros Hf; [by exists []|].
  destruct (Hf x) as (y & Hy); [by left|].
  destruct IH as (k & Hk); [intros x' Hx'; apply Hf; by right|].
  exists (y :: k). by rewrite for_each_cons, Hy, Hk.
Qed.

(** The chart function, with its reads done. *)
Lemma create_category_performance_chart_unfold df category sales profit ids :
  text_col df "Category" = Ok category →
  getitem df "Sales" = Ok sales → getitem df "Profit" = Ok profit →
  getitem df "Order ID" = Ok ids →
  create_category_performance_chart group_sum df
  = (category_perf ← for_each (λ k,
         let m := is_key k category in
         s ← agg_of group_sum Sum sales m;
         p ← agg_of group_sum Sum profit m;
         n ← agg_of group_sum Count ids m;
         Ok (k, s, p, n)) (group_keys str_le category);
     fig ← for_each (λ '(k, s, p, n),
         size ← (λ x, div x (of_Z 50)) <$> to_float n;
         color ← dict_getitem CUSTOM_COLORS k;
         Ok (mkCategoryTrace s p k size color)) category_perf;
     Ok (fig, df)).
Proof.
  intros Hcat Hsales Hprofit Hids. unfold create_category_performance_chart.
  unfold mbind at 1. unfold chart_bind at 1. unfold read at 1. rewrite Hcat.
  unfold mbind at 1. unfold chart_bind at 1. unfold read at 1. rewrite Hsales.
  unfold mbind at 1. unfold chart_bind at 1. unfold read at 1. rewrite Hprofit.
  unfold mbind at 1. unfold chart_bind at 1. unfold read at 1. rewrite Hids.
  unfold mbind at 1. unfold chart_bind at 1. unfold lift at 1. unfold read at 1.
  destruct (for_each _ (group_keys str_le category)) as [perf|e]; [|done].
  cbn [mbind result_bind]. unfold lift, read.
  by destruct (for_each _ perf).
Qed.

End CategoryChart.

(** The category chart has one marker for each category of the table, in
    the order of the names, in the colour that [CUSTOM_COLORS] gives the
    category; if a category of the table has no colour there, the function
    raises the KeyError of such a category and returns no chart. *)
Theorem category_chart_markers
    (group_sum : list float → float) df category sales profit ids :
  text_col df "Category" = Ok category →
  getitem df "Sales" = Ok sales → summable sales →
  getitem df "Profit" = Ok profit → summable profit →
  getitem df "Order ID" = Ok ids →
  match create_category_performance_chart group_sum df with
  | Ok (fig, _) =>
      ct_name <$> fig = group_keys str_le category ∧
      Forall (λ t, CUSTOM_COLORS !! ct_name t = Some (ct_color t)) fig
  | Raise e =>
      ∃ k, k ∈ category ∧ CUSTOM_COLORS !! k = None ∧ e = KeyError k
  end.
Proof.
  intros Hcat Hsales Ssales Hprofit Sprofit Hids.
  rewrite (create_category_performance_chart_unfold group_sum df category
             sales profit ids) by done.
  set (F := λ k : string, _).
  assert (∃ perf, for_each F (group_keys str_le category) = Ok perf)
    as (perf & Hperf).
  { apply for_each_returns. intros k _. unfold F, agg_of. cbn zeta.
    destruct (agg_returns group_sum Sum sales (is_key k category))
      as (s & -> & _); [by right|].
    destruct (agg_returns group_sum Sum profit (is_key k category))
      as (p & -> & _); [by right|].
    destruct (agg_returns group_sum Count ids (is_key k category))
      as (n & -> & _); [by left|].
    cbn. eauto. }
  rewrite Hperf. cbn [mbind result_bind].
  apply for_each_Ok in Hperf.
  assert (Forall2 (λ k r, r.1.1.1 = k ∧ ∃ c, r.2 = SInt c)
            (group_keys str_le category) perf) as Hform.
  { eapply Forall2_impl; [exact Hperf|]. intros k r Hr. unfold F in Hr.
    cbn zeta in Hr. run_inv Hr. subst r. cbn. split; [done|].
    unfold agg_of in *. cbn in Hrun1. injection Hrun1 as <-. eauto. }
  clear Hperf F.
  set (G := λ r : string * Scalar * Scalar * Scalar, _).
  destruct (for_each G perf) as [fig|e] eqn:Hfig; cbn [mbind result_bind].
  - apply for_each_Ok in Hfig. split.
    + revert Hform. generalize (group_keys str_le category). clear -Hfig.
      induction Hfig as [|r t perf fig Ht _ IH]; intros keys Hform.
      * by inversion Hform.
      * inversion Hform as [|k ? keys' ? [Hk _] Hrest]; subst.
        rewrite fmap_cons. f_equal; [|by apply IH].
        destruct r as [[[k s] p] n]. unfold G in Ht. run_inv Ht. by subst t.
    + apply Forall_forall. intros t Ht.
      apply list_elem_of_lookup in Ht as (i & Hi).
      destruct (Forall2_lookup_r _ _ _ _ _ Hfig Hi) as (r & _ & Hr).
      destruct r as [[[k s] p] n]. unfold G in Hr. run_inv Hr. subst t. cbn.
      unfold dict_getitem in Hrun0. by apply or_raise_Ok in Hrun0.
  - apply for_each_Raise_inv in Hfig as (r & Hin & Hr).
    apply list_elem_of_lookup in Hin as (i & Hi).
    destruct (Forall2_lookup_r _ _ _ _ _ Hform Hi) as (k & Hk & <- & c & Hc).
    destruct r as [[[k' s] p] n]. cbn [fst snd] in *. subst n.
    exists k'. split.
    { apply list_elem_of_lookup_2 in Hk. unfold group_keys in Hk.
      by rewrite merge_sort_Permutation, elem_of_remove_dups in Hk. }
    unfold G, dict_getitem in Hr.
    cbn [to_float fmap result_fmap mbind result_bind] in Hr.
    destruct (CUSTOM_COLORS !! k'); [done|].
    cbn [or_raise] in Hr. by injection Hr as <-.
Qed.

Lemma category_chart_markers_witness :
  match create_category_performance_chart SampleApp.row_order_sum
          SampleApp.loaded_lines with
  | Ok (fig, _) =>
      ct_name <$> fig
      = group_keys str_le ["Furniture"; "Technology"; "Furniture"] ∧
      Forall (λ t, CUSTOM_COLORS !! ct_name t = Some (ct_color t)) fig
  | Raise e =>
      ∃ k, k ∈ ["Furniture"; "Technology"; "Furniture"] ∧
           CUSTOM_COLORS !! k = None ∧ e = KeyError k
  end.
Proof.
  apply (category_chart_markers SampleApp.row_order_sum SampleApp.loaded_lines
           ["Furniture"; "Technology"; "Furniture"]
           (Float64Col [of_Z 60; of_Z 40; of_Z 150])
           (Float64Col [of_Z 6; of_Z 4; of_Z 15])
           (ObjectCol ["CA-1"; "CA-1"; "US-2"]));
    [reflexivity|reflexivity|exact I|reflexivity|exact I|reflexivity].
Defined.

(** ** The sunburst *)

Section SunburstChart.

(** Every colour of the palette of the sunburst is of the form that
    [rgba] reads. *)
Lemma region_palette_rgba r c :
  region_palette !! r = Some c → ∃ text, rgba c = Ok text.
Proof.
  unfold region_palette, dict. cbn [foldl fst snd].
  rewrite !lookup_insert_Some, lookup_empty.
  intros [[_ <-]|[_ [[_ <-]|[_ [[_ <-]|[_ [[_ <-]|[_ ?]]]]]]]];
    try done; vm_compute; eauto.
Qed.

Lemma sumZ_filter_indicator {A} `{EqDecision A} (P : A → Prop)
    `{∀ x, Decision (P x)} (ks : list A) x :
  NoDup ks → x ∈ ks →
  sumZ ((λ k, if decide (x = k) then 1 else 0) <$> filter P ks)
  = if decide (P x) then 1 else 0.
Proof.
  unfold sumZ. induction 1 as [|k ks Hnin Hnd IH]; [by intros ?%elem_of_nil|].
  assert (x ∉ ks →
          foldr Z.add 0 ((λ k0, if decide (x = k0) then 1 else 0) <$> filter P ks)
          = 0) as Hzero.
  { clear. induction ks as [|k' ks IH]; [done|].
    rewrite not_elem_of_cons. intros [Hne Hnin].
    destruct (decide (P k')); [rewrite filter_cons_True by done
                              |rewrite filter_cons_False by done; auto].
    rewrite fmap_cons. cbn [foldr]. rewrite decide_False by done.
    by rewrite IH. }
  intros [->|Hin]%elem_of_cons.
  - destruct (decide (P k)).
    + rewrite filter_cons_True by done. rewrite fmap_cons. cbn [foldr].
      rewrite decide_True by done. rewrite Hzero by done. lia.
    + rewrite filter_cons_False by done. by apply Hzero.
  - destruct (decide (P k)).
    + rewrite filter_cons_True by done. rewrite fmap_cons. cbn [foldr].
      rewrite decide_False by (intros ->; done). by rewrite IH.
    + rewrite filter_cons_False by done. by apply IH.
Qed.

(** The counts of the distinct keys that satisfy [P] add up to the number
    of rows whose key satisfies [P]. *)
Lemma sumZ_count_of {A} `{EqDecision A} (P : A → Prop)
    `{∀ x, Decision (P x)} (ks keys : list A) :
  NoDup ks → (∀ k, k ∈ keys → k ∈ ks) →
  sumZ ((λ k, count_of (λ k', k' = k) keys) <$> filter P ks) = count_of P keys.
Proof.
  intros Hnd. unfold count_of. induction keys as [|x keys IH]; intros Hin.
  - unfold sumZ. rewrite filter_nil. cbn [length].
    induction (filter P ks) as [|k l IHl]; [done|].
    rewrite fmap_cons. cbn [foldr]. by rewrite IHl.
  - rewrite <-(list_fmap_ext
                (λ k, (if decide (x = k) then 1 else 0)
                      + Z.of_nat (length (filter (λ k', k' = k) keys)))).
    + rewrite sumZ_add, sumZ_filter_indicator, IH; [| |done|].
      * destruct (decide (P x)); [rewrite filter_cons_True by done
                                 |rewrite filter_cons_False by done];
          cbn [length]; lia.
      * intros k Hk. apply Hin. by right.
      * apply Hin. by left.
    + intros _ k _. destruct (decide (x = k)) as [->|Hne].
      * rewrite filter_cons_True by done. cbn [length]. lia.
      * rewrite filter_cons_False by done. lia.
Qed.

(** The chart function, with its reads done. *)
Lemma create_order_distribution_chart_unfold df region segment :
  text_col df "Region" = Ok region → text_col df "Segment" = Ok segment →
  create_order_distribution_chart df
  = (let keys := zip region segment in
     let order_dist :=
       (λ k, (k, Z.of_nat (length (filter (λ k', k' = k) keys))))
         <$> group_keys pair_le keys in
     top ← for_each (λ r,
         let region_total :=
           int_sum (snd <$> filter (λ kc : string * string * Z, kc.1.1 = r)
                                   order_dist) in
         color ← dict_getitem region_palette r;
         Ok (r, "", region_total, color))
       (remove_dups (fst ∘ fst <$> order_dist));
     leaves ← for_each (λ '((r, s), count),
         region_color ← dict_getitem region_palette r;
         color ← rgba region_color;
         Ok (r ++ " - " ++ s, r, count, color)) order_dist;
     let all := (top ++ leaves)%list in
     Ok (mkSunburst ((λ x, x.1.1.1) <$> all) ((λ x, x.1.1.2) <$> all)
                    ((λ x, x.1.2) <$> all) (snd <$> all), df)).
Proof.
  intros Hregion Hsegment. unfold create_order_distribution_chart.
  unfold mbind at 1. unfold chart_bind at 1. unfold read at 1. rewrite Hregion.
  unfold mbind at 1. unfold chart_bind at 1. unfold read at 1. rewrite Hsegment.
  cbn zeta.
  unfold mbind at 1. unfold chart_bind at 1. unfold lift at 1. unfold read at 1.
  destruct (for_each _ (remove_dups _)) as [top|e]; [|done].
  cbn [mbind result_bind].
  unfold mbind at 1. unfold chart_bind at 1. unfold lift at 1. unfold read at 1.
  by destruct (for_each _ _).
Qed.

End SunburstChart.

Section SunburstCounts.

Lemma filter_counted {A} (cnt : A → Z) (P : A → Prop) `{∀ x, Decision (P x)}
    (ks : list A) :
  snd <$> filter (λ kc : A * Z, P kc.1) ((λ k, (k, cnt k)) <$> ks)
  = cnt <$> filter P ks.
Proof.
  induction ks as [|k ks IH]; [done|].
  rewrite fmap_cons. destruct (decide (P k)).
  - rewrite !filter_cons_True by done. rewrite !fmap_cons. by rewrite IH.
  - by rewrite !filter_cons_False by done.
Qed.

Lemma count_of_fst {A B} (P : A → Prop) `{∀ x, Decision (P x)}
    (l : list (A * B)) :
  count_of (λ k, P k.1) l = count_of P l.*1.
Proof.
  unfold count_of. f_equal. induction l as [|x l IH]; [done|].
  rewrite fmap_cons. destruct (decide (P x.1)).
  - rewrite !filter_cons_True by done. cbn [length]. by rewrite IH.
  - by rewrite !filter_cons_False by done.
Qed.

Lemma count_of_range {A} (P : A → Prop) `{∀ x, Decision (P x)} (l : list A) :
  0 ≤ count_of P l ≤ Z.of_nat (length l).
Proof.
  unfold count_of. pose proof (length_filter P l). lia.
Qed.

Lemma wrap64_small z : 0 ≤ z < 2 ^ 63 → wrap64 z = z.
Proof.
  intros Hz. unfold wrap64.
  assert (2 ^ 63 = 9223372036854775808) as E63 by reflexivity.
  assert (2 ^ 64 = 18446744073709551616) as E64 by reflexivity.
  rewrite E63 in *. rewrite E64. rewrite Z.mod_small; lia.
Qed.

End SunburstCounts.

(** The sunburst accounts for every row once. It has one top-level entry
    for each region of the table, whose value is the number of rows of the
    region, and below it one entry for each pair of region and segment that
    occurs, whose value is the number of rows of the pair. The only way it
    fails is the KeyError of a region of the table that the palette does
    not list: its colours are always read. *)
Theorem sunburst_accounts_for_every_row df region segment :
  rectangular df → Z.of_nat (length (index df)) < 2 ^ 63 →
  text_col df "Region" = Ok region → text_col df "Segment" = Ok segment →
  match create_order_distribution_chart df with
  | Ok (sb, _) =>
      ∃ (regions : list string) (pairs : list (string * string)),
        NoDup regions ∧ (∀ r, r ∈ regions ↔ r ∈ region) ∧
        NoDup pairs ∧ (∀ k, k ∈ pairs ↔ k ∈ zip region segment) ∧
        labels sb
        = (regions
           ++ ((λ k : string * string, (k.1 ++ " - " ++ k.2)%string) <$> pairs))%list ∧
        parents sb = (((λ _, "") <$> regions) ++ pairs.*1)%list ∧
        values sb
        = (((λ r, count_of (λ r', r' = r) region) <$> regions)
           ++ ((λ k, count_of (λ k', k' = k) (zip region segment)) <$> pairs))%list
  | Raise e =>
      ∃ r, r ∈ region ∧ region_palette !! r = None ∧ e = KeyError r
  end.
Proof.
  intros Hrect Hsize Hregion Hsegment.
  rewrite (create_order_distribution_chart_unfold df region segment) by done.
  assert (length region = length (index df) ∧
          length segment = length (index df)) as [Lr Ls].
  { apply text_col_Ok in Hregion, Hsegment.
    pose proof (rectangular_length _ _ _ Hrect Hregion) as L1.
    pose proof (rectangular_length _ _ _ Hrect Hsegment) as L2.
    cbn [cells] in L1, L2. rewrite length_fmap in L1. rewrite length_fmap in L2.
    done. }
  cbn zeta. set (keys := zip region segment).
  set (pairs := group_keys pair_le keys).
  set (cnt := λ k : string * string,
                Z.of_nat (length (filter (λ k', k' = k) keys))).
  change ((λ k : string * string,
             (k, Z.of_nat (length (filter (λ k', k' = k) keys)))) <$> pairs)
    with ((λ k, (k, cnt k)) <$> pairs).
  set (order_dist := (λ k, (k, cnt k)) <$> pairs).
  assert (fst ∘ fst <$> order_dist = pairs.*1) as ->.
  { unfold order_dist. rewrite <-list_fmap_compose. by apply list_fmap_ext. }
  set (regions := remove_dups pairs.*1).
  assert (NoDup pairs ∧ ∀ k, k ∈ pairs ↔ k ∈ keys) as [Hnd Hpairs].
  { unfold pairs, group_keys. split.
    - rewrite merge_sort_Permutation. apply NoDup_remove_dups.
    - intros k. by rewrite merge_sort_Permutation, elem_of_remove_dups. }
  assert (keys.*1 = region) as Hfst by (apply fst_zip; lia).
  assert (∀ r, r ∈ regions ↔ r ∈ region) as Hregions.
  { intros r. unfold regions. rewrite elem_of_remove_dups, <-Hfst.
    rewrite !list_elem_of_fmap. by setoid_rewrite Hpairs. }
  set (T := λ r : string, _).
  destruct (for_each T regions) as [top|e] eqn:Htop; cbn [mbind result_bind].
  2:{ apply for_each_Raise_inv in Htop as (r & Hr & Hraise).
      exists r. split; [by apply Hregions|].
      unfold T, dict_getitem in Hraise. cbn zeta in Hraise.
      destruct (region_palette !! r); [done|].
      cbn [or_raise mbind result_bind] in Hraise. by injection Hraise as <-. }
  apply for_each_Ok in Htop.
  assert (Forall2 (λ r t, t.1 = (r, "", count_of (λ r', r' = r) region) ∧
                          region_palette !! r = Some t.2) regions top) as Htop'.
  { apply Forall2_same_length_lookup. split; [by eapply Forall2_length|].
    intros i r t Hr Ht.
    pose proof (Forall2_lookup_lr _ _ _ _ _ _ Htop Hr Ht) as Hrun.
    unfold T, dict_getitem in Hrun. cbn zeta in Hrun.
    destruct (region_palette !! r) as [c|]; [|done].
    cbn [or_raise mbind result_bind] in Hrun. injection Hrun as <-.
    split; [|done]. cbn [fst]. do 2 f_equal.
    unfold order_dist, int_sum.
    assert (foldr Z.add 0
              (filter (λ kc : string * string * Z, kc.1.1 = r)
                 ((λ k, (k, cnt k)) <$> pairs)).*2
            = count_of (λ k : string * string, k.1 = r) keys) as ->.
    { rewrite <-(sumZ_count_of (λ k, k.1 = r) pairs keys Hnd)
        by (intros k; apply Hpairs).
      unfold sumZ, count_of. f_equal.
      pose proof (filter_counted cnt (λ k : string * string, k.1 = r) pairs)
        as E.
      cbv beta in E. exact E. }
    assert (count_of (λ k : string * string, k.1 = r) keys
            = count_of (λ r' : string, r' = r) region) as ->.
    { pose proof (count_of_fst (λ r' : string, r' = r) keys) as E.
      cbv beta in E. by rewrite Hfst in E. }
    apply wrap64_small.
    pose proof (count_of_range (λ r', r' = r) region). lia. }
  set (L := λ x : string * string * Z, _).
  destruct (for_each L order_dist) as [leaves|e] eqn:Hleaves;
    cbn [mbind result_bind].
  2:{ exfalso. apply for_each_Raise_inv in Hleaves as ([[r s] c] & Hin & Hraise).
      unfold order_dist in Hin.
      apply list_elem_of_fmap in Hin as (k & Hrs & Hk).
      injection Hrs as <- _.
      assert (r ∈ regions) as Hr.
      { unfold regions. rewrite elem_of_remove_dups, list_elem_of_fmap.
        by exists (r, s). }
      apply list_elem_of_lookup in Hr as (i & Hi).
      destruct (Forall2_lookup_l _ _ _ _ _ Htop' Hi) as (t & _ & _ & Hcol).
      destruct (region_palette_rgba _ _ Hcol) as (text & Htext).
      unfold L, dict_getitem in Hraise. rewrite Hcol in Hraise.
      cbn [or_raise mbind result_bind] in Hraise. by rewrite Htext in Hraise. }
  apply for_each_Ok in Hleaves.
  assert (Forall2 (λ k t, t.1 = (k.1 ++ " - " ++ k.2, k.1,
                                 count_of (λ k', k' = k) keys)) pairs leaves)
    as Hleaves'.
  { unfold order_dist in Hleaves. apply Forall2_fmap_l in Hleaves.
    eapply Forall2_impl; [exact Hleaves|]. intros [r s] t Hrun.
    unfold L in Hrun. cbn [compose] in Hrun. run_inv Hrun. by subst t. }
  exists regions, pairs.
  split; [apply NoDup_remove_dups|]. split; [done|]. split; [done|].
  split; [done|]. cbn [labels parents values].
  rewrite !fmap_app.
  assert (∀ {A B C} (f : A → B) (g : C → B) (l : list A) (k : list C),
            Forall2 (λ x y, f x = g y) l k → f <$> l = g <$> k) as Hmap.
  { intros A B C f g l k H. induction H; [done|]. rewrite !fmap_cons.
    by f_equal. }
  assert (∀ {A C} (g : C → A) (l : list A) (k : list C),
            Forall2 (λ x y, x = g y) l k → l = g <$> k) as Hmap1.
  { intros A C g l k H. induction H; [done|]. rewrite fmap_cons.
    by f_equal. }
  split; [|split]; f_equal; symmetry.
  - apply Hmap1. eapply Forall2_impl; [exact Htop'|]. by intros r t [-> _].
  - apply Hmap. eapply Forall2_impl; [exact Hleaves'|]. by intros k t ->.
  - apply Hmap. eapply Forall2_impl; [exact Htop'|]. by intros r t [-> _].
  - apply Hmap. eapply Forall2_impl; [exact Hleaves'|]. by intros k t ->.
  - apply Hmap. eapply Forall2_impl; [exact Htop'|]. by intros r t [-> _].
  - apply Hmap. eapply Forall2_impl; [exact Hleaves'|]. by intros k t ->.
Qed.

Lemma sunburst_accounts_for_every_row_witness :
  rectangular SampleApp.loaded_lines ∧
  Z.of_nat (length (index SampleApp.loaded_lines)) < 2 ^ 63 ∧
  match create_order_distribution_chart SampleApp.loaded_lines with
  | Ok (sb, _) =>
      ∃ (regions : list string) (pairs : list (string * string)),
        NoDup regions ∧ (∀ r, r ∈ regions ↔ r ∈ ["West"; "West"; "East"]) ∧
        NoDup pairs ∧
        (∀ k, k ∈ pairs ↔ k ∈ zip ["West"; "West"; "East"]
                                   ["Consumer"; "Consumer"; "Corporate"]) ∧
        labels sb
        = (regions
           ++ ((λ k : string * string, (k.1 ++ " - " ++ k.2)%string) <$> pairs))%list ∧
        parents sb = (((λ _, "") <$> regions) ++ pairs.*1)%list ∧
        values sb
        = (((λ r, count_of (λ r', r' = r) ["West"; "West"; "East"]) <$> regions)
           ++ ((λ k, count_of (λ k', k' = k)
                       (zip ["West"; "West"; "East"]
                            ["Consumer"; "Consumer"; "Corporate"])) <$> pairs))%list
  | Raise e =>
      ∃ r, r ∈ ["West"; "West"; "East"] ∧ region_palette !! r = None ∧
           e = KeyError r
  end.
Proof.
  assert (rectangular SampleApp.loaded_lines) as Hrect.
  { unfold rectangular. repeat constructor. }
  split; [exact Hrect|]. split; [reflexivity|].
  apply (sunburst_accounts_for_every_row SampleApp.loaded_lines
           ["West"; "West"; "East"] ["Consumer"; "Consumer"; "Corporate"]);
    [exact Hrect|reflexivity|reflexivity|reflexivity].
Defined.

(** ** The top products *)

Ltac order_cases :=
  repeat match goal with
  | |- context [?a ?= ?b] =>
      lazymatch type of a with
      | Z => destruct (Z.compare_spec a b)
      end
  | |- context [Pos.compare_cont Eq ?a ?b] =>
      change (Pos.compare_cont Eq a b) with (Pos.compare a b);
      destruct (Pos.compare_spec a b)
  end.

Section FloatOrder.

Lemma ltb_asym x y : ltb x y = true → ltb y x = false.
Proof.
  unfold ltb, SFltb, SFcompare.
  destruct x as [sx|sx| |sx mx ex], y as [sy|sy| |sy my ey];
    try destruct sx; try destruct sy; try done;
    order_cases; cbn; try done; lia.
Qed.

Lemma ltb_false_trans x y z :
  notnull y = true →
  ltb x y = false → ltb y z = false → ltb x z = false.
Proof.
  unfold ltb, SFltb, SFcompare. intros Hy.
  destruct x as [sx|sx| |sx mx ex], y as [sy|sy| |sy my ey],
    z as [sz|sz| |sz mz ez];
    try destruct sx; try destruct sy; try destruct sz; try done;
    order_cases; cbn; try done; lia.
Qed.

Lemma int_valued_asym a b :
  int_valued a → int_valued b → scalar_ltb a b = true → scalar_ltb b a = false.
Proof. destruct a, b; cbn; try done. intros _ _. lia. Qed.

Lemma int_valued_trans a b c :
  int_valued a → int_valued b → int_valued c →
  scalar_ltb a b = false → scalar_ltb b c = false → scalar_ltb a c = false.
Proof. destruct a, b, c; cbn; try done. intros _ _ _. lia. Qed.

Lemma float_valued_asym a b :
  float_valued a → float_valued b →
  scalar_ltb a b = true → scalar_ltb b a = false.
Proof. destruct a, b; cbn; try done. intros _ _. apply ltb_asym. Qed.

Lemma float_valued_trans a b c :
  float_valued a → float_valued b → float_valued c →
  scalar_ltb a b = false → scalar_ltb b c = false → scalar_ltb a c = false.
Proof.
  destruct a, b, c; cbn; try done. intros _ Hb _. by apply ltb_false_trans.
Qed.

End FloatOrder.

Section Largest.

Context {K : Type}.
Variable V : Scalar → Prop.
Hypothesis V_asym :
  ∀ a b, V a → V b → scalar_ltb a b = true → scalar_ltb b a = false.
Hypothesis V_trans :
  ∀ a b c, V a → V b → V c →
    scalar_ltb a b = false → scalar_ltb b c = false → scalar_ltb a c = false.

Lemma insert_desc_Permutation (kv : K * Scalar) l : insert_desc kv l ≡ₚ kv :: l.
Proof.
  induction l as [|h t IH]; [done|]. cbn [insert_desc].
  destruct (scalar_ltb h.2 kv.2); [done|].
  rewrite IH. apply Permutation_swap.
Qed.

Lemma insert_desc_descending (kv : K * Scalar) l :
  V kv.2 → Forall (λ h, V h.2) l → descending l →
  descending (insert_desc kv l).
Proof.
  unfold descending. intros Hkv HV Hs.
  induction Hs as [|h t Ht IH Hh]; cbn [insert_desc].
  - repeat constructor.
  - apply Forall_cons in HV as [Vh Vt].
    destruct (scalar_ltb h.2 kv.2) eqn:Hlt.
    + constructor; [by constructor|].
      constructor; [by apply V_asym|].
      rewrite Forall_forall in Hh, Vt |- *. intros x Hx.
      apply (V_trans _ h.2); auto.
    + constructor; [by apply IH|].
      rewrite insert_desc_Permutation. by constructor.
Qed.

Lemma foldl_insert_desc (l acc : list (K * Scalar)) :
  Forall (λ h, V h.2) l → Forall (λ h, V h.2) acc → descending acc →
  descending (foldl (λ acc kv, insert_desc kv acc) acc l) ∧
  foldl (λ acc kv, insert_desc kv acc) acc l ≡ₚ (acc ++ l)%list.
Proof.
  revert acc. induction l as [|kv l IH]; intros acc Vl Vacc Hacc; cbn [foldl].
  - by rewrite app_nil_r.
  - apply Forall_cons in Vl as [Vkv Vl].
    destruct (IH (insert_desc kv acc)) as [Hs Hp]; [done| |by apply insert_desc_descending|].
    { rewrite insert_desc_Permutation. by constructor. }
    split; [done|]. rewrite Hp, insert_desc_Permutation.
    by rewrite <-Permutation_middle.
Qed.

Lemma null_not_above a b : scalar_notnull b = false → scalar_ltb a b = false.
Proof.
  destruct b as [|x|]; try done. destruct x; try done. intros _.
  destruct a as [|x|]; try done. by destruct x.
Qed.

Lemma nulls_descending (l : list (K * Scalar)) :
  Forall (λ bar, scalar_notnull bar.2 = false) l → descending l.
Proof.
  induction 1 as [|b l Hb Hl IH]; constructor; [done|].
  eapply Forall_impl; [exact Hl|]. intros b' Hb'. by apply null_not_above.
Qed.

Lemma filter_null_Permutation (l : list (K * Scalar)) :
  (filter (λ kv, scalar_notnull kv.2 = true) l
   ++ filter (λ kv, scalar_notnull kv.2 = false) l)%list ≡ₚ l.
Proof.
  induction l as [|kv l IH]; [done|].
  destruct (scalar_notnull kv.2) eqn:Hnn.
  - rewrite filter_cons_True, filter_cons_False by congruence.
    cbn. by rewrite IH.
  - rewrite filter_cons_False, filter_cons_True by congruence.
    by rewrite <-Permutation_middle, IH.
Qed.

(** [nlargest]: the entries that are not null, in a descending
    arrangement, then the null ones, cut off after [n] entries. *)
Lemma nlargest_Ok n (l out : list (K * Scalar)) :
  Forall (λ h, V h.2) (filter (λ kv, scalar_notnull kv.2 = true) l) →
  nlargest n l = Ok out →
  ∃ sorted,
    sorted ≡ₚ filter (λ kv, scalar_notnull kv.2 = true) l ∧
    descending sorted ∧
    out = take n (sorted ++ filter (λ kv, scalar_notnull kv.2 = false) l)%list.
Proof.
  intros HV. unfold nlargest. destruct (existsb _ l); [done|]. intros [= <-].
  destruct (foldl_insert_desc (filter (λ kv, scalar_notnull kv.2 = true) l) [])
    as [Hs Hp]; [done|constructor|constructor|].
  eexists. split; [exact Hp|]. split; [exact Hs|done].
Qed.

End Largest.

Section TopProducts.

Variable group_sum : list float → float.

Lemma create_top_products_chart_Ok metric title df chart df' :
  create_top_products_chart group_sum metric title df = Ok (chart, df') →
  ∃ product c (sums : list (string * Scalar)),
    text_col df "Product Name" = Ok product ∧
    getitem df metric = Ok c ∧
    Forall2 (λ k kv, kv.1 = k ∧
                     agg group_sum Sum (col_mask (is_key k product) c) = Ok kv.2)
            (group_keys str_le product) sums ∧
    nlargest 10 sums = Ok (bc_data chart).
Proof.
  unfold create_top_products_chart. intros H.
  apply chart_bind_Ok in H as (product & df1 & [Hproduct ->]%read_Ok & H).
  apply chart_bind_Ok in H as (c & df2 & [Hc ->]%read_Ok & H).
  apply chart_bind_Ok in H as (sums & df3 & Hsums & H).
  unfold lift in Hsums. apply read_Ok in Hsums as [Hsums ->].
  apply chart_bind_Ok in H as (top & df4 & Htop & H).
  unfold lift in Htop. apply read_Ok in Htop as [Htop ->].
  injection H as <- <-.
  exists product, c, sums. repeat split; try done.
  apply for_each_Ok in Hsums. eapply Forall2_impl; [exact Hsums|].
  intros k kv (v & Hv & ->)%fmap_Ok. done.
Qed.

Lemma sums_of_one_kind c m v :
  summable c → agg group_sum Sum (col_mask m c) = Ok v →
  scalar_notnull v = true →
  match c with Float64Col _ => float_valued v | _ => int_valued v end.
Proof.
  destruct c; cbn; try done; intros _ [= <-]; done.
Qed.

End TopProducts.

(** The bar chart of the top products shows ten bars, or as many as there
    are products if these are fewer, each a different product of the table
    with its sum. The bars with a sum come first, in descending order of
    the sums, and the bars whose sum is null come behind them. When a
    product with a sum is left out, there are ten bars, each of them has a
    sum, and none is smaller than the sum left out. *)
Theorem top_products_are_the_largest
    (group_sum : list float → float) metric title df product c chart df' :
  text_col df "Product Name" = Ok product →
  getitem df metric = Ok c → summable c →
  create_top_products_chart group_sum metric title df = Ok (chart, df') →
  ∃ sums : list (string * Scalar),
    sums.*1 = group_keys str_le product ∧
    Forall (λ kv, agg group_sum Sum (col_mask (is_key kv.1 product) c)
                  = Ok kv.2) sums ∧
    length (bc_data chart) = (10 `min` length sums)%nat ∧
    NoDup (bc_data chart).*1 ∧
    (∀ bar, bar ∈ bc_data chart → bar ∈ sums ∧ bar.1 ∈ product) ∧
    descending (bc_data chart) ∧
    (∃ numbers nulls,
       bc_data chart = (numbers ++ nulls)%list ∧
       Forall (λ bar, scalar_notnull bar.2 = true) numbers ∧
       Forall (λ bar, scalar_notnull bar.2 = false) nulls) ∧
    ∀ kv, kv ∈ sums → scalar_notnull kv.2 = true → kv ∉ bc_data chart →
      length (bc_data chart) = 10%nat ∧
      ∀ bar, bar ∈ bc_data chart →
        scalar_notnull bar.2 = true ∧ scalar_ltb bar.2 kv.2 = false.
Proof.
  intros Hproduct Hc Hsum
    (product' & c' & sums & Hproduct' & Hc' & Hsums & Htop)%create_top_products_chart_Ok.
  rewrite Hproduct in Hproduct'. injection Hproduct' as <-.
  rewrite Hc in Hc'. injection Hc' as <-.
  assert (sums.*1 = group_keys str_le product) as Hkeys.
  { clear -Hsums. induction Hsums as [|k kv keys sums [Hk _] _ IH]; [done|].
    rewrite fmap_cons. by f_equal. }
  assert (Forall (λ kv, agg group_sum Sum (col_mask (is_key kv.1 product) c)
                        = Ok kv.2) sums) as Hagg.
  { clear -Hsums. induction Hsums as [|k kv keys sums [<- Hv] _ IH];
      constructor; done. }
  set (kept := filter (λ kv : string * Scalar, scalar_notnull kv.2 = true) sums).
  set (nulls := filter (λ kv : string * Scalar, scalar_notnull kv.2 = false) sums).
  assert (∃ sorted, sorted ≡ₚ kept ∧ descending sorted ∧
                    bc_data chart = take 10 (sorted ++ nulls)%list)
    as (sorted & Hperm & Hdesc & Hbars).
  { assert (∀ kv, kv ∈ kept →
              match c with
              | Float64Col _ => float_valued kv.2
              | _ => int_valued kv.2
              end) as Hkind.
    { intros kv [Hnn Hin]%list_elem_of_filter.
      rewrite Forall_forall in Hagg.
      by eapply sums_of_one_kind; [|apply Hagg|]. }
    destruct c; try done.
    - apply (nlargest_Ok float_valued float_valued_asym float_valued_trans);
        [by apply Forall_forall|done].
    - apply (nlargest_Ok int_valued int_valued_asym int_valued_trans);
        [by apply Forall_forall|done].
    - apply (nlargest_Ok int_valued int_valued_asym int_valued_trans);
        [by apply Forall_forall|done]. }
  set (full := (sorted ++ nulls)%list) in *.
  assert (full ≡ₚ sums) as Hfull.
  { unfold full. rewrite Hperm. apply filter_null_Permutation. }
  assert (Forall (λ bar : string * Scalar, scalar_notnull bar.2 = true) sorted)
    as Hsorted.
  { apply Forall_forall. intros bar Hbar. rewrite Hperm in Hbar.
    by apply list_elem_of_filter in Hbar as [? _]. }
  assert (Forall (λ bar : string * Scalar, scalar_notnull bar.2 = false) nulls)
    as Hnulls.
  { apply Forall_forall. intros bar Hbar.
    by apply list_elem_of_filter in Hbar as [? _]. }
  assert (descending full) as Hdfull.
  { apply StronglySorted_app. split; [|split; [done|]].
    - intros a b _ Hb. rewrite Forall_forall in Hnulls.
      by apply null_not_above, Hnulls.
    - by apply nulls_descending. }
  assert (bc_data chart `sublist_of` full) as Hsub
    by (rewrite Hbars; apply sublist_take).
  exists sums. split; [done|]. split; [done|].
  split; [by rewrite Hbars, length_take, Hfull|].
  split.
  { assert (NoDup full.*1) as Hnd.
    { rewrite Hfull, Hkeys. unfold group_keys. rewrite merge_sort_Permutation.
      apply NoDup_remove_dups. }
    by apply (sublist_NoDup _ _ Hnd), fmap_sublist. }
  split.
  { intros bar Hbar.
    assert (bar ∈ sums) as Hin.
    { rewrite <-Hfull. by apply (sublist_subseteq _ _ Hsub). }
    split; [done|].
    assert (bar.1 ∈ group_keys str_le product) as Hk.
    { rewrite <-Hkeys. apply list_elem_of_fmap. exists bar. auto. }
    unfold group_keys in Hk.
    by rewrite merge_sort_Permutation, elem_of_remove_dups in Hk. }
  split.
  { rewrite <-(take_drop 10 full) in Hdfull. rewrite <-Hbars in Hdfull.
    by apply StronglySorted_app_1_l in Hdfull. }
  split.
  { exists (take 10 sorted), (take (10 - length sorted) nulls).
    split; [by rewrite Hbars; unfold full; rewrite take_app|].
    split; by apply Forall_take. }
  intros kv Hkv Hnn Hout.
  assert (kv ∈ drop 10 full) as Hrest.
  { assert (kv ∈ (take 10 full ++ drop 10 full)%list) as [?|?]%elem_of_app;
      [by rewrite take_drop, Hfull|by rewrite Hbars in Hout|done]. }
  assert (kv ∈ drop 10 sorted) as Hrest'.
  { unfold full in Hrest. rewrite drop_app in Hrest.
    apply elem_of_app in Hrest as [?|Hnull]; [done|].
    assert (kv ∈ nulls) as Hnull'
      by (by apply (sublist_subseteq _ _
                      (sublist_drop nulls (10 - length sorted)))).
    rewrite Forall_forall in Hnulls. apply Hnulls in Hnull'. congruence. }
  assert (10 < length sorted)%nat as Hlong.
  { destruct (decide (10 < length sorted)%nat); [done|].
    rewrite drop_ge in Hrest' by lia. by apply elem_of_nil in Hrest'. }
  split.
  { rewrite Hbars, length_take. unfold full. rewrite length_app. lia. }
  intros bar Hbar. split.
  - rewrite Hbars in Hbar. unfold full in Hbar.
    rewrite take_app_le in Hbar by lia.
    rewrite Forall_forall in Hsorted.
    by apply Hsorted, (sublist_subseteq _ _ (sublist_take sorted 10)).
  - rewrite <-(take_drop 10 full) in Hdfull. rewrite <-Hbars in Hdfull.
    by apply (StronglySorted_app_1_elem_of _ _ _ _ _ Hdfull).
Qed.

Lemma top_products_are_the_largest_witness :
  text_col SampleNulls.lines "Product Name" = Ok ["b"; "a"; "b"] ∧
  create_top_products_chart SampleApp.row_order_sum "Sales"
    "Top 10 Selling Products" SampleNulls.lines
  = Ok (mkBarChart "Top 10 Selling Products" "sum(Sales):Q" "Product Name:N"
          [("a", SFloat (of_Z 1)); ("b", SFloat nan)],
        SampleNulls.lines) ∧
  ∃ sums : list (string * Scalar),
    sums.*1 = group_keys str_le ["b"; "a"; "b"] ∧
    Forall (λ kv, agg SampleApp.row_order_sum Sum
                    (col_mask (is_key kv.1 ["b"; "a"; "b"])
                       (Float64Col [S754_infinity false; of_Z 1;
                                    S754_infinity true]))
                  = Ok kv.2) sums ∧
    length [("a", SFloat (of_Z 1)); ("b", SFloat nan)]
    = (10 `min` length sums)%nat ∧
    NoDup [("a", SFloat (of_Z 1)); ("b", SFloat nan)].*1 ∧
    (∀ bar, bar ∈ [("a", SFloat (of_Z 1)); ("b", SFloat nan)] →
            bar ∈ sums ∧ bar.1 ∈ ["b"; "a"; "b"]) ∧
    descending [("a", SFloat (of_Z 1)); ("b", SFloat nan)] ∧
    (∃ numbers nulls,
       [("a", SFloat (of_Z 1)); ("b", SFloat nan)] = (numbers ++ nulls)%list ∧
       Forall (λ bar, scalar_notnull bar.2 = true) numbers ∧
       Forall (λ bar, scalar_notnull bar.2 = false) nulls) ∧
    ∀ kv, kv ∈ sums → scalar_notnull kv.2 = true →
      kv ∉ [("a", SFloat (of_Z 1)); ("b", SFloat nan)] →
      length [("a", SFloat (of_Z 1)); ("b", SFloat nan)] = 10%nat ∧
      ∀ bar, bar ∈ [("a", SFloat (of_Z 1)); ("b", SFloat nan)] →
        scalar_notnull bar.2 = true ∧ scalar_ltb bar.2 kv.2 = false.
Proof.
  split; [reflexivity|]. split; [vm_compute; reflexivity|].
  apply (top_products_are_the_largest SampleApp.row_order_sum "Sales"
           "Top 10 Selling Products" SampleNulls.lines
           ["b"; "a"; "b"]
           (Float64Col [S754_infinity false; of_Z 1; S754_infinity true])
           (mkBarChart "Top 10 Selling Products" "sum(Sales):Q" "Product Name:N"
              [("a", SFloat (of_Z 1)); ("b", SFloat nan)])
           SampleNulls.lines);
    [reflexivity|reflexivity|exact I|vm_compute; reflexivity].
Defined.

(** ** The shipping gauge *)

Section ShippingGauge.

Lemma foldr_min_spec (x : Z) l :
  (foldr Z.min x l = x ∨ foldr Z.min x l ∈ l) ∧
  foldr Z.min x l ≤ x ∧ ∀ d, d ∈ l → foldr Z.min x l ≤ d.
Proof.
  induction l as [|y l (Hin & Hx & Hall)]; cbn [foldr].
  - split; [by left|]. split; [lia|]. by intros d ?%elem_of_nil.
  - split; [|split].
    + destruct (Z.min_spec y (foldr Z.min x l)) as [[_ ->]|[_ ->]].
      * right. by left.
      * destruct Hin as [?|?]; [by left|right; by right].
    + lia.
    + intros d [->|Hd]%elem_of_cons; [lia|]. specialize (Hall d Hd). lia.
Qed.

Lemma foldr_max_spec (x : Z) l :
  (foldr Z.max x l = x ∨ foldr Z.max x l ∈ l) ∧
  x ≤ foldr Z.max x l ∧ ∀ d, d ∈ l → d ≤ foldr Z.max x l.
Proof.
  induction l as [|y l (Hin & Hx & Hall)]; cbn [foldr].
  - split; [by left|]. split; [lia|]. by intros d ?%elem_of_nil.
  - split; [|split].
    + destruct (Z.max_spec y (foldr Z.max x l)) as [[_ ->]|[_ ->]].
      * destruct Hin as [?|?]; [by left|right; by right].
      * right. by left.
    + lia.
    + intros d [->|Hd]%elem_of_cons; [lia|]. specialize (Hall d Hd). lia.
Qed.

End ShippingGauge.

(** For a table without rows the shipping gauge raises ValueError: the mean
    of no days is a NaN, which has no integer. Whenever the gauge is
    returned, the ends of its axis are the least and the greatest of the
    days to ship of the table. *)
Theorem shipping_gauge_axis (series_sum : list float → float) df days :
  int_col df "days to ship" = Ok days →
  (days = [] → create_shipping_gauge series_sum df = Raise ValueError) ∧
  ∀ g df', create_shipping_gauge series_sum df = Ok (g, df') →
    (g_axis g).1 ∈ days ∧ (g_axis g).2 ∈ days ∧
    ∀ d, d ∈ days → (g_axis g).1 ≤ d ≤ (g_axis g).2.
Proof.
  intros Hdays.
  assert (create_shipping_gauge series_sum df
          = match int_round
                    match days with
                    | [] => nan
                    | _ => div (series_sum (of_Z <$> days))
                               (of_Z (Z.of_nat (length days)))
                    end
            with
            | Ok value =>
                Ok (mkGauge value (foldr Z.min (default 0 (head days)) days,
                                   foldr Z.max (default 0 (head days)) days),
                    df)
            | Raise e => Raise e
            end) as ->.
  { unfold create_shipping_gauge.
    unfold mbind at 1. unfold chart_bind at 1. unfold read at 1. rewrite Hdays.
    unfold mbind, chart_bind, lift, read. cbn zeta.
    by destruct (int_round _). }
  split; [by intros ->|].
  intros g df'. destruct days as [|d0 days]; [done|].
  destruct (int_round _) as [value|e]; [|done]. intros [= <- _].
  cbn [g_axis fst snd head default].
  change (d0 `min` foldr Z.min d0 days) with (foldr Z.min d0 (d0 :: days)).
  change (d0 `max` foldr Z.max d0 days) with (foldr Z.max d0 (d0 :: days)).
  destruct (foldr_min_spec d0 (d0 :: days)) as (Hmin & _ & Hle).
  destruct (foldr_max_spec d0 (d0 :: days)) as (Hmax & _ & Hge).
  split; [destruct Hmin as [->|?]; [by left|done]|].
  split; [destruct Hmax as [->|?]; [by left|done]|].
  intros d Hd. split; [by apply Hle|by apply Hge].
Qed.

Lemma shipping_gauge_axis_witness :
  int_col SampleApp.loaded_lines "days to ship" = Ok [3; 3; 1] ∧
  ([3; 3; 1] = [] →
   create_shipping_gauge SampleApp.row_order_sum SampleApp.loaded_lines
   = Raise ValueError) ∧
  ∀ g df',
    create_shipping_gauge SampleApp.row_order_sum SampleApp.loaded_lines
    = Ok (g, df') →
    (g_axis g).1 ∈ [3; 3; 1] ∧ (g_axis g).2 ∈ [3; 3; 1] ∧
    ∀ d, d ∈ [3; 3; 1] → (g_axis g).1 ≤ d ≤ (g_axis g).2.
Proof.
  split; [reflexivity|].
  apply (shipping_gauge_axis SampleApp.row_order_sum SampleApp.loaded_lines
           [3; 3; 1]).
  reflexivity.
Defined.

(** ** The staff mapping *)

Section StaffMapping.

Lemma dict_snoc `{Countable K} {V} (pairs : list (K * V)) kv :
  dict (pairs ++ [kv]) = <[kv.1 := kv.2]> (dict pairs).
Proof. unfold dict. by rewrite foldl_app. Qed.

(** [dict(pairs)[k]] is the value of the last pair with the key [k]. *)
Lemma dict_lookup `{Countable K} {V} (pairs : list (K * V)) k :
  dict pairs !! k = snd <$> last (filter (λ kv, kv.1 = k) pairs).
Proof.
  induction pairs as [|kv pairs IH] using rev_ind.
  - unfold dict. cbn [foldl]. by rewrite lookup_empty.
  - rewrite dict_snoc, filter_app. destruct (decide (kv.1 = k)) as [<-|Hne].
    + rewrite lookup_insert_eq, filter_singleton_True by done.
      by rewrite last_snoc.
    + rewrite lookup_insert_ne, filter_singleton_False by done.
      by rewrite app_nil_r.
Qed.

End StaffMapping.

(** When People lists a region more than once, the orders of the region
    get the manager of its last listing: every cell of the derived column
    [region_manager] is the Regional Manager of the last row of People whose
    Region is that of the order. *)
Theorem manager_of_last_listing
    df data mm rets ids regions people listed managers_listed out :
  enricher_reads df data mm rets ids regions →
  df !! "People" = Some people →
  text_col people "Region" = Ok listed →
  text_col people "Regional Manager" = Ok managers_listed →
  enrich df = Ok out →
  ∃ managers,
    getitem out "region_manager" = Ok (ObjectCol managers) ∧
    Forall2 (λ r m,
       snd <$> last (filter (λ p, p.1 = r) (zip listed managers_listed))
       = Some m) regions managers.
Proof.
  intros Hreads Hpeople Hlisted Hmanagers Hout.
  pose proof Hreads as (_ & (people' & Hpeople' & Hmm) & _).
  rewrite Hpeople in Hpeople'. injection Hpeople' as <-.
  unfold mapping_manager in Hmm. rewrite Hlisted, Hmanagers in Hmm.
  injection Hmm as <-.
  apply (enrich_Ok _ _ _ _ _ _ Hreads) in Hout as (managers & Hall & ->).
  exists managers. split; [apply getitem_setitem_eq|].
  eapply Forall2_impl; [exact Hall|]. intros r m Hr.
  by rewrite <-dict_lookup.
Qed.

Lemma sample_reads_twice :
  enricher_reads SampleStaff.workbook_twice Sample.orders
    SampleStaff.managers_twice
    ["US-2"] ["CA-1"; "US-2"; "CA-1"] ["West"; "East"; "West"].
Proof.
  split; [reflexivity|]. split; [|split; [|split; reflexivity]].
  - exists SampleStaff.people_twice. split; reflexivity.
  - exists Sample.returns. split; reflexivity.
Defined.

Lemma manager_of_last_listing_witness :
  enricher_reads SampleStaff.workbook_twice Sample.orders
    SampleStaff.managers_twice
    ["US-2"] ["CA-1"; "US-2"; "CA-1"] ["West"; "East"; "West"] ∧
  enrich SampleStaff.workbook_twice = Ok SampleStaff.enriched_twice ∧
  ∃ managers,
    getitem SampleStaff.enriched_twice "region_manager"
    = Ok (ObjectCol managers) ∧
    Forall2 (λ r m,
       snd <$> last (filter (λ p, p.1 = r)
                       (zip ["West"; "East"; "West"] ["Ann"; "Bob"; "Cy"]))
       = Some m) ["West"; "East"; "West"] managers.
Proof.
  split; [exact sample_reads_twice|]. split; [reflexivity|].
  apply (manager_of_last_listing SampleStaff.workbook_twice Sample.orders
           SampleStaff.managers_twice ["US-2"] ["CA-1"; "US-2"; "CA-1"]
           ["West"; "East"; "West"] SampleStaff.people_twice
           ["West"; "East"; "West"] ["Ann"; "Bob"; "Cy"]
           SampleStaff.enriched_twice sample_reads_twice);
    reflexivity.
Defined.

(** ** The page *)

Section Page.

Variable group_sum : list float → float.
Variable series_sum : list float → float.
Variable millify : Scalar → result string.

Lemma main_Ok raw sel kpi drawn :
  App.main group_sum series_sum millify raw sel = Ok (kpi, drawn) →
  ∃ df s p o view view',
    load_data group_sum raw = Ok (df, s, p, o) ∧
    filter_data df sel = Ok view ∧
    create_kpi_metrics series_sum millify view s p o sel = Ok kpi ∧
    charts group_sum series_sum view = Ok (drawn, view').
Proof.
  unfold App.main. intros H.
  apply bind_Ok in H as ([[[df s] p] o] & Hload & H).
  apply bind_Ok in H as (options & _ & H).
  apply bind_Ok in H as (view & Hview & H).
  apply bind_Ok in H as (kpi' & Hkpi & H).
  apply bind_Ok in H as ([drawn' view'] & Hcharts & H).
  injection H as <- <-.
  by exists df, s, p, o, view, view'.
Qed.

End Page.

(** The charts of the page are drawn one after the other from one table,
    the view that [filter_data] returned: the category chart and the
    sunburst from the view as it is, the monthly trend next, and the product
    charts, the gauge and the stacked bars from the view with the columns
    Month and Month_num that the monthly trend has assigned. *)
Theorem main_draws_from_one_frame
    (group_sum series_sum : list float → float)
    (millify : Scalar → result string) raw sel kpi c1 c2 c3 c4 c5 bars :
  App.main group_sum series_sum millify raw sel
  = Ok (kpi, (c1, c2, c3, c4, c5, bars)) →
  ∃ df s p o view order,
    load_data group_sum raw = Ok (df, s, p, o) ∧
    filter_data df sel = Ok view ∧
    datetime_col view "Order Date" = Ok order ∧
    let view' :=
      setitem (setitem view "Month" (ObjectCol (strftime_b <$> order)))
              "Month_num" (Int64Col (dt_month <$> order)) in
    create_category_performance_chart group_sum view = Ok (c1, view) ∧
    create_order_distribution_chart view = Ok (c2, view) ∧
    create_monthly_sales_trend group_sum view = Ok (c3, view') ∧
    create_product_charts group_sum view' = Ok (c4, view') ∧
    create_shipping_gauge series_sum view' = Ok (c5, view') ∧
    sb_data bars = view'.
Proof.
  intros (df & s & p & o & view & final & Hload & Hview & _ & Hcharts)%main_Ok.
  unfold charts in Hcharts.
  apply chart_bind_Ok in Hcharts as (c1' & df1 & H1 & Hcharts).
  apply chart_bind_Ok in Hcharts as (c2' & df2 & H2 & Hcharts).
  apply chart_bind_Ok in Hcharts as (c3' & df3 & H3 & Hcharts).
  apply chart_bind_Ok in Hcharts as (c4' & df4 & H4 & Hcharts).
  apply chart_bind_Ok in Hcharts as (c5' & df5 & H5 & Hcharts).
  apply chart_bind_Ok in Hcharts as (c6' & df6 & H6 & Hcharts).
  injection Hcharts as <- <- <- <- <- <- <-.
  pose proof (category_chart_keeps_frame group_sum _ _ _ H1) as ->.
  pose proof (distribution_chart_keeps_frame _ _ _ H2) as ->.
  destruct (create_monthly_sales_trend_Ok _ _ _ _ H3) as (order & Horder).
  pose proof H3 as H3'.
  rewrite (create_monthly_sales_trend_unfold _ _ _ Horder) in H3'.
  pose proof (monthly_sales_traces_keeps_frame group_sum _ _ _ H3') as ->.
  pose proof (product_charts_keep_frame group_sum _ _ _ H4) as ->.
  pose proof (shipping_gauge_keeps_frame series_sum _ _ _ H5) as ->.
  unfold create_sales_trend_chart in H6. apply read_Ok in H6 as [[= <-] ->].
  by exists df, s, p, o, view, order.
Qed.

Lemma main_draws_from_one_frame_witness :
  ∃ kpi c1 c2 c3 c4 c5 bars,
    App.main SampleApp.row_order_sum SampleApp.row_order_sum
      SampleApp.unabridged SampleApp.raw_lines All
    = Ok (kpi, (c1, c2, c3, c4, c5, bars)) ∧
    ∃ df s p o view order,
      load_data SampleApp.row_order_sum SampleApp.raw_lines = Ok (df, s, p, o) ∧
      filter_data df All = Ok view ∧
      datetime_col view "Order Date" = Ok order ∧
      let view' :=
        setitem (setitem view "Month" (ObjectCol (strftime_b <$> order)))
                "Month_num" (Int64Col (dt_month <$> order)) in
      create_category_performance_chart SampleApp.row_order_sum view
      = Ok (c1, view) ∧
      create_order_distribution_chart view = Ok (c2, view) ∧
      create_monthly_sales_trend SampleApp.row_order_sum view = Ok (c3, view') ∧
      create_product_charts SampleApp.row_order_sum view' = Ok (c4, view') ∧
      create_shipping_gauge SampleApp.row_order_sum view' = Ok (c5, view') ∧
      sb_data bars = view'.
Proof.
  do 7 eexists. split; [vm_compute; reflexivity|].
  eapply (main_draws_from_one_frame SampleApp.row_order_sum
            SampleApp.row_order_sum SampleApp.unabridged SampleApp.raw_lines All).
  vm_compute; reflexivity.
Defined.

(** The table stays a table on its way through the page: loading a sheet
    whose columns all have one cell per row keeps the rows and gives such a
    table again, and so do the year filter and the assignments of the
    monthly trend. *)
Theorem table_stays_rectangular
    (group_sum : list float → float) raw df s p o sel view fig view' :
  rectangular raw →
  load_data group_sum raw = Ok (df, s, p, o) →
  filter_data df sel = Ok view →
  create_monthly_sales_trend group_sum view = Ok (fig, view') →
  index df = index raw ∧ rectangular df ∧
  rectangular view ∧
  index view' = index view ∧ rectangular view'.
Proof.
  intros Hrect Hload Hview Htrend.
  apply load_data_Ok in Hload
    as (order & ship & days & Horder & Hship & Hdays & -> & _).
  apply datetime_col_Ok in Horder, Hship.
  pose proof (rectangular_length _ _ _ Hrect Horder) as Lo.
  pose proof (rectangular_length _ _ _ Hrect Hship) as Ls.
  cbn [cells] in Lo, Ls. rewrite length_fmap in Lo. rewrite length_fmap in Ls.
  apply Forall2_length in Hdays. rewrite length_zip in Hdays.
  split; [done|].
  assert (rectangular
            (setitem (setitem raw "year" (Int64Col (dt_year <$> order)))
                     "days to ship" (Int64Col days))) as Hdf.
  { apply rectangular_setitem; [apply rectangular_setitem; [done|]|];
      cbn [cells setitem index]; rewrite !length_fmap; lia. }
  split; [done|].
  assert (rectangular view) as Hv.
  { destruct sel as [|y]; cbn in Hview.
    - by injection Hview as <-.
    - apply bind_Ok in Hview as (years & _ & [= <-]).
      by apply rectangular_loc_mask. }
  split; [done|].
  destruct (create_monthly_sales_trend_Ok _ _ _ _ Htrend) as (dates & Hdates).
  rewrite (create_monthly_sales_trend_unfold _ _ _ Hdates) in Htrend.
  apply monthly_sales_traces_keeps_frame in Htrend as ->.
  split; [done|].
  apply datetime_col_Ok in Hdates.
  pose proof (rectangular_length _ _ _ Hv Hdates) as Ld.
  cbn [cells] in Ld. rewrite length_fmap in Ld.
  apply rectangular_setitem; [apply rectangular_setitem; [done|]|];
    cbn [cells setitem index]; rewrite !length_fmap; lia.
Qed.

Lemma table_stays_rectangular_witness :
  rectangular SampleApp.raw_lines ∧
  index SampleApp.loaded_lines = index SampleApp.raw_lines ∧
  rectangular SampleApp.loaded_lines ∧
  rectangular SampleApp.lines_2020 ∧
  ∃ fig view',
    create_monthly_sales_trend SampleApp.row_order_sum SampleApp.lines_2020
    = Ok (fig, view') ∧
    index view' = index SampleApp.lines_2020 ∧ rectangular view'.
Proof.
  assert (rectangular SampleApp.raw_lines) as Hrect.
  { unfold rectangular. repeat constructor. }
  split; [exact Hrect|].
  assert (∃ fig view',
            create_monthly_sales_trend SampleApp.row_order_sum
              SampleApp.lines_2020 = Ok (fig, view')) as (fig & view' & Hfig).
  { do 2 eexists. vm_compute. reflexivity. }
  destruct (table_stays_rectangular SampleApp.row_order_sum SampleApp.raw_lines
              SampleApp.loaded_lines
              [(2020, "0.0%"); (2021, "50.0%")]
              [(2020, "0.0%"); (2021, "50.0%")]
              [(2020, "0.0%"); (2021, "-50.0%")] (Year 2020)
              SampleApp.lines_2020 fig view')
    as (H1 & H2 & H3 & H4 & H5);
    [exact Hrect|vm_compute; reflexivity|vm_compute; reflexivity|exact Hfig|].
  split; [exact H1|]. split; [exact H2|]. split; [exact H3|].
  exists fig, view'. split; [exact Hfig|]. split; [exact H4|exact H5].
Defined.
